(** * EduScan: the risk-assessment pipeline, the credentials file and the
      observation log, embedded from the Python sources

    Sources embedded here:
    - [pages/01_Prediction.py]: [validate_inputs], [display_recommendations],
      [create_risk_visualization], the Lottie helpers, and the
      single-student, reset and batch branches of [main];
    - [utils/auth_utils.py]: [_load_users], [authenticate_user],
      [logout_user], the session readers and the submit branch of
      [render_login_page], with the guards of the pages and of [app.py];
    - [pages/03_Parent_Tracker.py]: the dictionary the daily form saves,
      the date range of the progress and weekly views and the
      observations-log branch of [main];
    - [pages/02_Teacher_Resources.py]: [generate_activity];
    - [app.py]: the statistics and the risk pie of the dashboard.

    Python values are modelled as the code has them: form integers as [Z],
    probabilities as IEEE 754 binary64 values ([spec_float]), dictionaries
    as finite maps with string keys, exceptions as an explicit result
    type, and the Streamlit calls as a trace of UI events. *)

From Stdlib Require Import ZArith List Bool Lia.
From Stdlib Require Import Floats.SpecFloat Floats.PrimFloat Floats.FloatOps.
From Stdlib Require Import Sorting.Sorted Sorting.Permutation.
From stdpp Require Import base option list strings pretty gmap.

Open Scope string_scope.
Open Scope list_scope.
Open Scope Z_scope.

(** ** Risk tiers and the probability thresholds *)

Module Risk.

(** The three tiers of the dashboard. *)
Inductive RiskTier : Type := Low | Medium | High.

(** A Python [float] is a binary64 value.  The literals [0.3] and [0.7] of
    the source denote the binary64 values nearest to 3/10 and 7/10. *)
Definition prob : Type := spec_float.

Definition lit_0_3 : prob := S754_finite false 5404319552844595 (-54).
Definition lit_0_7 : prob := S754_finite false 6305039478318694 (-53).
Definition lit_0 : prob := S754_zero false.
Definition lit_1 : prob := S754_finite false 4503599627370496 (-52).
Definition lit_0_5 : prob := S754_finite false 4503599627370496 (-53).

(** Python's [<], [<=] and [>=] on floats: every comparison with a NaN
    operand is [False]. *)
Definition flt (x y : prob) : bool := SFltb x y.
Definition fle (x y : prob) : bool := SFleb x y.
Definition fge (x y : prob) : bool := SFleb y x.

(** A probability is a float in the closed interval from 0 to 1. *)
Definition is_probability (p : prob) : Prop :=
  fle lit_0 p = true /\ fle p lit_1 = true.

(** The branch structure shared by lines 511-522, 605-616 and 695-700 of
    [pages/01_Prediction.py]:
    [if p < 0.3: ... elif p < 0.7: ... else: ...]. *)
Definition classify (p : prob) : RiskTier :=
  if flt p lit_0_3 then Low
  else if flt p lit_0_7 then Medium
  else High.

Section Paths.
(** [get_text] lives in [utils/language_utils.py]; [language] is the
    module-level variable read from the session. *)
Variable get_text : string -> string -> string.
Variable language : string.

(** Lines 511-522: the single-student path. *)
Definition single_risk_level (prediction_prob : prob) : string :=
  if flt prediction_prob lit_0_3 then get_text "low_risk" language
  else if flt prediction_prob lit_0_7 then get_text "medium_risk" language
  else get_text "high_risk" language.

(** The label the single-student path gives to a tier. *)
Definition localized_label (t : RiskTier) : string :=
  match t with
  | Low => get_text "low_risk" language
  | Medium => get_text "medium_risk" language
  | High => get_text "high_risk" language
  end.
End Paths.

(** Lines 695-700: the batch path. *)
Definition batch_risk_level (prediction_prob : prob) : string :=
  if flt prediction_prob lit_0_3 then "Low Risk"
  else if flt prediction_prob lit_0_7 then "Medium Risk"
  else "High Risk".

(** The label the batch path gives to a tier. *)
Definition batch_label (t : RiskTier) : string :=
  match t with
  | Low => "Low Risk"
  | Medium => "Medium Risk"
  | High => "High Risk"
  end.

End Risk.

(** ** Python results and the Streamlit trace *)

Module Py.

(** A call either returns a value or raises an exception, of which the
    callers only use the message ([str(e)]). *)
Inductive result (A : Type) : Type :=
| Ok (a : A)
| Raise (msg : string).
Arguments Ok {A} a.
Arguments Raise {A} msg.

(** Scalar values of form fields and of cells of an uploaded table. *)
Inductive cell : Type :=
| CInt (z : Z)
| CFloat (f : spec_float)
| CStr (s : string).

(** A Python [dict] with string keys. *)
Abbreviation dict := (gmap string cell).

(** Values as [json.load] returns them and as [st.session_state] holds
    them ([JNull] is [None]). *)
#[local] Set Warnings "-register-all".
Inductive json : Type :=
| JNull
| JBool (b : bool)
| JInt (z : Z)
| JFloat (f : spec_float)
| JStr (s : string)
| JArr (items : list json)
| JObj (fields : gmap string json).
#[local] Set Warnings "register-all".

(** [x in l] for a list of strings. *)
Definition str_in (x : string) (l : list string) : bool :=
  existsb (String.eqb x) l.

(** [sep.join(l)]. *)
Fixpoint join (sep : string) (l : list string) : string :=
  match l with
  | [] => ""
  | [x] => x
  | x :: rest => x +:+ sep +:+ join sep rest
  end.

End Py.

Module UI.
Import Py.

(** The HTML blocks of the result view; their markup is layout only, the
    fields below are the values interpolated into it. *)
Inductive html_block : Type :=
| ResultsHeader (student_name : string)
| RiskBanner (risk_color risk_icon_html risk_level confidence : string)
| RecommendationsHeader
| SummaryHeader.

(** What a run of a page does that the outside can observe, in program
    order: the Streamlit output calls, the writes to [st.session_state]
    and the calls into [utils]. *)
Inductive event : Type :=
| StError (msg : string)
| StWrite (msg : string)
| StMarkdown (msg : string)
| StSuccess (msg : string)
| StInfo (msg : string)
| StHtml (block : html_block)
| StCharts (prediction_prob : spec_float) (student_data : dict)
| StTable (area rating : list string)
| StDataframe (table : list dict)
| StProgress (done total : Z)
| StPieChart (table : list dict)
| StDownloadButton (data : list dict)
| StSwitchPage (page : string)
| SessionWrite (key : string)
| CallMakePrediction (student_data : dict)
| CallSavePrediction (record : dict).

(** The calls of [make_prediction] in a trace. *)
Definition is_model_call (e : event) : bool :=
  match e with CallMakePrediction _ => true | _ => false end.

Definition model_calls (t : list event) : list event :=
  List.filter is_model_call t.

(** The events that only render text. *)
Definition is_render (e : event) : bool :=
  match e with StMarkdown _ | StWrite _ => true | _ => false end.

End UI.

(** ** [pages/01_Prediction.py] *)

Module Prediction.
Import Py UI Risk.

(** [validate_inputs], lines 120-137.  Each [if not (lo <= x <= hi)]
    appends one message. *)
Definition in_range (lo x hi : Z) : bool := (lo <=? x) && (x <=? hi).

Definition check (ok : bool) (msg : string) : list string :=
  if ok then [] else [msg].

Definition validate_inputs
    (math_score reading_score writing_score attendance behavior literacy : Z)
    : list string :=
  check (in_range 0 math_score 100) "Math score must be between 0 and 100"
  ++ check (in_range 0 reading_score 100) "Reading score must be between 0 and 100"
  ++ check (in_range 0 writing_score 100) "Writing score must be between 0 and 100"
  ++ check (in_range 0 attendance 100) "Attendance must be between 0 and 100%"
  ++ check (in_range 1 behavior 5) "Behavior rating must be between 1 and 5"
  ++ check (in_range 1 literacy 10) "Literacy level must be between 1 and 10".

(** The bullet prefix of lines 236 and 473, byte for byte as the source
    file has it. *)
Definition bullet : string := "â€¢ ".

(** The three static lists of [display_recommendations], lines 205-231. *)
Definition low_recommendations : list string :=
  [ "Maintain current learning pace and methods";
    "Continue regular progress monitoring";
    "Encourage continued engagement in all subjects";
    "Consider enrichment activities to challenge the student" ].

Definition medium_recommendations : list string :=
  [ "Implement targeted interventions in lower-performing areas";
    "Increase frequency of progress monitoring";
    "Consider additional support in specific subjects";
    "Engage parents in home-based learning activities";
    "Explore different teaching methods and materials" ].

Definition high_recommendations : list string :=
  [ "Initiate comprehensive assessment by learning specialists";
    "Implement intensive intervention strategies";
    "Consider individualized education plan (IEP)";
    "Increase collaboration between teachers and parents";
    "Explore assistive technologies and adaptive methods";
    "Regular monitoring and adjustment of intervention strategies" ].

(** The static table keyed by tier. *)
Definition recommend (t : RiskTier) : list string :=
  match t with
  | Low => low_recommendations
  | Medium => medium_recommendations
  | High => high_recommendations
  end.

(** A table as [pd.read_csv(uploaded_file)] returns it for a file whose
    header names every field of its rows: the column labels and the rows
    in file order, each with the cells of the table: an integer is a
    [CInt], a float (or a gap among numbers) a [CFloat] and a text a
    [CStr]. *)
Record DataFrame : Type := {
  columns : list string;
  rows : list dict
}.

Definition len (df : DataFrame) : Z := Z.of_nat (length (rows df)).

(** [df.index]: [pd.read_csv(uploaded_file)] of line 675 passes no
    [index_col], so the index of such a table is [RangeIndex(0, len(df))]
    and the label of a row is its position.  (A file whose rows have more
    fields than the header has names, of which [read_csv] makes the first
    field the index, is not a [DataFrame] of this model.) *)
Definition range_index (df : DataFrame) : list Z :=
  map Z.of_nat (seq 0 (length (rows df))).

(** The dtype of [df.values], the one array [df.iterrows()] takes its
    rows from: [object] when the table has a text cell, else [float64]
    when it has a float cell, else [int64]. *)
Inductive dtype : Type := int64 | float64 | object.

Definition is_text (c : cell) : bool :=
  match c with CStr _ => true | _ => false end.

Definition is_float (c : cell) : bool :=
  match c with CFloat _ => true | _ => false end.

(** The cells of the table, row by row along the columns. *)
Definition cells (df : DataFrame) : list cell :=
  concat (map (fun row => omap (fun col => row !! col) (columns df))
              (rows df)).

Definition values_dtype (df : DataFrame) : dtype :=
  if existsb is_text (cells df) then object
  else if existsb is_float (cells df) then float64
  else int64.

(** The conversion of an int64 to float64: the nearest binary64 value,
    ties to even. *)
Definition float_of_int (z : Z) : spec_float :=
  binary_normalize 53 1024 z 0 false.

(** A cell as an array of the given dtype holds it: in a [float64] array
    the integers are floats. *)
Definition as_dtype (d : dtype) (c : cell) : cell :=
  match d, c with
  | float64, CInt z => CFloat (float_of_int z)
  | _, _ => c
  end.

(** [row.to_dict()] for the row [df.iterrows()] yields for a row of the
    table. *)
Definition yielded (df : DataFrame) (row : dict) : dict :=
  as_dtype (values_dtype df) <$> row.

(** [df.iterrows()]: the index labels with the rows. *)
Definition iterrows (df : DataFrame) : list (Z * dict) :=
  combine (range_index df) (map (yielded df) (rows df)).

(** Line 678. *)
Definition required_columns : list string :=
  [ "math_score"; "reading_score"; "writing_score"; "attendance";
    "behavior"; "literacy" ].

(** Line 679:
    [[col for col in required_columns if col not in df.columns]]. *)
Definition missing_columns (df : DataFrame) : list string :=
  List.filter (fun col => negb (str_in col (columns df))) required_columns.

Section Page.
(** Functions of [utils] that are not part of the embedded sources, and
    Python's [format(p, '.1%')]. *)
Variable get_text : string -> string -> string.
Variable get_material_icon_html : string -> string -> string.
Variable make_prediction : dict -> result (Z * prob).
Variable format_percent : prob -> string.
(** The module-level [language]. *)
Variable language : string.

(** The list chosen by the [if]/[elif]/[else] of lines 203-232. *)
Definition recommendations_for (risk_level : string) : list string :=
  if String.eqb risk_level (get_text "low_risk" language) then
    low_recommendations
  else if String.eqb risk_level (get_text "medium_risk" language) then
    medium_recommendations
  else high_recommendations.

(** The banner written by the same branches. *)
Definition recommendation_banner (risk_level : string) : string :=
  if String.eqb risk_level (get_text "low_risk" language) then
    " " +:+ get_material_icon_html "check_circle" "fill" +:+ " **Low Risk** - "
        +:+ get_text "maintain_academic_support" language
  else if String.eqb risk_level (get_text "medium_risk" language) then
    " " +:+ get_material_icon_html "warning" "fill" +:+ " **Medium Risk** - "
        +:+ get_text "provide_targeted_interventions" language +:+ " recommended"
  else
    " " +:+ get_material_icon_html "error" "fill" +:+ " **High Risk** - "
        +:+ get_text "implement_intensive_program" language +:+ " required".

(** [display_recommendations], lines 200-236. *)
Definition display_recommendations (risk_level : string) (student_data : dict)
    : list event :=
  StMarkdown (recommendation_banner risk_level)
  :: StMarkdown ("### " +:+ get_text "recommendations" language)
  :: map (fun rec => StWrite (bullet +:+ rec)) (recommendations_for risk_level).

(** The [student_data] dictionary of lines 475-482. *)
Definition make_student_data
    (math_score reading_score writing_score attendance behavior literacy : Z)
    : dict :=
  <["math_score" := CInt math_score]>
  (<["reading_score" := CInt reading_score]>
  (<["writing_score" := CInt writing_score]>
  (<["attendance" := CInt attendance]>
  (<["behavior" := CInt behavior]>
  (<["literacy" := CInt literacy]> ∅))))).

(** Colour and icon of the banner, lines 511-522. *)
Definition risk_color (p : prob) : string :=
  if flt p lit_0_3 then "var(--success-green)"
  else if flt p lit_0_7 then "var(--warning-orange)"
  else "var(--danger-red)".

Definition risk_icon_html (p : prob) : string :=
  if flt p lit_0_3 then get_material_icon_html "check_circle" "fill"
  else if flt p lit_0_7 then get_material_icon_html "warning" "fill"
  else get_material_icon_html "error" "fill".

Definition pretty_Z (z : Z) : string := pretty z.

(** The summary table of lines 556-560. *)
Definition summary_table
    (math_score reading_score writing_score attendance behavior literacy : Z)
    (risk_level : string) (prediction_prob : prob) : event :=
  StTable
    [ "Mathematics"; "Reading"; "Writing"; "Attendance"; "Behavior";
      "Literacy"; "Overall Risk"; "AI Confidence" ]
    [ pretty_Z math_score +:+ "%"; pretty_Z reading_score +:+ "%";
      pretty_Z writing_score +:+ "%"; pretty_Z attendance +:+ "%";
      pretty_Z behavior +:+ "/5"; pretty_Z literacy +:+ "/10";
      risk_level; format_percent prediction_prob ].

(** The form of the single-student view, as read when the script runs. *)
Record form : Type := {
  math_score : Z;
  reading_score : Z;
  writing_score : Z;
  attendance : Z;
  behavior : Z;
  literacy : Z;
  student_name : string;
  grade_level : string;
  notes : string;
  save_button : bool;
  save_after_button : bool
}.

(** The record saved at lines 563-572; [now] is
    [datetime.now().isoformat()] and [prediction] the label of the model.
    The later [**student_data] entries win over the earlier keys. *)
Definition prediction_record (now : string) (f : form) (prediction : Z)
    (prediction_prob : prob) (risk_level : string) (student_data : dict)
    : dict :=
  student_data ∪
  (<["timestamp" := CStr now]>
  (<["student_name" := CStr (student_name f)]>
  (<["grade_level" := CStr (grade_level f)]>
  (<["prediction" := CInt prediction]>
  (<["probability" := CFloat prediction_prob]>
  (<["risk_level" := CStr risk_level]>
  (<["notes" := CStr (notes f)]> ∅))))))).

(** The body of [if predict_button:], lines 467-578. *)
Definition on_predict (now : string) (f : form) : list event :=
  let errors :=
    validate_inputs (math_score f) (reading_score f) (writing_score f)
                    (attendance f) (behavior f) (literacy f) in
  match errors with
  | _ :: _ =>
      StError (get_material_icon_html "error" "fill" +:+ " "
               +:+ get_text "please_correct_errors" language)
      :: map (fun error => StWrite (bullet +:+ error)) errors
  | [] =>
      let student_data :=
        make_student_data (math_score f) (reading_score f) (writing_score f)
                          (attendance f) (behavior f) (literacy f) in
      CallMakePrediction student_data ::
      match make_prediction student_data with
      | Ok (prediction, prediction_prob) =>
          let risk_level := single_risk_level get_text language prediction_prob in
          [ SessionWrite "show_prediction_results";
            SessionWrite "current_prediction_data";
            StHtml (ResultsHeader (student_name f));
            StHtml (RiskBanner (risk_color prediction_prob)
                               (risk_icon_html prediction_prob) risk_level
                               (format_percent prediction_prob));
            StCharts prediction_prob student_data;
            StHtml RecommendationsHeader ]
          ++ display_recommendations risk_level student_data
          ++ [ StHtml SummaryHeader;
               summary_table (math_score f) (reading_score f)
                 (writing_score f) (attendance f) (behavior f) (literacy f)
                 risk_level prediction_prob ]
          ++ (if save_button f || save_after_button f then
                [ CallSavePrediction
                    (prediction_record now f prediction prediction_prob
                                       risk_level student_data);
                  StSuccess " Prediction saved successfully!" ]
              else [])
      | Raise msg =>
          [ StError (get_material_icon_html "error" "fill"
                     +:+ " Error making prediction: " +:+ msg);
            StInfo "Note: Using sample prediction model. Replace with your trained model file." ]
      end
  end.

(** The dictionary appended to [results] at lines 702-707: the three
    derived keys first, then [**row.to_dict()], whose entries win over
    equal keys. *)
Definition result_row (idx : Z) (risk_level : string) (prediction_prob : prob)
    (row : dict) : dict :=
  row ∪
  (<["Student_ID" := CInt (idx + 1)]>
  (<["Risk_Level" := CStr risk_level]>
  (<["Risk_Probability" := CStr (format_percent prediction_prob)]> ∅))).

(** The loop of lines 691-712 over the pairs [df.iterrows()] yields: the
    events it emits and the list [results] it builds.  A row whose
    prediction raises is reported and contributes no result. *)
Fixpoint batch_rows (total : Z) (todo : list (Z * dict))
    : list event * list dict :=
  match todo with
  | [] => ([], [])
  | (idx, row) :: rest =>
      let '(events, results) := batch_rows total rest in
      match make_prediction row with
      | Ok (prediction, prediction_prob) =>
          (CallMakePrediction row :: StProgress (idx + 1) total :: events,
           result_row idx (batch_risk_level prediction_prob) prediction_prob row
             :: results)
      | Raise msg =>
          (CallMakePrediction row
             :: StError ("Error processing student " +:+ pretty_Z (idx + 1)
                         +:+ ": " +:+ msg)
             :: events,
           results)
      end
  end.

(** Whether [make_prediction] returns for a row. *)
Definition returns (row : dict) : bool :=
  match make_prediction row with Ok _ => true | Raise _ => false end.

(** What a result row holds, relative to the row of the table it was
    built from: every cell of the row as [df.values] holds it and, where
    the table has no column of that name, the derived level and
    probability. *)
Definition row_passed_through (df : DataFrame) (row res : dict) : Prop :=
  (forall k v, row !! k = Some v ->
     res !! k = Some (as_dtype (values_dtype df) v)) /\
  exists prediction p,
    make_prediction (yielded df row) = Ok (prediction, p) /\
    (row !! "Risk_Level" = None ->
       res !! "Risk_Level" = Some (CStr (batch_risk_level p))) /\
    (row !! "Risk_Probability" = None ->
       res !! "Risk_Probability" = Some (CStr (format_percent p))).

(** Lines 714-730.  [results_df['Risk_Level']] raises [KeyError] when the
    frame has no such column, that is when [results] is empty; the error
    is caught by the handler of line 732. *)
Definition batch_report (results : list dict) : list event :=
  StMarkdown "### Batch Prediction Results"
  :: StDataframe results
  :: match results with
     | [] =>
         [ StError (" " +:+ get_material_icon_html "error" "fill"
                    +:+ " Error reading file: 'Risk_Level'") ]
     | _ :: _ =>
         [ StPieChart results; StDownloadButton results ]
     end.

(** The branch [elif prediction_type == "Batch Upload":], lines 672-735.
    [uploaded_file] is [None] without an upload and otherwise the outcome
    of [pd.read_csv]; [process_button] is the state of the button of
    line 687. *)
Definition batch_upload (uploaded_file : option (result DataFrame))
    (process_button : bool) : list event :=
  match uploaded_file with
  | None => [ StInfo "Please upload a CSV file to begin batch processing" ]
  | Some (Raise msg) =>
      [ StError (" " +:+ get_material_icon_html "error" "fill"
                 +:+ " Error reading file: " +:+ msg) ]
  | Some (Ok df) =>
      StSuccess (" Uploaded file with " +:+ pretty_Z (len df) +:+ " students")
      :: match missing_columns df with
         | _ :: _ =>
             [ StError (get_material_icon_html "error" "fill"
                        +:+ " Missing required columns: "
                        +:+ join ", " (missing_columns df)) ]
         | [] =>
             StMarkdown "### Data Preview"
             :: StDataframe (firstn 5 (rows df))
             :: (if process_button then
                   let '(events, results) :=
                     batch_rows (len df) (iterrows df) in
                   StProgress 0 (len df) :: events ++ batch_report results
                 else [])
         end
  end.

(** The table behind the download button of a trace, if one is offered. *)
Fixpoint downloaded (t : list event) : option (list dict) :=
  match t with
  | [] => None
  | StDownloadButton data :: _ => Some data
  | _ :: rest => downloaded rest
  end.

End Page.

(** A form with the default values of the page, except an attendance of
    150. *)
Definition form_attendance_150 : form :=
  {| math_score := 75; reading_score := 80; writing_score := 70;
     attendance := 150; behavior := 3; literacy := 6;
     student_name := "A"; grade_level := "3"; notes := "";
     save_button := false; save_after_button := false |}.

(** Sample inputs.  [sample_model] stands for a model adapter that raises
    when a feature is not a number, the inference error of the spec. *)
Definition row_ok : dict := make_student_data 75 80 70 85 3 6.

Definition row_bad : dict := <["math_score" := CStr "abc"]> row_ok.

Definition df_missing_behavior : DataFrame :=
  {| columns := [ "math_score"; "reading_score"; "writing_score";
                  "attendance"; "literacy" ];
     rows := [ delete "behavior" row_ok ] |}.

Definition df_two_rows : DataFrame :=
  {| columns := required_columns; rows := [ row_ok; row_bad ] |}.

Definition df_one_row : DataFrame :=
  {| columns := required_columns; rows := [ row_ok ] |}.

Definition sample_model (student_data : dict) : result (Z * prob) :=
  match student_data !! "math_score" with
  | Some (CInt _) | Some (CFloat _) => Ok (0, lit_0_5)
  | _ => Raise "could not convert string to float"
  end.

(** A table with a float column and no text column: attendance 85.5. *)
Definition lit_85_5 : spec_float := S754_finite false 6016527627190272 (-46).

Definition lit_75 : spec_float := S754_finite false 5277655813324800 (-46).

Definition df_float_attendance : DataFrame :=
  {| columns := required_columns;
     rows := [ <["attendance" := CFloat lit_85_5]> row_ok ] |}.

Definition sample_icon (name style : string) : string := name.

Definition sample_percent (p : prob) : string := "50.0%".

End Prediction.

(** ** [utils/auth_utils.py] *)

Module Auth.
Import Py UI.

(** What reading [data/users.json] does: [json.load] returns a value,
    raises [json.JSONDecodeError], or [open]/[read] raises another
    exception with message [msg]. *)
Inductive file_content : Type :=
| Decodes (v : json)
| Corrupt
| Unreadable (msg : string).

(** [data/users.json]: missing, of size 0, or with content. *)
Inductive users_file : Type :=
| Absent
| Empty
| Stored (c : file_content).

(** The state a login touches: the directory [data], the users file, the
    session and what has been shown.  Writes to the disk are taken to
    succeed. *)
Record world : Type := {
  data_dir : bool;
  users_json : users_file;
  session_state : gmap string json;
  shown : list event
}.

(** Computations over the world that return or raise; the effects done
    before an exception stay. *)
Definition M (A : Type) : Type := world -> result A * world.

Definition ret {A : Type} (a : A) : M A := fun w => (Ok a, w).

Definition raise {A : Type} (msg : string) : M A := fun w => (Raise msg, w).

Definition bind {A B : Type} (c : M A) (k : A -> M B) : M B :=
  fun w =>
    match c w with
    | (Ok a, w') => k a w'
    | (Raise msg, w') => (Raise msg, w')
    end.

Notation "'let!' x ':=' c 'in' k" := (bind c (fun x => k))
  (at level 10, x name, c at level 100, k at level 200).

(** A Streamlit output call. *)
Definition emit (e : event) : M unit :=
  fun w =>
    (Ok tt, {| data_dir := data_dir w; users_json := users_json w;
               session_state := session_state w;
               shown := shown w ++ [e] |}).

(** [st.session_state[key] = v]. *)
Definition session_set (key : string) (v : json) : M unit :=
  fun w =>
    (Ok tt, {| data_dir := data_dir w; users_json := users_json w;
               session_state := <[key := v]> (session_state w);
               shown := shown w |}).

(** [st.session_state[key]]. *)
Definition session_get (key : string) : M json :=
  fun w =>
    match session_state w !! key with
    | Some v => (Ok v, w)
    | None => (Raise ("KeyError: " +:+ key), w)
    end.

(** [os.makedirs("data")] when the directory is missing (lines 10-11). *)
Definition ensure_data_dir : M unit :=
  fun w =>
    (Ok tt, {| data_dir := true; users_json := users_json w;
               session_state := session_state w; shown := shown w |}).

(** [json.dump(v, f)] into a freshly opened [data/users.json]. *)
Definition write_users (v : json) : M unit :=
  fun w =>
    (Ok tt, {| data_dir := data_dir w; users_json := Stored (Decodes v);
               session_state := session_state w; shown := shown w |}).

Definition read_users_file : M users_file := fun w => (Ok (users_json w), w).

(** One account record. *)
Definition user_record (username password role : string) : json :=
  JObj (<["username" := JStr username]>
       (<["password" := JStr password]>
       (<["role" := JStr role]> ∅))).

(** Lines 14-18. *)
Definition dummy_users : json :=
  JArr [ user_record "teacher1" "password123" "teacher";
         user_record "parent1" "password123" "parent";
         user_record "admin" "adminpassword" "admin" ].

(** [_load_users], lines 8-31. *)
Definition _load_users : M json :=
  let! _ := ensure_data_dir in
  let! file := read_users_file in
  match file with
  | Absent | Empty =>
      let! _ := write_users dummy_users in
      ret dummy_users
  | Stored (Decodes v) => ret v
  | Stored Corrupt =>
      let! _ := emit (StError "Error: users.json is corrupt. Please check the file.") in
      ret (JArr [])
  | Stored (Unreadable msg) =>
      let! _ := emit (StError ("Error loading user data: " +:+ msg)) in
      ret (JArr [])
  end.

(** The characters of a string, as one-character strings. *)
Fixpoint chars (s : string) : list string :=
  match s with
  | EmptyString => []
  | String c rest => String c EmptyString :: chars rest
  end.

(** [for user in users]: the values the loop visits. *)
Definition iterate (v : json) : M (list json) :=
  match v with
  | JArr items => ret items
  | JObj fields => ret (map (fun kv => JStr (fst kv)) (map_to_list fields))
  | JStr s => ret (map JStr (chars s))
  | JNull | JBool _ | JInt _ | JFloat _ =>
      raise "TypeError: object is not iterable"
  end.

(** [user[key]] for a string key. *)
Definition subscript (user : json) (key : string) : M json :=
  match user with
  | JObj fields =>
      match fields !! key with
      | Some v => ret v
      | None => raise ("KeyError: " +:+ key)
      end
  | _ => raise "TypeError: indices must be integers"
  end.

(** [v == s] for a [str] [s]. *)
Definition eq_str (v : json) (s : string) : bool :=
  match v with
  | JStr s' => String.eqb s' s
  | _ => false
  end.

(** The loop of [authenticate_user], lines 36-43; [and] evaluates its
    right operand only when the left one holds. *)
Fixpoint authenticate_loop (username password : string) (users : list json)
    : M bool :=
  match users with
  | [] =>
      let! _ := session_set "authenticated" (JBool false) in
      ret false
  | user :: rest =>
      let! name := subscript user "username" in
      let! matched :=
        (if eq_str name username then
           let! pw := subscript user "password" in
           ret (eq_str pw password)
         else ret false) in
      if (matched : bool) then
        let! _ := session_set "authenticated" (JBool true) in
        let! name' := subscript user "username" in
        let! _ := session_set "username" name' in
        let! role := subscript user "role" in
        let! _ := session_set "role" role in
        ret true
      else authenticate_loop username password rest
  end.

(** [authenticate_user], lines 33-43. *)
Definition authenticate_user (username password : string) : M bool :=
  let! users := _load_users in
  let! items := iterate users in
  authenticate_loop username password items.

Section Login.
(** Python built-ins: [str.capitalize] and [str()] of a value that is not
    a string. *)
Variable capitalize : string -> string.
Variable repr : json -> string.

Definition py_str (v : json) : string :=
  match v with
  | JStr s => s
  | _ => repr v
  end.

(** [role.capitalize()]. *)
Definition call_capitalize (role : json) : M string :=
  match role with
  | JStr s => ret (capitalize s)
  | _ => raise "AttributeError: capitalize"
  end.

(** The body of [if submitted:] in [render_login_page], lines 79-84. *)
Definition login_submitted (username password : string) : M unit :=
  let! ok := authenticate_user username password in
  if (ok : bool) then
    let! name := session_get "username" in
    let! role := session_get "role" in
    let! role_cap := call_capitalize role in
    let! _ := emit (StSuccess ("Welcome, " +:+ py_str name +:+ " ("
                               +:+ role_cap +:+ ")!")) in
    emit (StSwitchPage "app.py")
  else emit (StError "Invalid username or password.").

End Login.

(** The field [key] of a record. *)
Definition field (rec : json) (key : string) : option json :=
  match rec with
  | JObj fields => fields !! key
  | _ => None
  end.

(** The records a users file holds. *)
Definition stored_records (f : users_file) : list json :=
  match f with
  | Stored (Decodes (JArr items)) => items
  | _ => []
  end.

(** A record of the credentials file as the spec declares it: an object
    with string fields [username], [password] and [role]. *)
Definition wf_user (rec : json) : Prop :=
  exists username password role,
    field rec "username" = Some (JStr username) /\
    field rec "password" = Some (JStr password) /\
    field rec "role" = Some (JStr role).

(** A users file that, when it decodes, is an array of such records. *)
Definition wf_users_file (f : users_file) : Prop :=
  match f with
  | Stored (Decodes v) => exists items, v = JArr items /\ Forall wf_user items
  | _ => True
  end.

(** A record with the given credentials. *)
Definition has_credentials (username password : string) (rec : json) : Prop :=
  field rec "username" = Some (JStr username) /\
  field rec "password" = Some (JStr password).

(** The state [_load_users] leaves. *)
Definition loaded (w : world) : world := snd (_load_users w).

(** The session after a refused and after a granted login. *)
Definition deny (w : world) : world :=
  {| data_dir := data_dir w; users_json := users_json w;
     session_state := <["authenticated" := JBool false]> (session_state w);
     shown := shown w |}.

Definition grant (username role : string) (w : world) : world :=
  {| data_dir := data_dir w; users_json := users_json w;
     session_state :=
       <["role" := JStr role]>
       (<["username" := JStr username]>
       (<["authenticated" := JBool true]> (session_state w)));
     shown := shown w |}.

(** A fresh installation and sample states. *)
Definition fresh_world : world :=
  {| data_dir := false; users_json := Absent; session_state := ∅; shown := [] |}.

Definition corrupt_world : world :=
  {| data_dir := true; users_json := Stored Corrupt; session_state := ∅;
     shown := [] |}.

(** A users file whose only record lacks the [password] field. *)
Definition malformed_world : world :=
  {| data_dir := true;
     users_json := Stored (Decodes (JArr [ JObj {[ "username" := JStr "bob" ]} ]));
     session_state := ∅; shown := [] |}.

Definition installed_world : world :=
  {| data_dir := true; users_json := Stored (Decodes dummy_users);
     session_state := ∅; shown := [] |}.

End Auth.

(** ** The record store of the spec *)

Module RecordStore.
Import Py.

Section Store.
(** The records of one collection (predictions or observations). *)
Variable record : Type.

(** Modelled from the spec: the backing file of a collection;
    [utils/data_utils.py], which reads and writes it, is not part of the
    sources.  The file is absent, unreadable (corrupt or not readable), or
    holds a JSON array of records; [writable] tells whether writing the
    file succeeds. *)
Inductive content : Type :=
| NoFile
| Damaged
| Records (rs : list record).

Record store : Type := {
  file : content;
  writable : bool
}.

(** Modelled from the spec: [load_all], missing with
    [utils/data_utils.py]: the sequence of records, newest last; a corrupt
    or unreadable store is treated as empty on read. *)
Definition load_all (s : store) : list record :=
  match file s with
  | Records rs => rs
  | NoFile | Damaged => []
  end.

(** Modelled from the spec: [append], missing with [utils/data_utils.py]:
    loads the existing records (an empty collection if the store is absent
    or unreadable), appends the new record and writes the full collection
    back; a write failure is reported to the caller and leaves the file. *)
Definition append (r : record) (s : store) : result unit * store :=
  let existing := load_all s in
  if writable s then
    (Ok tt, {| file := Records (existing ++ [r]); writable := writable s |})
  else (Raise "write failed", s).

End Store.

Arguments NoFile {record}.
Arguments Damaged {record}.
Arguments Records {record} rs.
Arguments file {record} s.
Arguments writable {record} s.
Arguments load_all {record} s.
Arguments append {record} r s.

End RecordStore.

(** ** The Lottie helpers of the pages *)

Module Lottie.
Import Py.

(** Sequencing of calls that return or raise. *)
Definition rbind {A B : Type} (r : result A) (k : A -> result B) : result B :=
  match r with
  | Ok a => k a
  | Raise msg => Raise msg
  end.

Notation "'try!' x ':=' r 'in' k" := (rbind r (fun x => k))
  (at level 10, x name, r at level 100, k at level 200).

(** binary64 zero test: [0.0] and [-0.0]. *)
Definition float_is_zero (f : spec_float) : bool :=
  match f with S754_zero _ => true | _ => false end.

(** Python truth value of a decoded JSON value: [None], [False], zero
    and the empty string, list and dict are false. *)
Definition truthy (v : json) : bool :=
  match v with
  | JNull => false
  | JBool b => b
  | JInt z => negb (z =? 0)
  | JFloat f => negb (float_is_zero f)
  | JStr s => negb (String.eqb s "")
  | JArr items => match items with [] => false | _ :: _ => true end
  | JObj fields => negb (Nat.eqb (size fields) 0)
  end.

Definition lit_4 : spec_float := S754_finite false 4503599627370496 (-50).

(** [v == 1] and [v == 4]: an [int], a [float] or a [bool] can equal an
    integer ([True == 1]). *)
Definition eq_1 (v : json) : bool :=
  match v with
  | JInt z => z =? 1
  | JFloat f => SFeqb f Risk.lit_1
  | JBool b => b
  | _ => false
  end.

Definition eq_4 (v : json) : bool :=
  match v with
  | JInt z => z =? 4
  | JFloat f => SFeqb f lit_4
  | _ => false
  end.

(** [v == s] for a string literal [s]. *)
Definition eq_lit (v : json) (s : string) : bool :=
  match v with
  | JStr s' => String.eqb s' s
  | _ => false
  end.

(** [d.get(key, default)]: only a dict has the method. *)
Definition dict_get (d : json) (key : string) (default : json) : result json :=
  match d with
  | JObj fields => Ok (from_option id default (fields !! key))
  | _ => Raise "AttributeError: get"
  end.

(** The values a [for] over a decoded JSON value visits. *)
Definition iter_values (v : json) : result (list json) :=
  match v with
  | JArr items => Ok items
  | JObj fields => Ok (map (fun kv => JStr (fst kv)) (map_to_list fields))
  | JStr s => Ok (map JStr (Auth.chars s))
  | JNull | JBool _ | JInt _ | JFloat _ =>
      Raise "TypeError: object is not iterable"
  end.

(** [any(shape.get('ty') == 'fl' for shape in shapes)]: stops at the
    first fill. *)
Fixpoint any_fill (shapes : list json) : result bool :=
  match shapes with
  | [] => Ok false
  | shape :: rest =>
      try! ty := dict_get shape "ty" JNull in
      if eq_lit ty "fl" then Ok true else any_fill rest
  end.

(** The condition of lines 105-106:
    [layer.get('ty') == 4 and any(...)]. *)
Definition is_filled_shape (layer : json) : result bool :=
  try! ty := dict_get layer "ty" JNull in
  if eq_4 ty then
    try! shapes_value := dict_get layer "shapes" (JArr []) in
    try! shapes := iter_values shapes_value in
    any_fill shapes
  else Ok false.

(** The comprehension of lines 97-100: layers whose [ty] is not 1. *)
Fixpoint drop_solid (layers : list json) : result (list json) :=
  match layers with
  | [] => Ok []
  | layer :: rest =>
      try! ty := dict_get layer "ty" JNull in
      try! kept := drop_solid rest in
      Ok (if eq_1 ty then kept else layer :: kept)
  end.

(** The comprehension of lines 103-107. *)
Fixpoint drop_filled (layers : list json) : result (list json) :=
  match layers with
  | [] => Ok []
  | layer :: rest =>
      try! filled := is_filled_shape layer in
      try! kept := drop_filled rest in
      Ok (if (filled : bool) then kept else layer :: kept)
  end.

(** Lines 110-114: [del lottie_json['bg']] when present, then
    [lottie_json['bg'] = None]. *)
Definition reset_bg (fields : gmap string json) : gmap string json :=
  <["bg" := JNull]>
    (match fields !! "bg" with
     | Some _ => delete "bg" fields
     | None => fields
     end).

(** [remove_lottie_background], lines 89-116 of [pages/01_Prediction.py]
    (the other pages carry the same function).  The argument is mutated
    and returned; the callers only use the returned value.  Every
    subscript, [in] test or item assignment on a true value that is not a
    dict raises [TypeError]. *)
Definition remove_lottie_background (lottie_json : json) : result json :=
  if negb (truthy lottie_json) then Ok JNull
  else
    match lottie_json with
    | JObj fields =>
        match fields !! "layers" with
        | Some layers_value =>
            try! layers := iter_values layers_value in
            try! no_solid := drop_solid layers in
            try! no_fill := drop_filled no_solid in
            Ok (JObj (reset_bg (<["layers" := JArr no_fill]> fields)))
        | None => Ok (JObj (reset_bg fields))
        end
    | _ => Raise "TypeError"
    end.

(** What [requests.get(url)] gives: the status code and the outcome of
    [r.json()]. *)
Record response : Type := {
  status_code : Z;
  json_body : result json
}.

Section Fetch.
(** The import flag of lines 12-18 and [requests.get]. *)
Variable LOTTIE_AVAILABLE : bool.
Variable requests_get : string -> result response.

(** [load_lottie_url], lines 77-87; the bare [except] turns every
    exception into [None]. *)
Definition load_lottie_url (url : string) : json :=
  if negb LOTTIE_AVAILABLE then JNull
  else
    match requests_get url with
    | Raise _ => JNull
    | Ok r =>
        if negb (status_code r =? 200) then JNull
        else match json_body r with
             | Ok v => v
             | Raise _ => JNull
             end
    end.

(** An animation block of [main] (lines 254-272, 288-304, 307-323):
    the animations handed to [st_lottie], or the exception that escapes. *)
Definition animation_block (url : string) : result (list json) :=
  if LOTTIE_AVAILABLE then
    try! lottie_json := remove_lottie_background (load_lottie_url url) in
    Ok (if truthy lottie_json then [lottie_json] else [])
  else Ok [].

End Fetch.

(** A layer is well formed when it is an object whose [shapes], if any,
    is an array of objects. *)
Definition wf_shapes (v : json) : Prop :=
  exists shapes, v = JArr shapes /\
    Forall (fun shape => exists fields, shape = JObj fields) shapes.

Definition wf_layer (layer : json) : Prop :=
  exists fields, layer = JObj fields /\
    forall v, fields !! "shapes" = Some v -> wf_shapes v.

(** The layers [remove_lottie_background] removes, for well-formed
    layers: solid layers, and shape layers that hold a fill. *)
Definition ty_of (v : json) : json :=
  match v with
  | JObj fields => from_option id JNull (fields !! "ty")
  | _ => JNull
  end.

Definition shapes_of (layer : json) : list json :=
  match layer with
  | JObj fields =>
      match fields !! "shapes" with
      | Some (JArr shapes) => shapes
      | _ => []
      end
  | _ => []
  end.

Definition is_background (layer : json) : bool :=
  eq_1 (ty_of layer)
  || (eq_4 (ty_of layer)
      && existsb (fun shape => eq_lit (ty_of shape) "fl") (shapes_of layer)).

(** Sample animations. *)
Definition solid_layer : json :=
  JObj (<["ty" := JInt 1]> (<["nm" := JStr "background"]> ∅)).

Definition filled_layer : json :=
  JObj (<["ty" := JInt 4]>
       (<["shapes" := JArr [ JObj {[ "ty" := JStr "gr" ]};
                             JObj {[ "ty" := JStr "fl" ]} ]]> ∅)).

Definition stroke_layer : json :=
  JObj (<["ty" := JInt 4]>
       (<["shapes" := JArr [ JObj {[ "ty" := JStr "st" ]} ]]> ∅)).

Definition image_layer : json := JObj {[ "ty" := JInt 2 ]}.

Definition sample_fields : gmap string json :=
  <["v" := JStr "5.7.4"]>
  (<["bg" := JStr "#ffffff"]>
  (<["layers" := JArr [ solid_layer; stroke_layer; filled_layer;
                        image_layer ]]> ∅)).

Definition sample_animation : json := JObj sample_fields.

(** A layer that [drop_solid], respectively [drop_filled], keeps. *)
Definition not_solid (layer : json) : Prop :=
  exists ty, dict_get layer "ty" JNull = Ok ty /\ eq_1 ty = false.

Definition not_filled (layer : json) : Prop :=
  is_filled_shape layer = Ok false.

End Lottie.

(** ** [pages/03_Parent_Tracker.py]: the daily form and the observations
       log *)

Module ParentTracker.
Import Py Lottie.

(** A parent observation: the two fields the views select and sort on,
    and the remaining fields of the stored dictionary. *)
Record observation : Type := {
  child_name : string;
  date : string;
  entry : gmap string json
}.

(** The values of the widgets of the daily form, lines 322-468:
    sliders and integer number inputs give [int], the two number inputs
    with float bounds give [float], the multiselect a list of strings. *)
Record daily_form : Type := {
  homework_completion : Z;
  reading_time : Z;
  focus_level : string;
  subjects_struggled : list string;
  behavior_value : Z;
  mood_value : Z;
  sleep_hours : spec_float;
  energy_level : string;
  social_interactions : string;
  learning_wins : string;
  challenges_faced : string;
  strategies_used : string;
  screen_time : spec_float;
  physical_activity : Z;
  medication_taken : bool;
  special_events : string
}.

(** [observation_data], lines 473-493: the dictionary handed to
    [save_parent_observation]; [today] is [date.today().isoformat()] and
    [now] is [datetime.now().isoformat()]. *)
Definition observation_data (name today now : string) (f : daily_form)
    : observation :=
  {| child_name := name;
     date := today;
     entry :=
       list_to_map
         [ ("homework_completion", JInt (homework_completion f));
           ("reading_time", JInt (reading_time f));
           ("focus_level", JStr (focus_level f));
           ("subjects_struggled", JArr (map JStr (subjects_struggled f)));
           ("behavior_rating", JInt (behavior_value f));
           ("mood_rating", JInt (mood_value f));
           ("sleep_hours", JFloat (sleep_hours f));
           ("energy_level", JStr (energy_level f));
           ("social_interactions", JStr (social_interactions f));
           ("learning_wins", JStr (learning_wins f));
           ("challenges_faced", JStr (challenges_faced f));
           ("strategies_used", JStr (strategies_used f));
           ("screen_time", JFloat (screen_time f));
           ("physical_activity", JInt (physical_activity f));
           ("medication_taken", JBool (medication_taken f));
           ("special_events", JStr (special_events f));
           ("timestamp", JStr now) ] |}.

(** [child_observations.sort(key=lambda x: x['date'], reverse=True)]:
    Python's sort is stable, also under [reverse=True], and strings
    compare lexicographically.  The stable descending order of a list is
    unique; it is computed here by insertion from the right, each element
    going behind the later-dated ones and before the rest. *)
Fixpoint insert_desc (x : observation) (l : list observation)
    : list observation :=
  match l with
  | [] => [x]
  | y :: rest =>
      if String.ltb (date x) (date y) then y :: insert_desc x rest
      else x :: y :: rest
  end.

Definition sort_by_date_desc (l : list observation) : list observation :=
  foldr insert_desc [] l.

(** Descending by date: an earlier element is not older than a later one. *)
Definition not_older (a b : observation) : Prop :=
  String.leb (date b) (date a) = true.

(** What the log view shows, in program order: [st.markdown], the alert
    of an empty log, the expander opened for an observation with its
    label, [st.write] of a text and of a stored value inside it, and the
    data of the export button. *)
Inductive log_event : Type :=
| StMarkdown (msg : string)
| StAlert (message : string)
| StExpander (label : string) (obs : observation)
| StWrite (msg : string)
| StWriteValue (v : json)
| StExport (data : list observation).

(** A part of the view: what it has shown, and whether it returned or
    raised; what was shown before an exception stays. *)
Definition view (A : Type) : Type := list log_event * result A.

Definition done {A : Type} (a : A) : view A := ([], Ok a).

Definition tell (e : log_event) : view unit := ([e], Ok tt).

Definition lift {A : Type} (r : result A) : view A := ([], r).

Definition andthen {A B : Type} (c : view A) (k : A -> view B) : view B :=
  match c with
  | (events, Ok a) => let '(events', r) := k a in (events ++ events', r)
  | (events, Raise msg) => (events, Raise msg)
  end.

Notation "'do!' x ':=' c 'in' k" := (andthen c (fun x => k))
  (at level 10, x name, c at level 100, k at level 200).

(** Statements run one after the other. *)
Fixpoint in_order (steps : list (view unit)) : view unit :=
  match steps with
  | [] => done tt
  | step :: rest => do! _ := step in in_order rest
  end.

(** [obs[key]] and [obs.get(key, default)] for a key other than
    [child_name] and [date]. *)
Definition obs_item (obs : observation) (key : string) : result json :=
  match entry obs !! key with
  | Some v => Ok v
  | None => Raise ("KeyError: " +:+ key)
  end.

Definition obs_get (obs : observation) (key : string) (default : json) : json :=
  from_option id default (entry obs !! key).

(** The strings of a list whose items are all strings. *)
Fixpoint strings_of (items : list json) : option (list string) :=
  match items with
  | [] => Some []
  | JStr s :: rest => option_map (cons s) (strings_of rest)
  | _ :: _ => None
  end.

(** The fields the expander subscripts, lines 726-747. *)
Definition required_fields : list string :=
  [ "behavior_rating"; "homework_completion"; "reading_time"; "mood_rating";
    "sleep_hours"; "physical_activity"; "screen_time" ].

Section LogView.
(** [datetime.date], its equality, [date.fromisoformat], which raises
    [ValueError] on a malformed string, and [strftime('%B %d, %Y')]. *)
Variable pydate : Type.
Variable date_eqb : pydate -> pydate -> bool.
Variable fromisoformat : string -> result pydate.
Variable strftime : pydate -> string.
(** Python built-ins: [str()] of a value that is not a string, the
    characters of a string and the keys of a dictionary in insertion
    order. *)
Variable repr : json -> string.
Variable characters : string -> list string.
Variable dict_keys : gmap string json -> list string.
(** Functions of [utils]; [get_material_icon_html] is called here with
    the icon name only. *)
Variable get_text : string -> string -> string.
Variable get_material_icon_html : string -> string.
Variable language : string.

(** [f"{v}"]. *)
Definition py_str (v : json) : string := Auth.py_str repr v.

(** [sep.join(v)]: the items of a list must be strings; a string gives
    its characters and a dictionary its keys; other values are not
    iterable. *)
Definition str_join (sep : string) (v : json) : result string :=
  match v with
  | JArr items =>
      match strings_of items with
      | Some l => Ok (join sep l)
      | None => Raise "TypeError: sequence item: expected str instance"
      end
  | JStr s => Ok (join sep (characters s))
  | JObj fields => Ok (join sep (dict_keys fields))
  | JNull | JBool _ | JInt _ | JFloat _ =>
      Raise "TypeError: can only join an iterable"
  end.

(** [st.write(f"{label}{obs[key]}{suffix}")]. *)
Definition write_item (label key suffix : string) (obs : observation)
    : view unit :=
  do! v := lift (obs_item obs key) in
  tell (StWrite (label +:+ py_str v +:+ suffix)).

(** [st.write(f"{label}{obs.get(key, 'N/A')}")]. *)
Definition write_optional (label key : string) (obs : observation)
    : view unit :=
  tell (StWrite (label +:+ py_str (obs_get obs key (JStr "N/A")))).

(** Lines 734-735. *)
Definition write_struggled (obs : observation) : view unit :=
  if truthy (obs_get obs "subjects_struggled" JNull) then
    do! subjects := lift (obs_item obs "subjects_struggled") in
    do! joined := lift (str_join ", " subjects) in
    tell (StWrite ("Struggled with: " +:+ joined))
  else done tt.

(** One of the four blocks of lines 750-764:
    [if obs.get(key): st.markdown(...); st.write(obs[key])]. *)
Definition write_detail (icon title key : string) (obs : observation)
    : view unit :=
  if truthy (obs_get obs key JNull) then
    do! _ := tell (StMarkdown ("**" +:+ get_material_icon_html icon +:+ " "
                               +:+ title +:+ "**")) in
    do! v := lift (obs_item obs key) in
    tell (StWriteValue v)
  else done tt.

(** The statements inside the expander, lines 725-764. *)
Definition expander_body (obs : observation) (show_detailed : bool)
    : list (view unit) :=
  [ tell (StMarkdown "**Academic**");
    write_item "Homework: " "homework_completion" "%" obs;
    write_item "Reading: " "reading_time" " min" obs;
    write_optional "Focus: " "focus_level" obs;
    write_struggled obs;
    tell (StMarkdown "**Behavioral**");
    write_item "Behavior: " "behavior_rating" "/5" obs;
    write_item "Mood: " "mood_rating" "/5" obs;
    write_optional "Energy: " "energy_level" obs;
    tell (StMarkdown "**Health**");
    write_item "Sleep: " "sleep_hours" " hrs" obs;
    write_item "Activity: " "physical_activity" " min" obs;
    write_item "Screen time: " "screen_time" " hrs" obs ]
  ++ (if show_detailed then
        [ write_detail "military_tech" "Learning Wins:" "learning_wins" obs;
          write_detail "gpp_bad" "Challenges:" "challenges_faced" obs;
          write_detail "handyman" "Helpful Strategies:" "strategies_used" obs;
          write_detail "groups" "Social Interactions:" "social_interactions"
                       obs ]
      else []).

(** Lines 724-764: the label of the expander subscripts
    [obs['behavior_rating']] before the expander opens. *)
Definition expander (obs_date : pydate) (obs : observation)
    (show_detailed : bool) : view unit :=
  do! rating := lift (obs_item obs "behavior_rating") in
  do! _ := tell (StExpander (strftime obs_date +:+ " - Rating: "
                             +:+ py_str rating +:+ "/5") obs) in
  in_order (expander_body obs show_detailed).

(** [date_filter and obs_date != date_filter]: a date object is truthy,
    [None] is not. *)
Definition filtered_out (date_filter : option pydate) (obs_date : pydate)
    : bool :=
  match date_filter with
  | Some d => negb (date_eqb obs_date d)
  | None => false
  end.

(** The loop of lines 720-764 over the observations it is given. *)
Fixpoint log_loop (date_filter : option pydate) (show_detailed : bool)
    (todo : list observation) : view unit :=
  match todo with
  | [] => done tt
  | obs :: rest =>
      do! obs_date := lift (fromisoformat (date obs)) in
      do! _ := (if filtered_out date_filter obs_date then done tt
                else expander obs_date obs show_detailed) in
      log_loop date_filter show_detailed rest
  end.

(** The observations of the selected child, line 700. *)
Definition child_observations (all_observations : list observation)
    (name : string) : list observation :=
  List.filter (fun obs => String.eqb (child_name obs) name) all_observations.

(** The [else] branch of lines 695-774, for the observations that
    [load_parent_observations] returned; [export_button] is the state of
    the button of line 766. *)
Definition observations_log (all_observations : list observation)
    (name : string) (date_filter : option pydate)
    (show_detailed export_button : bool) : view unit :=
  do! _ := tell (StMarkdown ("## " +:+ get_text "observations_log" language)) in
  do! _ := tell (StMarkdown ("Complete observation history for **" +:+ name
                             +:+ "**")) in
  match child_observations all_observations name with
  | [] =>
      tell (StAlert (get_text "no_observations_recorded" language +:+ ". "
                     +:+ get_text "start_by_adding_daily_observations"
                                  language))
  | _ :: _ =>
      let sorted :=
        sort_by_date_desc (child_observations all_observations name) in
      do! _ := log_loop date_filter show_detailed (firstn 20 sorted) in
      if export_button then tell (StExport sorted) else done tt
  end.

(** An observation the expander renders in full: its date parses, the
    fields of [required_fields] are there and a true [subjects_struggled]
    can be joined. *)
Definition complete (obs : observation) : Prop :=
  (exists obs_date, fromisoformat (date obs) = Ok obs_date) /\
  Forall (fun key => is_Some (entry obs !! key)) required_fields /\
  (truthy (obs_get obs "subjects_struggled" JNull) = true ->
   exists joined,
     str_join ", " (obs_get obs "subjects_struggled" JNull) = Ok joined).

(** An observation on which the view stops: its date does not parse, or
    it passes the date filter and lacks one of the [required_fields]. *)
Definition breaks (date_filter : option pydate) (obs : observation) : Prop :=
  (exists msg, fromisoformat (date obs) = Raise msg) \/
  (exists obs_date key,
     fromisoformat (date obs) = Ok obs_date /\
     filtered_out date_filter obs_date = false /\
     In key required_fields /\ entry obs !! key = None).

End LogView.

(** The observations for which an expander was opened, in order. *)
Fixpoint rendered (t : list log_event) : list observation :=
  match t with
  | [] => []
  | StExpander _ obs :: rest => obs :: rendered rest
  | _ :: rest => rendered rest
  end.

(** The data behind the export button in a trace of the log view. *)
Fixpoint exported (t : list log_event) : list (list observation) :=
  match t with
  | [] => []
  | StExport data :: rest => data :: exported rest
  | _ :: rest => exported rest
  end.

(** Sample observations: the form with its default values, two subjects
    selected, saved for one child on day [n] of a month. *)
Definition lit_8 : spec_float := S754_finite false 4503599627370496 (-49).
Definition lit_2 : spec_float := S754_finite false 4503599627370496 (-51).

Definition sample_form : daily_form :=
  {| homework_completion := 75; reading_time := 20; focus_level := "Good";
     subjects_struggled := [ "Math"; "Reading" ];
     behavior_value := 3; mood_value := 3; sleep_hours := lit_8;
     energy_level := "Normal"; social_interactions := "";
     learning_wins := "Read a whole page aloud"; challenges_faced := "";
     strategies_used := ""; screen_time := lit_2; physical_activity := 60;
     medication_taken := false; special_events := "" |}.

Definition two_digits (n : nat) : string :=
  if (n <? 10)%nat then "0" +:+ pretty n else pretty n.

Definition sample_observation (n : nat) : observation :=
  observation_data "Amina" ("2024-05-" +:+ two_digits n)
                   ("2024-05-" +:+ two_digits n +:+ "T18:00:00") sample_form.

Definition sample_observations : list observation :=
  map sample_observation (seq 1 25).

(** The same observation as it would be stored without its
    [homework_completion]. *)
Definition without_homework (obs : observation) : observation :=
  {| child_name := child_name obs; date := date obs;
     entry := delete "homework_completion" (entry obs) |}.

(** A parser of ISO dates for the samples: it accepts strings of ten
    characters. *)
Definition sample_fromisoformat (s : string) : result string :=
  if Nat.eqb (String.length s) 10 then Ok s
  else Raise "ValueError: Invalid isoformat string".

(** [strftime('%B %d, %Y')] on an ISO date. *)
Definition month_name (mm : string) : string :=
  from_option id mm
    ((list_to_map
        [ ("01", "January"); ("02", "February"); ("03", "March");
          ("04", "April"); ("05", "May"); ("06", "June"); ("07", "July");
          ("08", "August"); ("09", "September"); ("10", "October");
          ("11", "November"); ("12", "December") ] : gmap string string)
     !! mm).

Definition sample_strftime (d : string) : string :=
  month_name (String.substring 5 2 d) +:+ " " +:+ String.substring 8 2 d +:+ ", "
  +:+ String.substring 0 4 d.

(** The characters of an ASCII string, and the keys of a dictionary (the
    samples hold no dictionary). *)
Definition sample_characters (s : string) : list string := Auth.chars s.

Definition sample_dict_keys (fields : gmap string json) : list string :=
  map fst (map_to_list fields).

(** [str()] on the values of the samples. *)
Definition sample_repr (v : json) : string :=
  match v with
  | JInt z => pretty z
  | JFloat f => if SFeqb f lit_8 then "8.0" else "2.0"
  | JBool b => if b then "True" else "False"
  | _ => "None"
  end.

Definition sample_icon (name : string) : string := name.

End ParentTracker.

(** ** [utils/auth_utils.py]: the session readers, logout and the page
       guards that use them *)

Module Access.
Import Py UI Auth.

(** [logout_user], lines 45-51 of [utils/auth_utils.py]. *)
Definition logout_user : M unit :=
  let! _ := session_set "authenticated" (JBool false) in
  let! _ := session_set "username" JNull in
  let! _ := session_set "role" JNull in
  let! _ := emit (StSuccess "You have been logged out.") in
  emit (StSwitchPage "app.py").

(** [is_authenticated], lines 53-55:
    [st.session_state.get("authenticated", False)]. *)
Definition is_authenticated (w : world) : json :=
  from_option id (JBool false) (session_state w !! "authenticated").

(** [get_user_role], lines 57-59: [st.session_state.get("role")]. *)
Definition get_user_role (w : world) : json :=
  from_option id JNull (session_state w !! "role").

(** What a page guard shows before it leaves. *)
Inductive notice : Type :=
| StWarning (msg : string)
| CustomAlert (msg alert_type : string)
| StDenied (msg : string)
| StNote (msg : string).

(** A guard lets the page body run, or shows notices and switches to
    another page ([StDenied] is [st.error], [StNote] is [st.info]). *)
Inductive guard : Type :=
| Enter
| Leave (shown : list notice) (page : string).

(** [main] of [pages/01_Prediction.py], lines 240-244. *)
Definition prediction_guard (w : world) : guard :=
  if negb (Lottie.truthy (is_authenticated w)) then
    Leave [ StWarning "Please log in to access the Prediction page." ] "app.py"
  else Enter.

(** [main] of [pages/02_Teacher_Resources.py], lines 207-219. *)
Definition teacher_resources_guard (w : world) : guard :=
  if negb (Lottie.truthy (is_authenticated w)) then
    Leave [ StWarning "Please log in to access Teacher Resources." ] "app.py"
  else if Lottie.eq_lit (get_user_role w) "parent" then
    Leave [ StDenied "Access Denied: Parents cannot view Teacher Resources.";
            StNote "Redirecting you to Parent Tracker..." ]
          "pages/03_Parent_Tracker.py"
  else Enter.

(** [main] of [pages/03_Parent_Tracker.py], lines 180-193. *)
Definition parent_tracker_guard (w : world) : guard :=
  if negb (Lottie.truthy (is_authenticated w)) then
    Leave [ CustomAlert "Please log in to access the Parent Tracker page."
                        "warning" ] "app.py"
  else if Lottie.eq_lit (get_user_role w) "teacher" then
    Leave [ StDenied "Access Denied: Teachers cannot view Parent Resources.";
            StNote "Redirecting you to Teacher Resources..." ]
          "pages/02_Teacher_Resources.py"
  else Enter.

(** [main] of [pages/04_Educational_Content.py], lines 118-122. *)
Definition educational_content_guard (w : world) : guard :=
  if negb (Lottie.truthy (is_authenticated w)) then
    Leave [ StWarning "Please log in to access Educational Content." ] "app.py"
  else Enter.

(** [main] of [app.py], lines 309-320: the login page, or the
    dashboard. *)
Inductive app_view : Type := LoginPage | Dashboard.

Definition app_main (w : world) : app_view :=
  if negb (Lottie.truthy (is_authenticated w)) then LoginPage else Dashboard.

(** A state whose session still carries an earlier teacher login. *)
Definition teacher_session_world : world :=
  grant "teacher1" "teacher" installed_world.

End Access.

(** ** [pages/01_Prediction.py]: the reset button and the stored result *)

Module FormReset.
Import Py UI Auth.

(** Line 452. *)
Definition keys_to_keep : list string :=
  [ "app_language"; "app_theme"; "offline_mode"; "authenticated";
    "username"; "role" ].

(** The loop of lines 454-456 over [all_keys]:
    [if key not in keys_to_keep: del st.session_state[key]]. *)
Definition clear_keys (all_keys : list string) (session : gmap string json)
    : gmap string json :=
  foldl (fun s key => if str_in key keys_to_keep then s else delete key s)
        session all_keys.

(** [v + 1] for a session value: numbers and booleans add, everything
    else raises [TypeError]. *)
Definition add_one (v : json) : result json :=
  match v with
  | JInt z => Ok (JInt (z + 1))
  | JBool b => Ok (JInt ((if b then 1 else 0) + 1))
  | JFloat f => Ok (JFloat (SFadd 53 1024 f Risk.lit_1))
  | JNull | JStr _ | JArr _ | JObj _ => Raise "TypeError: unsupported operand"
  end.

Definition set_session (session : gmap string json) (w : world) : world :=
  {| data_dir := data_dir w; users_json := users_json w;
     session_state := session; shown := shown w |}.

(** The body of [if reset_button:], lines 449-463; [st.rerun()] then
    restarts the script on the session left here. *)
Definition on_reset : M unit :=
  fun w =>
    let all_keys := map fst (map_to_list (session_state w)) in
    let cleared := clear_keys all_keys (session_state w) in
    let with_counter :=
      match cleared !! "reset_counter" with
      | Some _ => cleared
      | None => <["reset_counter" := JInt 0]> cleared
      end in
    match with_counter !! "reset_counter" with
    | None => (Raise "KeyError: reset_counter", set_session with_counter w)
    | Some v =>
        match add_one v with
        | Raise msg => (Raise msg, set_session with_counter w)
        | Ok v' =>
            emit (StSuccess "âœ… Form completely reset! Ready for new student assessment.")
                 (set_session (<["reset_counter" := v']> with_counter) w)
        end
    end.

(** Line 465 and the condition of line 580: a stored result is shown
    again when [show_prediction_results] is true, [current_prediction_data]
    is in the session and the predict button was not pressed. *)
Definition rerun_active (w : world) (predict_button : bool) : bool :=
  Lottie.truthy (from_option id (JBool false)
                   (session_state w !! "show_prediction_results"))
  && bool_decide (is_Some (session_state w !! "current_prediction_data"))
  && negb predict_button.

(** A session after a prediction by a logged-in teacher who has reset the
    form five times according to the counter. *)
Definition session_with_result : world :=
  set_session
    (<["show_prediction_results" := JBool true]>
     (<["current_prediction_data" := JObj ∅]>
     (<["reset_counter" := JInt 5]>
     (<["math_score_input_5" := JInt 75]>
       (session_state (grant "teacher1" "teacher" installed_world))))))
    installed_world.

End FormReset.

(** ** [pages/02_Teacher_Resources.py]: [generate_activity] *)

Module Activities.
Import Py.

(** The inner dictionaries of [activities], lines 121-198. *)
Definition reading_activities : gmap string (list string) :=
  list_to_map
    [ ("K-2", [ "Picture book discussion with visual cues";
                "Letter sound matching games";
                "Simple word building with letter tiles";
                "Reading comprehension with picture support";
                "Phonics songs and rhyming activities" ]);
      ("3-5", [ "Graphic organizer for story elements";
                "Vocabulary word maps with illustrations";
                "Partner reading with guided questions";
                "Reading response journals with prompts";
                "Text-to-self connection activities" ]);
      ("6-8", [ "Literature circles with differentiated roles";
                "Character analysis using graphic organizers";
                "Compare and contrast essays with templates";
                "Research projects with structured guidelines";
                "Reading strategy instruction (summarizing, questioning)" ]) ].

Definition math_activities : gmap string (list string) :=
  list_to_map
    [ ("K-2", [ "Hands-on counting with manipulatives";
                "Visual number line activities";
                "Shape recognition through real-world objects";
                "Simple addition/subtraction with pictures";
                "Math story problems with visual supports" ]);
      ("3-5", [ "Fraction circles and visual representations";
                "Word problem solving with step-by-step guides";
                "Math journals for problem-solving strategies";
                "Multiplication games with visual arrays";
                "Real-world math applications (cooking, shopping)" ]);
      ("6-8", [ "Algebra tiles for equation solving";
                "Geometric constructions with technology";
                "Data analysis projects with real data";
                "Mathematical modeling activities";
                "Peer tutoring for complex problem solving" ]) ].

Definition writing_activities : gmap string (list string) :=
  list_to_map
    [ ("K-2", [ "Picture prompts for creative writing";
                "Sentence frames for structured writing";
                "Interactive writing with teacher support";
                "Story sequencing activities";
                "Simple poetry with repetitive patterns" ]);
      ("3-5", [ "Graphic organizer for essay planning";
                "Peer editing with specific checklists";
                "Multi-step writing process instruction";
                "Genre studies with mentor texts";
                "Writing conferences with guided feedback" ]) ].

Definition behavior_activities : gmap string (list string) :=
  list_to_map
    [ ("All", [ "Positive behavior reinforcement system";
                "Clear classroom expectations with visual reminders";
                "Break cards for self-regulation";
                "Mindfulness and breathing exercises";
                "Social skills practice through role-play";
                "Sensory break activities";
                "Peer mentoring programs";
                "Goal-setting and progress tracking";
                "Conflict resolution strategies";
                "Emotional regulation techniques" ]) ].

Definition activities : gmap string (gmap string (list string)) :=
  list_to_map
    [ ("reading", reading_activities);
      ("math", math_activities);
      ("writing", writing_activities);
      ("behavior", behavior_activities) ].

(** [d[key]]. *)
Definition getitem {V : Type} (d : gmap string V) (key : string) : result V :=
  match d !! key with
  | Some v => Ok v
  | None => Raise ("KeyError: " +:+ key)
  end.

(** [random.choice(seq)] for the draw [r] of the generator: the element
    at an index below the length, [IndexError] on an empty sequence. *)
Definition random_choice (r : nat) (seq : list string) : result string :=
  match seq with
  | [] => Raise "IndexError: Cannot choose from an empty sequence"
  | x :: _ => Ok (nth (r mod length seq) seq x)
  end.

(** Line 203. *)
Definition grade_group (grade_level : string) : string :=
  if str_in grade_level [ "K"; "1"; "2" ] then "K-2"
  else if str_in grade_level [ "3"; "4"; "5" ] then "3-5"
  else "6-8".

(** [generate_activity], lines 118-204.  The default of [.get], the
    ["3-5"] list, is looked up before [.get] is called. *)
Definition generate_activity (r : nat) (difficulty_type grade_level : string)
    : result string :=
  if String.eqb difficulty_type "behavior" then
    match getitem activities difficulty_type with
    | Raise msg => Raise msg
    | Ok by_grade =>
        match getitem by_grade "All" with
        | Raise msg => Raise msg
        | Ok choices => random_choice r choices
        end
    end
  else
    match getitem activities difficulty_type with
    | Raise msg => Raise msg
    | Ok by_grade =>
        match getitem by_grade "3-5" with
        | Raise msg => Raise msg
        | Ok default =>
            random_choice r
              (from_option id default (by_grade !! grade_group grade_level))
        end
    end.

(** The options of the two select boxes, lines 358-361. *)
Definition difficulty_types : list string :=
  [ "reading"; "math"; "writing"; "behavior" ].

Definition grade_levels : list string :=
  [ "K"; "1"; "2"; "3"; "4"; "5"; "6"; "7"; "8"; "9"; "10"; "11"; "12" ].

(** The activities listed for a difficulty type, over all grade groups. *)
Definition listed (difficulty_type : string) : list string :=
  match activities !! difficulty_type with
  | Some by_grade => concat (map snd (map_to_list by_grade))
  | None => []
  end.

End Activities.

(** ** [app.py]: the dashboard statistics and the risk pie *)

Module Dashboard.
Import Py Prediction Lottie.

(** [pd.DataFrame(records)] for a list of dictionaries: the columns are
    the keys that occur, a row lacks the cells its dictionary lacks
    (pandas shows them as NaN). *)
Definition frame_of_records (records : list dict) : DataFrame :=
  {| columns := map fst (map_to_list (foldr (fun r acc => r ∪ acc) ∅ records));
     rows := records |}.

(** [df.empty]: no rows or no columns. *)
Definition df_empty (df : DataFrame) : bool :=
  match rows df, columns df with
  | [], _ | _, [] => true
  | _ :: _, _ :: _ => false
  end.

(** [df[col]]: the cells of a column, [KeyError] without the column. *)
Definition column (df : DataFrame) (col : string) : result (list (option cell)) :=
  if str_in col (columns df) then Ok (map (fun row => row !! col) (rows df))
  else Raise ("KeyError: " +:+ col).

(** [cell == label], elementwise: only a string cell can equal a string. *)
Definition cell_is (label : string) (c : option cell) : bool :=
  match c with
  | Some (CStr s) => String.eqb s label
  | _ => false
  end.

(** [df[df[col] == label].shape[0]]. *)
Definition count_where (df : DataFrame) (col label : string) : result Z :=
  try! cells := column df col in
  Ok (Z.of_nat (length (List.filter (cell_is label) cells))).

Record stats : Type := {
  total_students : Z;
  new_this_month : Z;
  on_track_count : Z;
  at_risk_count : Z;
  intervention_count : Z
}.

Section Stats.
(** [pd.to_datetime] on the timestamp column followed by the comparison
    with [datetime.now() - timedelta(days=30)]: it raises when a value
    does not parse and otherwise tells, row by row, whether the timestamp
    lies within the last 30 days. *)
Variable recent : list (option cell) -> result (list bool).

(** Lines 78-93 of [render_dashboard_page_content], for the records that
    [load_student_data] returned. *)
Definition dashboard_stats (all_student_data : list dict) : result stats :=
  let df_students := frame_of_records all_student_data in
  let total := len df_students in
  try! new_count :=
    (if df_empty df_students then Ok 0
     else
       try! stamps := column df_students "timestamp" in
       try! flags := recent stamps in
       Ok (Z.of_nat (length (List.filter id flags)))) in
  if df_empty df_students then
    Ok {| total_students := total; new_this_month := new_count;
          on_track_count := 0; at_risk_count := 0; intervention_count := 0 |}
  else
    try! on_track := count_where df_students "risk_level" "Low Risk" in
    try! at_risk := count_where df_students "risk_level" "Medium Risk" in
    try! intervention := count_where df_students "risk_level" "High Risk" in
    Ok {| total_students := total; new_this_month := new_count;
          on_track_count := on_track; at_risk_count := at_risk;
          intervention_count := intervention |}.

End Stats.

(** [enumerate(l)]. *)
Definition enumerate {A : Type} (l : list A) : list (nat * A) :=
  combine (seq 0 (length l)) l.

(** [l[i]]. *)
Definition index {A : Type} (l : list A) (i : nat) : result A :=
  match nth_error l i with
  | Some x => Ok x
  | None => Raise "IndexError: list index out of range"
  end.

(** Line 169:
    [[label for i, label in enumerate(risk_labels) if risk_values[i] > 0]]. *)
Fixpoint labels_where_positive (risk_values : list Z)
    (indexed : list (nat * string)) : result (list string) :=
  match indexed with
  | [] => Ok []
  | (i, label) :: rest =>
      try! value := index risk_values i in
      try! kept := labels_where_positive risk_values rest in
      Ok (if 0 <? value then label :: kept else kept)
  end.

(** Line 171:
    [[risk_colors[i] for i, value in enumerate(risk_values) if value > 0]]. *)
Fixpoint colors_where_positive (risk_colors : list string)
    (indexed : list (nat * Z)) : result (list string) :=
  match indexed with
  | [] => Ok []
  | (i, value) :: rest =>
      if 0 <? value then
        try! color := index risk_colors i in
        try! kept := colors_where_positive risk_colors rest in
        Ok (color :: kept)
      else colors_where_positive risk_colors rest
  end.

(** The pie of lines 173-184: the placeholder, or slices with their
    labels, values, colours and whether each is pulled out (0.1 against
    0). *)
Inductive pie : Type :=
| NoData
| Slices (labels : list string) (values : list Z) (colors : list string)
         (pulled : list bool).

Section Pie.
Variable get_text : string -> string -> string.
Variable language : string.

(** Lines 165-184. *)
Definition risk_pie (on_track at_risk intervention : Z) : result pie :=
  let risk_labels := [ get_text "on_track_label" language;
                       get_text "at_risk_label" language;
                       get_text "intervention_label" language ] in
  let risk_values := [ on_track; at_risk; intervention ] in
  let risk_colors := [ "var(--success-green)"; "var(--warning-orange)";
                       "var(--danger-red)" ] in
  try! filtered_labels :=
    labels_where_positive risk_values (enumerate risk_labels) in
  let filtered_values := List.filter (fun value => 0 <? value) risk_values in
  try! filtered_colors :=
    colors_where_positive risk_colors (enumerate risk_values) in
  match filtered_values with
  | [] => Ok NoData
  | _ :: _ =>
      Ok (Slices filtered_labels filtered_values filtered_colors
            (map (fun label =>
                    String.eqb label (get_text "intervention_label" language))
                 filtered_labels))
  end.

End Pie.

(** Whether a record carries one of the three labels the dashboard
    counts. *)
Definition has_english_label (r : dict) : bool :=
  cell_is "Low Risk" (r !! "risk_level")
  || cell_is "Medium Risk" (r !! "risk_level")
  || cell_is "High Risk" (r !! "risk_level").

(** Sample records. *)
Definition saved_record (level : string) : dict :=
  <["timestamp" := CStr "2024-05-01T10:00:00"]>
  (<["risk_level" := CStr level]> (make_student_data 75 80 70 85 3 6)).

End Dashboard.

(** ** [pages/01_Prediction.py]: the charts and what is saved *)

Module Charts.
Import Py UI Risk Prediction.

Definition lit_10 : spec_float := S754_finite false 5629499534213120 (-49).
Definition lit_20 : spec_float := S754_finite false 5629499534213120 (-48).
Definition lit_100 : spec_float := S754_finite false 7036874417766400 (-46).

(** [s * n] for a string: [n] copies. *)
Fixpoint repeat_string (s : string) (n : nat) : string :=
  match n with
  | O => ""
  | S k => s +:+ repeat_string s k
  end.

(** [c * n] for a cell and the integer literal [n], whose binary64 value
    is [n_float]. *)
Definition cell_times (c : cell) (n : nat) (n_float : spec_float) : cell :=
  match c with
  | CInt z => CInt (z * Z.of_nat n)
  | CFloat f => CFloat (SFmul 53 1024 f n_float)
  | CStr s => CStr (repeat_string s n)
  end.

(** The two figures of [create_risk_visualization]: the gauge with its
    value and the radar with its angular labels, radial values and radial
    range. *)
Record gauge : Type := { gauge_value : spec_float; gauge_threshold : Z }.

Record radar : Type := {
  theta : list string;
  r_values : list cell;
  radial_range : Z * Z
}.

(** [create_risk_visualization], lines 139-198. *)
Definition create_risk_visualization (prediction_prob : prob)
    (student_data : dict) : result (gauge * radar) :=
  let fig_gauge :=
    {| gauge_value := SFmul 53 1024 prediction_prob lit_100;
       gauge_threshold := 70 |} in
  let categories := [ "Math Score"; "Reading Score"; "Writing Score";
                      "Attendance"; "Behavior*20"; "Literacy*10" ] in
  match Activities.getitem student_data "math_score" with
  | Raise msg => Raise msg
  | Ok math =>
  match Activities.getitem student_data "reading_score" with
  | Raise msg => Raise msg
  | Ok reading =>
  match Activities.getitem student_data "writing_score" with
  | Raise msg => Raise msg
  | Ok writing =>
  match Activities.getitem student_data "attendance" with
  | Raise msg => Raise msg
  | Ok attended =>
  match Activities.getitem student_data "behavior" with
  | Raise msg => Raise msg
  | Ok behaved =>
  match Activities.getitem student_data "literacy" with
  | Raise msg => Raise msg
  | Ok literate =>
      Ok (fig_gauge,
          {| theta := categories;
             r_values := [ math; reading; writing; attended;
                           cell_times behaved 20 lit_20;
                           cell_times literate 10 lit_10 ];
             radial_range := (0, 100) |})
  end end end end end end.

(** A radial value that the radar can draw inside its range. *)
Definition within (range : Z * Z) (c : cell) : Prop :=
  exists z, c = CInt z /\ fst range <= z <= snd range.

(** The records handed to [save_prediction_data] in a trace. *)
Fixpoint saved_records (t : list event) : list dict :=
  match t with
  | [] => []
  | CallSavePrediction record :: rest => record :: saved_records rest
  | _ :: rest => saved_records rest
  end.

(** The banners of a trace: the risk levels shown. *)
Fixpoint shown_levels (t : list event) : list string :=
  match t with
  | [] => []
  | StHtml (RiskBanner _ _ risk_level _) :: rest =>
      risk_level :: shown_levels rest
  | _ :: rest => shown_levels rest
  end.

(** A form with the default values of the page and the save button
    pressed. *)
Definition form_default_saved : form :=
  {| math_score := 75; reading_score := 80; writing_score := 70;
     attendance := 85; behavior := 3; literacy := 6;
     student_name := "A"; grade_level := "3"; notes := "";
     save_button := true; save_after_button := false |}.

End Charts.

(** ** [pages/03_Parent_Tracker.py]: the date range of the progress and
       weekly views *)

Module Progress.
Import Py ParentTracker Lottie.

Section Range.
(** [datetime.date], its order and [date.fromisoformat]. *)
Variable pydate : Type.
Variable date_leb : pydate -> pydate -> bool.
Variable fromisoformat : string -> result pydate.

(** The comprehension of lines 504-506 and of lines 628-630:
    [[obs for obs in all_observations
      if obs.get('child_name') == child_name
      and start_date <= date.fromisoformat(obs['date']) <= end_date]];
    the date is parsed only for the selected child. *)
Fixpoint observations_in_range (all_observations : list observation)
    (name : string) (start_date end_date : pydate)
    : result (list observation) :=
  match all_observations with
  | [] => Ok []
  | obs :: rest =>
      if String.eqb (child_name obs) name then
        try! obs_date := fromisoformat (date obs) in
        try! kept := observations_in_range rest name start_date end_date in
        Ok (if date_leb start_date obs_date && date_leb obs_date end_date
            then obs :: kept else kept)
      else observations_in_range rest name start_date end_date
  end.

(** Whether an observation is of the child and dated within the range. *)
Definition selected (name : string) (start_date end_date : pydate)
    (obs : observation) : bool :=
  String.eqb (child_name obs) name
  && match fromisoformat (date obs) with
     | Ok obs_date =>
         date_leb start_date obs_date && date_leb obs_date end_date
     | Raise _ => false
     end.

End Range.

(** An observation of another child with a malformed date. *)
Definition other_child_observation : observation :=
  {| child_name := "Bilal"; date := "yesterday"; entry := ∅ |}.

End Progress.

(** ** [utils/auth_utils.py]: the session a login leaves, whatever the
       users file holds *)

Module Session.
Import Py UI Auth Access.

(** The session after the three assignments of lines 38-40, for a record
    whose role is any JSON value. *)
Definition granted (username : string) (role : json) (w : world) : world :=
  {| data_dir := data_dir w; users_json := users_json w;
     session_state :=
       <["role" := role]>
       (<["username" := JStr username]>
       (<["authenticated" := JBool true]> (session_state w)));
     shown := shown w |}.

(** The session after the assignments of lines 38-39 only. *)
Definition marked (username : string) (w : world) : world :=
  {| data_dir := data_dir w; users_json := users_json w;
     session_state :=
       <["username" := JStr username]>
       (<["authenticated" := JBool true]> (session_state w));
     shown := shown w |}.

(** A users file whose second record has no [role]. *)
Definition role_less_world : world :=
  {| data_dir := true;
     users_json :=
       Stored (Decodes (JArr
         [ user_record "teacher1" "password123" "teacher";
           JObj (<["username" := JStr "guest"]>
                (<["password" := JStr "letmein"]> ∅)) ]));
     session_state := ∅; shown := [] |}.

(** A users file whose record carries a number as role. *)
Definition numeric_role_world : world :=
  {| data_dir := true;
     users_json :=
       Stored (Decodes (JArr
         [ JObj (<["username" := JStr "guest"]>
                (<["password" := JStr "letmein"]>
                (<["role" := JInt 7]> ∅))) ]));
     session_state := ∅; shown := [] |}.

End Session.

(** * Theorems *)

Module RiskFacts.
Import Risk.

(** The constants are the values Rocq's own binary64 literals denote. *)
Example lit_0_3_is_binary64 : Prim2SF 0x1.3333333333333p-2%float = lit_0_3.
Proof. reflexivity. Qed.

Example lit_0_7_is_binary64 : Prim2SF 0x1.6666666666666p-1%float = lit_0_7.
Proof. reflexivity. Qed.

Example lit_1_is_binary64 : Prim2SF 1%float = lit_1.
Proof. reflexivity. Qed.

(** *** Order facts on binary64 comparison *)

Lemma SFcompare_swap (x y : spec_float) (c : comparison) :
  SFcompare x y = Some c -> SFcompare y x = Some (CompOpp c).
Proof.
  destruct x as [sx| sx | | sx mx ex], y as [sy | sy | | sy my ey];
    simpl; try discriminate;
    try (intros [= <-]; destruct sx; try destruct sy; reflexivity).
  intros [= <-]. f_equal.
  change (Pos.compare_cont Eq mx my) with (mx ?= my)%positive.
  change (Pos.compare_cont Eq my mx) with (my ?= mx)%positive.
  rewrite (Z.compare_antisym ey ex), (Pos.compare_antisym my mx).
  destruct sx, sy; simpl; try reflexivity;
    destruct (ey ?= ex)%Z; simpl; try reflexivity;
    destruct (my ?= mx)%positive; reflexivity.
Qed.

Lemma SFcompare_not_nan (x y : spec_float) :
  x <> S754_nan -> y <> S754_nan -> exists c, SFcompare x y = Some c.
Proof.
  intros Hx Hy.
  destruct x as [sx| sx | | sx mx ex], y as [sy | sy | | sy my ey];
    simpl; try congruence; eauto.
Qed.

(** For non-NaN operands [not (x < y)] is [y <= x]. *)
Lemma flt_false_fge (x y : prob) :
  x <> S754_nan -> y <> S754_nan ->
  (flt x y = false <-> fge x y = true).
Proof.
  intros Hx Hy. unfold flt, fge, SFltb, SFleb.
  destruct (SFcompare_not_nan x y Hx Hy) as [c Hc].
  rewrite Hc, (SFcompare_swap _ _ _ Hc).
  destruct c; simpl; split; congruence.
Qed.

(** Below the lower threshold is below the upper one. *)
Lemma flt_lit_0_3_lit_0_7 (p : prob) :
  flt p lit_0_3 = true -> flt p lit_0_7 = true.
Proof.
  unfold flt, SFltb, lit_0_3, lit_0_7.
  destruct p as [s | s | | s m e]; cbn [SFcompare].
  - trivial.
  - trivial.
  - discriminate.
  - destruct s; [reflexivity |].
    destruct (e ?= -54)%Z eqn:E54.
    + apply Z.compare_eq in E54. subst e. reflexivity.
    + rewrite Z.compare_lt_iff in E54.
      assert (E53 : (e ?= -53)%Z = Lt) by (rewrite Z.compare_lt_iff; lia).
      rewrite E53. reflexivity.
    + discriminate.
Qed.

(** A NaN is no probability; the chain of [<] tests sends it to the last
    branch. *)
Example classify_nan : classify S754_nan = High.
Proof. reflexivity. Qed.

Lemma is_probability_not_nan (p : prob) : is_probability p -> p <> S754_nan.
Proof. intros [H _] ->. discriminate H. Qed.


Section PathsAgree.
Variable get_text : string -> string -> string.
Variable language : string.

(** C1: for every probability p the classifier assigns exactly one tier,
    Low iff p < 0.30, High iff p >= 0.70 and Medium otherwise (that is iff
    0.30 <= p < 0.70); 0.30 is Medium and 0.70 is High; the single-student
    path and the batch path label the tier of the same classifier. *)
Theorem classify_thresholds (p : prob) :
  is_probability p ->
  (classify p = Low <-> flt p lit_0_3 = true) /\
  (classify p = High <-> fge p lit_0_7 = true) /\
  (classify p = Medium <-> fge p lit_0_3 = true /\ flt p lit_0_7 = true) /\
  classify lit_0_3 = Medium /\
  classify lit_0_7 = High /\
  single_risk_level get_text language p
    = localized_label get_text language (classify p) /\
  batch_risk_level p = batch_label (classify p).
Proof.
  intros Hp. pose proof (is_probability_not_nan p Hp) as Hnan.
  assert (H3 : flt p lit_0_3 = false <-> fge p lit_0_3 = true)
    by (apply flt_false_fge; [assumption | discriminate]).
  assert (H7 : flt p lit_0_7 = false <-> fge p lit_0_7 = true)
    by (apply flt_false_fge; [assumption | discriminate]).
  assert (Hmono : flt p lit_0_3 = true -> flt p lit_0_7 = true)
    by apply flt_lit_0_3_lit_0_7.
  unfold classify, single_risk_level, batch_risk_level.
  destruct (flt p lit_0_3) eqn:E3; destruct (flt p lit_0_7) eqn:E7; simpl;
    repeat split; try tauto; try discriminate; try reflexivity;
    intuition congruence.
Qed.

End PathsAgree.

(** The default form values reach the model as a probability; one at the
    lower threshold is classified Medium on both paths. *)
Lemma classify_thresholds_witness :
  is_probability lit_0_3 /\
  batch_risk_level lit_0_3 = batch_label (classify lit_0_3).
Proof.
  assert (H : is_probability lit_0_3) by (split; reflexivity).
  split; [exact H |].
  apply (classify_thresholds (fun k _ => k) "English" lit_0_3 H).
Defined.

End RiskFacts.

(** ** Facts about [pages/01_Prediction.py]: validation and recommendations *)

Module PredictionFacts.
Import Py UI Risk Prediction.

Lemma in_range_spec (lo x hi : Z) : in_range lo x hi = true <-> lo <= x <= hi.
Proof. unfold in_range. rewrite andb_true_iff, !Z.leb_le. tauto. Qed.

Lemma in_range_false (lo x hi : Z) :
  in_range lo x hi = false <-> ~ (lo <= x <= hi).
Proof.
  rewrite <- in_range_spec. destruct (in_range lo x hi); split; congruence.
Qed.

Lemma In_check (ok : bool) (msg x : string) :
  In x (check ok msg) <-> ok = false /\ x = msg.
Proof.
  unfold check. destruct ok; simpl.
  - split; [tauto | intros [H _]; discriminate H].
  - split; [intros [H | []]; auto | intros [_ H]; auto].
Qed.

Lemma check_nil (ok : bool) (msg : string) : check ok msg = [] <-> ok = true.
Proof. unfold check. destruct ok; split; congruence. Qed.

(** Membership in the result of [validate_inputs], field by field. *)
Lemma In_validate_inputs (x : string) (m r w a b l : Z) :
  In x (validate_inputs m r w a b l) <->
  (~ 0 <= m <= 100 /\ x = "Math score must be between 0 and 100") \/
  (~ 0 <= r <= 100 /\ x = "Reading score must be between 0 and 100") \/
  (~ 0 <= w <= 100 /\ x = "Writing score must be between 0 and 100") \/
  (~ 0 <= a <= 100 /\ x = "Attendance must be between 0 and 100%") \/
  (~ 1 <= b <= 5 /\ x = "Behavior rating must be between 1 and 5") \/
  (~ 1 <= l <= 10 /\ x = "Literacy level must be between 1 and 10").
Proof.
  unfold validate_inputs.
  rewrite !in_app_iff, !In_check, !in_range_false. tauto.
Qed.

Lemma validate_inputs_nil (m r w a b l : Z) :
  validate_inputs m r w a b l = [] <->
  0 <= m <= 100 /\ 0 <= r <= 100 /\ 0 <= w <= 100 /\ 0 <= a <= 100 /\
  1 <= b <= 5 /\ 1 <= l <= 10.
Proof.
  unfold validate_inputs.
  rewrite !app_nil, !check_nil, !in_range_spec. tauto.
Qed.

(** The events [display_recommendations] and the error branch emit are
    never calls of the model. *)
Lemma model_calls_writes (pre : string) (l : list string) :
  model_calls (map (fun x => StWrite (pre +:+ x)) l) = [].
Proof. induction l as [| x l IH]; simpl; auto. Qed.

Section PageFacts.
Variable get_text : string -> string -> string.
Variable get_material_icon_html : string -> string -> string.
Variable make_prediction : dict -> result (Z * prob).
Variable format_percent : prob -> string.
Variable language : string.

(** C2: the validator returns no error exactly for in-range inputs; every
    violated field has its message in the list (and only violated fields
    have one); and when the list is not empty the predict handler shows
    every collected error and never calls the model. *)
Theorem validate_inputs_correct (now : string) (f : form) :
  let errors :=
    validate_inputs (math_score f) (reading_score f) (writing_score f)
                    (attendance f) (behavior f) (literacy f) in
  let trace :=
    on_predict get_text get_material_icon_html make_prediction
               format_percent language now f in
  (errors = [] <->
     0 <= math_score f <= 100 /\ 0 <= reading_score f <= 100 /\
     0 <= writing_score f <= 100 /\ 0 <= attendance f <= 100 /\
     1 <= behavior f <= 5 /\ 1 <= literacy f <= 10) /\
  (In "Math score must be between 0 and 100" errors
     <-> ~ 0 <= math_score f <= 100) /\
  (In "Reading score must be between 0 and 100" errors
     <-> ~ 0 <= reading_score f <= 100) /\
  (In "Writing score must be between 0 and 100" errors
     <-> ~ 0 <= writing_score f <= 100) /\
  (In "Attendance must be between 0 and 100%" errors
     <-> ~ 0 <= attendance f <= 100) /\
  (In "Behavior rating must be between 1 and 5" errors
     <-> ~ 1 <= behavior f <= 5) /\
  (In "Literacy level must be between 1 and 10" errors
     <-> ~ 1 <= literacy f <= 10) /\
  (errors <> [] ->
     model_calls trace = [] /\
     forall error, In error errors -> In (StWrite (bullet +:+ error)) trace).
Proof.
  intros errors trace.
  split; [| repeat split].
  - apply validate_inputs_nil.
  - intros H. apply In_validate_inputs in H.
    decompose [and or] H; try discriminate; assumption.
  - intros H. apply In_validate_inputs. auto.
  - intros H. apply In_validate_inputs in H.
    decompose [and or] H; try discriminate; assumption.
  - intros H. apply In_validate_inputs. auto 7.
  - intros H. apply In_validate_inputs in H.
    decompose [and or] H; try discriminate; assumption.
  - intros H. apply In_validate_inputs. auto 7.
  - intros H. apply In_validate_inputs in H.
    decompose [and or] H; try discriminate; assumption.
  - intros H. apply In_validate_inputs. auto 8.
  - intros H. apply In_validate_inputs in H.
    decompose [and or] H; try discriminate; assumption.
  - intros H. apply In_validate_inputs. auto 9.
  - intros H. apply In_validate_inputs in H.
    decompose [and or] H; try discriminate; assumption.
  - intros H. apply In_validate_inputs. auto 10.
  - subst trace. unfold on_predict. fold errors.
    destruct errors as [| e es]; [congruence |].
    cbn [model_calls List.filter is_model_call].
    apply (model_calls_writes bullet (e :: es)).
  - subst trace. unfold on_predict. fold errors.
    destruct errors as [| e es]; [congruence |].
    intros error Hin. right.
    apply (in_map (fun x => StWrite (bullet +:+ x)) (e :: es) error Hin).
Qed.

Lemma recommendations_for_label (t : RiskTier) :
  exists t', recommendations_for get_text language
               (localized_label get_text language t) = recommend t'.
Proof.
  unfold recommendations_for.
  destruct (String.eqb _ (get_text "low_risk" language));
    [exists Low; reflexivity |].
  destruct (String.eqb _ (get_text "medium_risk" language));
    [exists Medium | exists High]; reflexivity.
Qed.

Lemma display_recommendations_render (risk_level : string) (sd : dict) :
  forallb is_render
    (display_recommendations get_text get_material_icon_html language
                             risk_level sd) = true.
Proof.
  unfold display_recommendations. cbn [forallb is_render andb].
  induction (recommendations_for get_text language risk_level); simpl; auto.
Qed.

(** C4: two students whose probabilities fall in the same tier get the
    same output from [display_recommendations], whatever their field
    values; the list is one of the three static lists, written in order,
    and the function only renders (no call into the model or the store). *)
Theorem recommendations_depend_on_tier_only
    (p1 p2 : prob) (student_data1 student_data2 : dict) :
  classify p1 = classify p2 ->
  let show := display_recommendations get_text get_material_icon_html language in
  let level := single_risk_level get_text language in
  show (level p1) student_data1 = show (level p2) student_data2 /\
  show (level p1) student_data1 = show (level p1) student_data1 /\
  (exists t, recommendations_for get_text language (level p1) = recommend t) /\
  skipn 2 (show (level p1) student_data1)
    = map (fun rec => StWrite (bullet +:+ rec))
          (recommendations_for get_text language (level p1)) /\
  forallb is_render (show (level p1) student_data1) = true.
Proof.
  intros Htier show level. subst show level.
  assert (Hlevel : forall p, single_risk_level get_text language p
                      = localized_label get_text language (classify p)).
  { intros p. unfold single_risk_level, classify.
    destruct (flt p lit_0_3); [reflexivity |].
    destruct (flt p lit_0_7); reflexivity. }
  rewrite !Hlevel, Htier.
  repeat split.
  - apply recommendations_for_label.
  - apply display_recommendations_render.
Qed.

End PageFacts.

(** Scenario 3 of the spec: attendance 150 is rejected with the message
    naming the 0-100 bound and the model is not called. *)
Lemma validate_inputs_correct_witness :
  validate_inputs 75 80 70 150 3 6 = ["Attendance must be between 0 and 100%"]
  /\ model_calls
       (on_predict (fun k _ => k) (fun n _ => n) (fun _ => Raise "no model")
                   (fun _ => "") "English" "2024-01-01" form_attendance_150) = [].
Proof.
  split; [reflexivity |].
  apply (validate_inputs_correct (fun k _ => k) (fun n _ => n)
           (fun _ => Raise "no model") (fun _ => "") "English" "2024-01-01"
           form_attendance_150).
  discriminate.
Defined.

(** A probability of 0.3 and one of 0.5 share the Medium tier. *)
Lemma recommendations_depend_on_tier_only_witness :
  classify lit_0_3 = classify lit_0_5 /\
  display_recommendations (fun k _ => k) (fun n _ => n) "English"
    (single_risk_level (fun k _ => k) "English" lit_0_3)
    (make_student_data 75 80 70 85 3 6)
  = display_recommendations (fun k _ => k) (fun n _ => n) "English"
    (single_risk_level (fun k _ => k) "English" lit_0_5)
    (make_student_data 10 20 30 40 1 2).
Proof.
  assert (H : classify lit_0_3 = classify lit_0_5) by reflexivity.
  split; [exact H |].
  apply (recommendations_depend_on_tier_only (fun k _ => k) (fun n _ => n)
           "English" lit_0_3 lit_0_5 _ _ H).
Defined.

End PredictionFacts.

(** ** Facts about [pages/01_Prediction.py]: batch upload *)

Module BatchFacts.
Import Py UI Risk Prediction.

Lemma str_in_spec (x : string) (l : list string) :
  str_in x l = true <-> In x l.
Proof.
  unfold str_in. rewrite existsb_exists. split.
  - intros [y [Hy Heq]]. apply String.eqb_eq in Heq. now subst.
  - intros H. exists x. split; [assumption | apply String.eqb_refl].
Qed.

Lemma In_missing_columns (df : DataFrame) (col : string) :
  In col (missing_columns df)
  <-> In col required_columns /\ ~ In col (columns df).
Proof.
  unfold missing_columns. rewrite filter_In, negb_true_iff.
  rewrite <- (str_in_spec col (columns df)).
  destruct (str_in col (columns df)); intuition congruence.
Qed.

Lemma NoDup_required_columns : List.NoDup required_columns.
Proof.
  apply NoDup_ListNoDup, (bool_decide_unpack _). vm_compute. reflexivity.
Qed.

Lemma model_calls_app (t1 t2 : list event) :
  model_calls (t1 ++ t2) = model_calls t1 ++ model_calls t2.
Proof. unfold model_calls. apply List.filter_app. Qed.

Section BatchPage.
Variable get_material_icon_html : string -> string -> string.
Variable make_prediction : dict -> result (Z * prob).
Variable format_percent : prob -> string.

Local Abbreviation batch_rows := (batch_rows make_prediction format_percent).
Local Abbreviation batch_report := (batch_report get_material_icon_html).
Local Abbreviation batch_upload :=
  (batch_upload get_material_icon_html make_prediction format_percent).
Local Abbreviation returns := (returns make_prediction).
Local Abbreviation result_row := (result_row format_percent).
Local Abbreviation row_passed_through :=
  (row_passed_through make_prediction format_percent).

(** The rows [df.iterrows()] yields, from position [start] on. *)
Local Abbreviation numbered df start todo :=
  (combine (map Z.of_nat (seq start (length todo))) (map (yielded df) todo)).

Lemma iterrows_numbered (df : DataFrame) :
  iterrows df = numbered df 0%nat (rows df).
Proof. reflexivity. Qed.

Lemma snd_numbered (df : DataFrame) (start : nat) (todo : list dict) :
  map snd (numbered df start todo) = map (yielded df) todo.
Proof.
  revert start. induction todo as [| row rest IH]; intros start; [reflexivity |].
  cbn [length seq map combine snd]. f_equal. apply IH.
Qed.

(** A table without float cells, or with a text cell, is iterated with its
    own cells. *)
Lemma as_dtype_untouched (d : dtype) (c : cell) :
  d <> float64 -> as_dtype d c = c.
Proof. destruct d, c; intros H; try reflexivity; congruence. Qed.

Lemma lookup_yielded (df : DataFrame) (row : dict) (k : string) :
  yielded df row !! k = as_dtype (values_dtype df) <$> row !! k.
Proof. unfold yielded. apply lookup_fmap. Qed.

Lemma yielded_untouched (df : DataFrame) (row : dict) :
  values_dtype df <> float64 -> yielded df row = row.
Proof.
  intros Hd. apply map_eq. intros k. rewrite lookup_yielded.
  destruct (row !! k) as [c |]; cbn; [| reflexivity].
  rewrite (as_dtype_untouched _ c Hd). reflexivity.
Qed.

(** The loop calls the model once per row, in row order. *)
Lemma model_calls_batch_rows (total : Z) (todo : list (Z * dict)) :
  model_calls (fst (batch_rows total todo))
  = map CallMakePrediction (map snd todo).
Proof.
  induction todo as [| [idx row] rest IH]; [reflexivity |].
  cbn [Prediction.batch_rows].
  destruct (batch_rows total rest) as [events results].
  destruct (make_prediction row) as [[prediction p] | msg];
    cbn [fst snd model_calls List.filter is_model_call map];
    f_equal; exact IH.
Qed.

Lemma model_calls_batch_report (results : list dict) :
  model_calls (batch_report results) = [].
Proof. destruct results; reflexivity. Qed.

(** The loop offers no download itself. *)
Lemma downloaded_batch_rows (total : Z) (todo : list (Z * dict))
    (after : list event) :
  downloaded (fst (batch_rows total todo) ++ after) = downloaded after.
Proof.
  induction todo as [| [idx row] rest IH]; [reflexivity |].
  cbn [Prediction.batch_rows].
  destruct (batch_rows total rest) as [events results].
  destruct (make_prediction row) as [[prediction p] | msg];
    cbn [fst app downloaded]; exact IH.
Qed.

Lemma downloaded_batch_report (results : list dict) :
  downloaded (batch_report results)
  = match results with [] => None | _ :: _ => Some results end.
Proof. destruct results; reflexivity. Qed.

Lemma result_row_passed_through (df : DataFrame) (idx prediction : Z)
    (p : prob) (row : dict) :
  make_prediction (yielded df row) = Ok (prediction, p) ->
  row_passed_through df row
    (result_row idx (batch_risk_level p) p (yielded df row)).
Proof.
  intros Hcall. split.
  - intros k v Hk. unfold Prediction.result_row.
    apply lookup_union_Some_l. rewrite lookup_yielded, Hk. reflexivity.
  - exists prediction, p. split; [exact Hcall |]. split; intros Hnone.
    + unfold Prediction.result_row.
      rewrite lookup_union_r by (rewrite lookup_yielded, Hnone; reflexivity).
      rewrite lookup_insert_ne by discriminate. apply lookup_insert_eq.
    + unfold Prediction.result_row.
      rewrite lookup_union_r by (rewrite lookup_yielded, Hnone; reflexivity).
      rewrite !lookup_insert_ne by discriminate. apply lookup_insert_eq.
Qed.

Lemma batch_rows_results (df : DataFrame) (total : Z) (start : nat)
    (todo : list dict) :
  Forall2 (row_passed_through df)
          (List.filter (fun row => returns (yielded df row)) todo)
          (snd (batch_rows total (numbered df start todo))).
Proof.
  revert start. induction todo as [| row rest IH]; intros start; [constructor |].
  cbn [length seq map combine Prediction.batch_rows List.filter].
  specialize (IH (S start)).
  unfold Prediction.returns at 1.
  destruct (batch_rows total (numbered df (S start) rest)) as [events results].
  destruct (make_prediction (yielded df row)) as [[prediction p] | msg]
    eqn:Hcall; cbn [snd] in *.
  - constructor; [| exact IH].
    apply (result_row_passed_through df _ prediction p row Hcall).
  - exact IH.
Qed.

Lemma filter_all (A : Type) (f : A -> bool) (l : list A) :
  Forall (fun x => f x = true) l -> List.filter f l = l.
Proof.
  induction 1 as [| x l Hx _ IH]; [reflexivity |].
  simpl. rewrite Hx, IH. reflexivity.
Qed.

(** The trace of a processed batch. *)
Lemma batch_upload_processed (df : DataFrame) :
  missing_columns df = [] ->
  batch_upload (Some (Ok df)) true
  = StSuccess (" Uploaded file with " +:+ pretty_Z (len df) +:+ " students")
    :: StMarkdown "### Data Preview"
    :: StDataframe (firstn 5 (rows df))
    :: StProgress 0 (len df)
    :: fst (batch_rows (len df) (iterrows df))
       ++ batch_report (snd (batch_rows (len df) (iterrows df))).
Proof.
  intros Hmiss. unfold Prediction.batch_upload. rewrite Hmiss.
  destruct (batch_rows (len df) (iterrows df)) as [events results].
  reflexivity.
Qed.

(** C3: the missing columns are exactly the required columns absent from
    the table, each named once; when there is one, the batch view shows
    only the upload notice and the error naming them, calls the model for
    no row and offers no download; when there is none and the button is
    pressed, every row is submitted to the model, as [df.iterrows()]
    yields it. *)
Theorem missing_columns_reject_batch (df : DataFrame) (process_button : bool) :
  let missing := missing_columns df in
  let trace := batch_upload (Some (Ok df)) process_button in
  (forall col, In col missing
     <-> In col required_columns /\ ~ In col (columns df)) /\
  List.NoDup missing /\
  (missing <> [] ->
     trace = [ StSuccess (" Uploaded file with " +:+ pretty_Z (len df)
                          +:+ " students");
               StError (get_material_icon_html "error" "fill"
                        +:+ " Missing required columns: "
                        +:+ join ", " missing) ] /\
     model_calls trace = [] /\
     downloaded trace = None) /\
  (missing = [] -> process_button = true ->
     model_calls trace
     = map (fun row => CallMakePrediction (yielded df row)) (rows df)).
Proof.
  intros missing trace. split; [| split; [| split]].
  - intros col. apply In_missing_columns.
  - subst missing. unfold missing_columns.
    apply List.NoDup_filter, NoDup_required_columns.
  - intros Hne. subst trace. unfold Prediction.batch_upload. fold missing.
    destruct missing as [| c cs]; [congruence |].
    repeat split.
  - intros Hnil ->. subst trace missing.
    rewrite (batch_upload_processed df Hnil).
    cbn [model_calls List.filter is_model_call].
    fold (model_calls (fst (batch_rows (len df) (iterrows df))
                       ++ batch_report (snd (batch_rows (len df) (iterrows df))))).
    rewrite model_calls_app, model_calls_batch_rows, model_calls_batch_report.
    rewrite app_nil_r, iterrows_numbered, snd_numbered.
    apply List.map_map.
Qed.


End BatchPage.

(** Scenario 2 of the spec: a table without the [behavior] column. *)
Lemma missing_columns_reject_batch_witness :
  missing_columns df_missing_behavior = ["behavior"] /\
  batch_upload sample_icon sample_model sample_percent
               (Some (Ok df_missing_behavior)) true
  = [ StSuccess " Uploaded file with 1 students";
      StError "error Missing required columns: behavior" ] /\
  model_calls (batch_upload sample_icon sample_model sample_percent
                            (Some (Ok df_missing_behavior)) true) = [].
Proof.
  split; [reflexivity |].
  destruct (missing_columns_reject_batch sample_icon sample_model
              sample_percent df_missing_behavior true)
    as (_ & _ & Hreject & _).
  destruct Hreject as (Htrace & Hcalls & _); [discriminate |].
  split; [| exact Hcalls].
  rewrite Htrace. reflexivity.
Defined.


(** An input column named [Risk_Level] wins over the derived value. *)
Example input_risk_level_column_wins :
  result_row sample_percent 0 "Medium Risk" lit_0_5
             (<["Risk_Level" := CStr "n/a"]> row_ok) !! "Risk_Level"
  = Some (CStr "n/a").
Proof. vm_compute. reflexivity. Qed.

(** The literals of the samples. *)
Example sample_literals_are_binary64 :
  Prim2SF 85.5%float = lit_85_5 /\ Prim2SF 75%float = lit_75 /\
  float_of_int 75 = lit_75.
Proof. repeat split; vm_compute; reflexivity. Qed.


End BatchFacts.

(** ** Facts about [utils/auth_utils.py] *)

Module AuthFacts.
Import Py UI Auth.

Lemma wf_user_inv (rec : json) :
  wf_user rec ->
  exists fields username password role,
    rec = JObj fields /\
    fields !! "username" = Some (JStr username) /\
    fields !! "password" = Some (JStr password) /\
    fields !! "role" = Some (JStr role).
Proof.
  intros (n & pw & r & Hn & Hp & Hr).
  destruct rec as [| | | | | | fields]; try discriminate Hn.
  exists fields, n, pw, r. auto.
Qed.

(** One turn of the loop on a well-formed record. *)
Lemma authenticate_loop_cons (u p : string) (fields : gmap string json)
    (n pw r : string) (rest : list json) (w : world) :
  fields !! "username" = Some (JStr n) ->
  fields !! "password" = Some (JStr pw) ->
  fields !! "role" = Some (JStr r) ->
  authenticate_loop u p (JObj fields :: rest) w
  = if String.eqb n u && String.eqb pw p then (Ok true, grant n r w)
    else authenticate_loop u p rest w.
Proof.
  intros Hn Hp Hr. cbn [authenticate_loop].
  unfold bind at 1. unfold subscript at 1. rewrite Hn. unfold ret at 1.
  unfold bind at 1. cbn [eq_str].
  destruct (String.eqb n u); cbn [andb].
  - unfold bind at 1. unfold subscript at 1. rewrite Hp. unfold ret at 1.
    unfold ret at 1. cbn [eq_str].
    destruct (String.eqb pw p); [| reflexivity].
    unfold bind, session_set, subscript, ret. rewrite Hn, Hr. reflexivity.
  - unfold ret at 1. reflexivity.
Qed.

Lemma has_credentials_obj (u p n pw : string) (fields : gmap string json) :
  fields !! "username" = Some (JStr n) ->
  fields !! "password" = Some (JStr pw) ->
  has_credentials u p (JObj fields)
  <-> String.eqb n u && String.eqb pw p = true.
Proof.
  intros Hn Hp. unfold has_credentials, field. rewrite Hn, Hp.
  rewrite andb_true_iff, !String.eqb_eq. split.
  - intros [Hu Hpw]. injection Hu as ->. injection Hpw as ->. auto.
  - intros [-> ->]. auto.
Qed.

(** On well-formed records the loop returns; it grants exactly when some
    record has the credentials, and a refusal leaves the same state for
    all credentials. *)
Lemma authenticate_loop_wf (u p : string) (items : list json) (w : world) :
  Forall wf_user items ->
  exists b w',
    authenticate_loop u p items w = (Ok b, w') /\
    users_json w' = users_json w /\
    (b = true <-> Exists (has_credentials u p) items) /\
    (b = false -> w' = deny w).
Proof.
  induction 1 as [| rec rest Hrec Hrest IH].
  - exists false, (deny w). repeat split; try discriminate.
    intros HE. inversion HE.
  - destruct (wf_user_inv rec Hrec) as (fields & n & pw & r & -> & Hn & Hp & Hr).
    rewrite (authenticate_loop_cons u p fields n pw r rest w Hn Hp Hr).
    pose proof (has_credentials_obj u p n pw fields Hn Hp) as Hcred.
    destruct (String.eqb n u && String.eqb pw p).
    + exists true, (grant n r w). repeat split; try discriminate.
      intros _. constructor. apply Hcred. reflexivity.
    + destruct IH as (b & w' & Hrun & Hfile & Hiff & Hdeny).
      exists b, w'. repeat split; auto.
      * intros Hb. apply Exists_cons_tl. apply Hiff, Hb.
      * intros HE. apply Hiff. inversion HE as [? ? Hhd | ? ? Htl]; subst.
        -- apply Hcred in Hhd. discriminate Hhd.
        -- exact Htl.
Qed.

Lemma wf_dummy_users : Forall wf_user (stored_records (Stored (Decodes dummy_users))).
Proof.
  cbn [stored_records dummy_users].
  repeat constructor; eexists _, _, _; repeat split; reflexivity.
Qed.

Lemma wf_loaded (w : world) :
  wf_users_file (users_json w) ->
  Forall wf_user (stored_records (users_json (loaded w))).
Proof.
  unfold loaded, _load_users, bind, ensure_data_dir, read_users_file.
  cbn [users_json].
  destruct (users_json w) as [| | [v | | msg]]; cbn.
  - intros _. apply wf_dummy_users.
  - intros _. apply wf_dummy_users.
  - intros (items & -> & Hwf). exact Hwf.
  - constructor.
  - constructor.
Qed.

(** [authenticate_user] runs the loop over the records of the file as
    [_load_users] leaves it. *)
Lemma authenticate_user_loaded (u p : string) (w : world) :
  wf_users_file (users_json w) ->
  authenticate_user u p w
  = authenticate_loop u p (stored_records (users_json (loaded w))) (loaded w).
Proof.
  intros Hwf.
  unfold authenticate_user, loaded, _load_users, bind,
    ensure_data_dir, read_users_file.
  cbn [users_json].
  destruct (users_json w) as [| | [v | | msg]]; try reflexivity.
  destruct Hwf as (items & -> & _). reflexivity.
Qed.

Lemma user_record_fields (n pw r : string) :
  exists fields,
    user_record n pw r = JObj fields /\
    fields !! "username" = Some (JStr n) /\
    fields !! "password" = Some (JStr pw) /\
    fields !! "role" = Some (JStr r).
Proof.
  eexists. split; [reflexivity |].
  split; [| split]; vm_compute; reflexivity.
Qed.

Lemma has_credentials_user_record (u p n pw r : string) :
  has_credentials u p (user_record n pw r) <-> u = n /\ p = pw.
Proof.
  destruct (user_record_fields n pw r) as (fields & -> & Hn & Hp & _).
  rewrite (has_credentials_obj u p n pw fields Hn Hp).
  rewrite andb_true_iff, !String.eqb_eq. intuition congruence.
Qed.

Lemma load_users_fresh (w : world) :
  users_json w = Absent \/ users_json w = Empty ->
  fst (_load_users w) = Ok dummy_users /\
  users_json (loaded w) = Stored (Decodes dummy_users).
Proof.
  unfold loaded, _load_users, bind, ensure_data_dir, read_users_file.
  cbn [users_json]. intros [-> | ->]; split; reflexivity.
Qed.

Lemma load_users_failed (w : world) (c : file_content) :
  users_json w = Stored c ->
  c = Corrupt \/ (exists msg, c = Unreadable msg) ->
  fst (_load_users w) = Ok (JArr []) /\
  users_json (loaded w) = users_json w /\
  exists msg, shown (loaded w) = shown w ++ [StError msg].
Proof.
  unfold loaded, _load_users, bind, ensure_data_dir, read_users_file.
  cbn [users_json]. intros -> [-> | [msg ->]]; repeat split; eexists; reflexivity.
Qed.

(** Whatever the file holds, a login is granted only on a record with
    the supplied username and password. *)
Lemma authenticate_loop_sound (u p : string) (items : list json)
    (w w' : world) :
  authenticate_loop u p items w = (Ok true, w') ->
  Exists (has_credentials u p) items.
Proof.
  revert w. induction items as [| user rest IH]; intros w.
  - cbn. discriminate.
  - cbn [authenticate_loop]. unfold bind at 1.
    destruct user as [| | | | | | fields]; cbn [subscript];
      try (unfold raise; discriminate).
    destruct (fields !! "username") as [name |] eqn:Hn;
      [| unfold raise; discriminate].
    unfold ret at 1. unfold bind at 1.
    destruct name as [| | | | s | |]; cbn [eq_str];
      try (unfold ret at 1; intros H; apply Exists_cons_tl, (IH _ H)).
    destruct (String.eqb s u) eqn:Hs;
      [| unfold ret at 1; intros H; apply Exists_cons_tl, (IH _ H)].
    unfold bind at 1.
    destruct (fields !! "password") as [pw |] eqn:Hp;
      [| unfold raise; discriminate].
    unfold ret at 1 2.
    destruct pw as [| | | | s' | |]; cbn [eq_str];
      try (intros H; apply Exists_cons_tl, (IH _ H)).
    destruct (String.eqb s' p) eqn:Hs';
      [| intros H; apply Exists_cons_tl, (IH _ H)].
    intros _. apply Exists_cons_hd.
    apply String.eqb_eq in Hs, Hs'. subst s s'.
    split; assumption.
Qed.

Lemma authenticate_user_sound (u p : string) (w : world) :
  fst (authenticate_user u p w) = Ok true ->
  Exists (has_credentials u p) (stored_records (users_json (loaded w))).
Proof.
  assert (Hloop : forall items w0,
            fst (authenticate_loop u p items w0) = Ok true ->
            Exists (has_credentials u p) items).
  { intros items w0 H.
    destruct (authenticate_loop u p items w0) as [r w1] eqn:Hrun.
    cbn [fst] in H. subst r. exact (authenticate_loop_sound _ _ _ _ _ Hrun). }
  assert (Hstr : forall l : list string,
            ~ Exists (has_credentials u p) (map JStr l)).
  { intros l HE. apply List.Exists_exists in HE as (x & Hx & Hcred & _).
    apply in_map_iff in Hx as (k & <- & _). discriminate Hcred. }
  destruct w as [d f ss sh].
  unfold authenticate_user, loaded, _load_users, bind,
    ensure_data_dir, read_users_file, write_users, emit, ret.
  cbn [users_json data_dir session_state shown].
  destruct f as [| | [v | | msg]]; cbn [snd users_json stored_records].
  - apply Hloop.
  - apply Hloop.
  - destruct v as [| | | | s | items | fields]; cbn [iterate];
      unfold raise, ret; cbn [fst]; try discriminate.
    + intros H. apply Hloop in H. destruct (Hstr _ H).
    + apply Hloop.
    + intros H. apply Hloop in H.
      rewrite <- (map_map fst JStr) in H. destruct (Hstr _ H).
  - cbn [iterate]. unfold ret. intros H. apply Hloop in H. inversion H.
  - cbn [iterate]. unfold ret. intros H. apply Hloop in H. inversion H.
Qed.

Section LoginFacts.
Variable capitalize : string -> string.
Variable repr : json -> string.

(** C6: on a credentials file of the declared shape, [authenticate_user]
    returns, and returns [True] exactly when the file, as the call leaves
    it, holds a record whose username and password are the supplied
    strings; two refused attempts on the same state end in the same state
    with the same messages, the last one the generic error. *)
Theorem authenticate_user_plaintext (w : world) (u p u' p' : string) :
  wf_users_file (users_json w) ->
  (exists b w',
     authenticate_user u p w = (Ok b, w') /\
     users_json w' = users_json (loaded w) /\
     (forall c, users_json w = Stored c -> users_json w' = users_json w) /\
     (b = true <->
        Exists (has_credentials u p) (stored_records (users_json w')))) /\
  (fst (authenticate_user u p w) = Ok false ->
   fst (authenticate_user u' p' w) = Ok false ->
   login_submitted capitalize repr u p w
     = login_submitted capitalize repr u' p' w /\
   exists w',
     login_submitted capitalize repr u p w = (Ok tt, w') /\
     shown w' = shown (loaded w) ++ [StError "Invalid username or password."]).
Proof.
  intros Hwf. pose proof (wf_loaded w Hwf) as Hrecs.
  destruct (authenticate_loop_wf u p _ (loaded w) Hrecs)
    as (b & w1 & Hrun & Hfile & Hiff & Hdeny).
  destruct (authenticate_loop_wf u' p' _ (loaded w) Hrecs)
    as (b' & w1' & Hrun' & _ & _ & Hdeny').
  split.
  - exists b, w1. rewrite (authenticate_user_loaded u p w Hwf).
    split; [exact Hrun |]. split; [exact Hfile |]. split.
    + intros c Hc. rewrite Hfile.
      unfold loaded, _load_users, bind, ensure_data_dir, read_users_file.
      cbn [users_json]. rewrite Hc. destruct c as [v | | msg]; reflexivity.
    + rewrite Hfile. exact Hiff.
  - unfold login_submitted, bind.
    rewrite (authenticate_user_loaded u p w Hwf),
            (authenticate_user_loaded u' p' w Hwf), Hrun, Hrun'.
    cbn [fst]. intros [= ->] [= ->].
    rewrite (Hdeny eq_refl), (Hdeny' eq_refl).
    split; [reflexivity |]. eexists. split; reflexivity.
Qed.

End LoginFacts.

(** C7: when the users file has content that does not decode as JSON, or
    cannot be read, [_load_users] returns the empty list instead of
    raising, leaves the file as it is, and every login is refused as if
    there were no record. *)
Theorem load_users_corrupt_is_empty (w : world) (c : file_content)
    (u p : string) :
  users_json w = Stored c ->
  c = Corrupt \/ (exists msg, c = Unreadable msg) ->
  fst (_load_users w) = Ok (JArr []) /\
  users_json (loaded w) = users_json w /\
  stored_records (users_json (loaded w)) = [] /\
  fst (authenticate_user u p w) = Ok false.
Proof.
  intros Hfile Hbad.
  destruct (load_users_failed w c Hfile Hbad) as (Hload & Hkeep & _).
  assert (Hwf : wf_users_file (users_json w))
    by (rewrite Hfile; destruct Hbad as [-> | [msg ->]]; exact I).
  assert (Hnone : stored_records (users_json (loaded w)) = [])
    by (rewrite Hkeep, Hfile; destruct Hbad as [-> | [msg ->]]; reflexivity).
  repeat split; try assumption.
  rewrite (authenticate_user_loaded u p w Hwf), Hnone. reflexivity.
Qed.

(** C9: when [data/users.json] is missing or empty, [_load_users] writes
    it and returns the three default accounts, and [authenticate_user]
    accepts exactly their three username and password pairs. *)
Theorem fresh_install_default_accounts (w : world) (u p : string) :
  users_json w = Absent \/ users_json w = Empty ->
  fst (_load_users w)
    = Ok (JArr [ user_record "teacher1" "password123" "teacher";
                 user_record "parent1" "password123" "parent";
                 user_record "admin" "adminpassword" "admin" ]) /\
  users_json (loaded w) = Stored (Decodes dummy_users) /\
  (exists b, fst (authenticate_user u p w) = Ok b) /\
  (fst (authenticate_user u p w) = Ok true <->
     (u = "teacher1" /\ p = "password123") \/
     (u = "parent1" /\ p = "password123") \/
     (u = "admin" /\ p = "adminpassword")).
Proof.
  intros Hfresh. destruct (load_users_fresh w Hfresh) as [Hload Hfile].
  assert (Hwf : wf_users_file (users_json w))
    by (destruct Hfresh as [-> | ->]; exact I).
  split; [exact Hload |]. split; [exact Hfile |].
  rewrite (authenticate_user_loaded u p w Hwf).
  destruct (authenticate_loop_wf u p _ (loaded w) (wf_loaded w Hwf))
    as (b & w1 & Hrun & _ & Hiff & _).
  rewrite Hrun. cbn [fst]. split; [exists b; reflexivity |].
  rewrite Hfile in Hiff. cbn [stored_records dummy_users] in Hiff.
  rewrite !Exists_cons, Exists_nil, !has_credentials_user_record in Hiff.
  split.
  - intros [= ->]. destruct Hiff as [Hiff _]. specialize (Hiff eq_refl). tauto.
  - intros H. f_equal. apply Hiff. tauto.
Qed.

(** Outside the declared shape the lookup [user["password"]] raises, and
    only for a username the file knows. *)
Example malformed_record_raises :
  fst (authenticate_user "bob" "x" malformed_world) = Raise "KeyError: password" /\
  fst (authenticate_user "eve" "x" malformed_world) = Ok false.
Proof. split; vm_compute; reflexivity. Qed.

Lemma authenticate_user_plaintext_witness :
  wf_users_file (users_json installed_world) /\
  login_submitted (fun s => s) (fun _ => "") "nobody" "password123" installed_world
  = login_submitted (fun s => s) (fun _ => "") "admin" "wrong" installed_world.
Proof.
  assert (H : wf_users_file (users_json installed_world)).
  { exists (stored_records (Stored (Decodes dummy_users))).
    split; [reflexivity | apply wf_dummy_users]. }
  split; [exact H |].
  destruct (authenticate_user_plaintext (fun s => s) (fun _ => "")
              installed_world "nobody" "password123" "admin" "wrong" H)
    as [_ Hsame].
  apply Hsame; vm_compute; reflexivity.
Defined.

Lemma load_users_corrupt_is_empty_witness :
  fst (_load_users corrupt_world) = Ok (JArr []) /\
  fst (authenticate_user "admin" "adminpassword" corrupt_world) = Ok false.
Proof.
  destruct (load_users_corrupt_is_empty corrupt_world Corrupt
              "admin" "adminpassword" eq_refl (or_introl eq_refl))
    as (Hload & _ & _ & Hauth).
  split; [exact Hload | exact Hauth].
Defined.

Lemma fresh_install_default_accounts_witness :
  fst (authenticate_user "admin" "adminpassword" fresh_world) = Ok true.
Proof.
  destruct (fresh_install_default_accounts fresh_world
              "admin" "adminpassword" (or_introl eq_refl))
    as (_ & _ & _ & Hiff).
  apply Hiff. right. right. split; reflexivity.
Defined.

End AuthFacts.

(** ** Facts about the record store *)

Module RecordStoreFacts.
Import Py RecordStore.

(** On a writable store [append] adds the record behind the existing
    ones. *)
Lemma load_all_append (record : Type) (r : record) (s : store record) :
  writable s = true ->
  fst (append r s) = Ok tt /\
  load_all (snd (append r s)) = load_all s ++ [r].
Proof. unfold append. intros ->. split; reflexivity. Qed.

(** C8: for a store that did not exist, [append] followed by [load_all]
    yields the appended record itself, and [append] is load, add at the
    end, write back. *)
Theorem append_then_load_all (record : Type) (r : record) (s : store record) :
  file s = NoFile ->
  writable s = true ->
  fst (append r s) = Ok tt /\
  In r (load_all (snd (append r s))) /\
  load_all (snd (append r s)) = [r] /\
  file (snd (append r s)) = Records (load_all s ++ [r]).
Proof.
  intros Hfile Hw.
  destruct (load_all_append record r s Hw) as [Hok Hload].
  assert (Hempty : load_all s = []) by (unfold load_all; rewrite Hfile; reflexivity).
  rewrite Hload, Hempty. repeat split.
  - exact Hok.
  - left. reflexivity.
  - unfold append. rewrite Hw, Hempty. reflexivity.
Qed.

Lemma append_then_load_all_witness :
  load_all (snd (append "record" {| file := NoFile; writable := true |}))
  = ["record"].
Proof.
  apply (append_then_load_all string "record"
           {| file := NoFile; writable := true |} eq_refl eq_refl).
Defined.

End RecordStoreFacts.

(** ** Facts about the observations log *)

Module ParentTrackerFacts.
Import Py Lottie ParentTracker.

Lemma ltb_false_leb (s1 s2 : string) :
  String.ltb s1 s2 = false -> String.leb s2 s1 = true.
Proof.
  unfold String.ltb, String.leb. rewrite (String.compare_antisym s2 s1).
  destruct (String.compare s1 s2); simpl; congruence.
Qed.

Lemma ltb_true_leb (s1 s2 : string) :
  String.ltb s1 s2 = true -> String.leb s1 s2 = true.
Proof.
  unfold String.ltb, String.leb. destruct (String.compare s1 s2); congruence.
Qed.

Lemma leb_trans (s1 s2 s3 : string) :
  String.leb s1 s2 = true -> String.leb s2 s3 = true -> String.leb s1 s3 = true.
Proof.
  intros H12 H23.
  assert (H : String.le s1 s3).
  { transitivity s2; unfold String.le; [rewrite H12 | rewrite H23]; exact I. }
  unfold String.le in H. destruct (String.leb s1 s3); [reflexivity | contradiction].
Qed.

Lemma not_older_trans (a b c : observation) :
  not_older a b -> not_older b c -> not_older a c.
Proof. unfold not_older. intros Hab Hbc. exact (leb_trans _ _ _ Hbc Hab). Qed.

Lemma insert_desc_perm (x : observation) (l : list observation) :
  Permutation (insert_desc x l) (x :: l).
Proof.
  induction l as [| y rest IH]; simpl; [reflexivity |].
  destruct (String.ltb (date x) (date y)); [| reflexivity].
  rewrite IH. apply perm_swap.
Qed.

Lemma sort_by_date_desc_perm (l : list observation) :
  Permutation (sort_by_date_desc l) l.
Proof.
  induction l as [| x l IH]; simpl; [reflexivity |].
  rewrite insert_desc_perm. apply perm_skip, IH.
Qed.

Lemma insert_desc_sorted (x : observation) (l : list observation) :
  StronglySorted not_older l -> StronglySorted not_older (insert_desc x l).
Proof.
  induction 1 as [| y rest Hrest IH Hy]; simpl.
  - repeat constructor.
  - destruct (String.ltb (date x) (date y)) eqn:Hlt.
    + constructor; [exact IH |].
      apply List.Forall_forall. intros z Hz.
      apply (Permutation_in _ (insert_desc_perm x rest)) in Hz.
      destruct Hz as [<- | Hz].
      * apply ltb_true_leb, Hlt.
      * revert z Hz. apply List.Forall_forall, Hy.
    + assert (Hxy : not_older x y) by (apply ltb_false_leb, Hlt).
      constructor; [constructor; assumption |].
      constructor; [exact Hxy |].
      apply List.Forall_forall. intros z Hz.
      apply (not_older_trans x y z Hxy).
      revert z Hz. apply List.Forall_forall, Hy.
Qed.

Lemma sort_by_date_desc_sorted (l : list observation) :
  StronglySorted not_older (sort_by_date_desc l).
Proof.
  induction l as [| x l IH]; simpl; [constructor |].
  apply insert_desc_sorted, IH.
Qed.

(** In a sorted list every element of a prefix is not older than every
    element behind it. *)
Lemma sorted_prefix_not_older (n : nat) (l : list observation) :
  StronglySorted not_older l ->
  forall a b, In a (firstn n l) -> In b (skipn n l) -> not_older a b.
Proof.
  intros Hs. revert n. induction Hs as [| x l Hl IH Hx]; intros n a b.
  - rewrite firstn_nil. intros [].
  - destruct n as [| n]; [intros [] |].
    cbn [firstn skipn]. intros [<- | Ha] Hb.
    + rewrite List.Forall_forall in Hx. apply Hx.
      rewrite <- (firstn_skipn n l). apply in_or_app. right. exact Hb.
    + apply (IH n a b Ha Hb).
Qed.

Section LogFacts.
Variable pydate : Type.
Variable date_eqb : pydate -> pydate -> bool.
Variable fromisoformat : string -> result pydate.
Variable strftime : pydate -> string.
Variable repr : json -> string.
Variable characters : string -> list string.
Variable dict_keys : gmap string json -> list string.
Variable get_text : string -> string -> string.
Variable get_material_icon_html : string -> string.
Variable language : string.

Local Abbreviation write_item := (write_item repr).
Local Abbreviation write_optional := (write_optional repr).
Local Abbreviation str_join := (str_join characters dict_keys).
Local Abbreviation write_struggled :=
  (write_struggled characters dict_keys).
Local Abbreviation write_detail := (write_detail get_material_icon_html).
Local Abbreviation expander_body :=
  (expander_body repr characters dict_keys get_material_icon_html).
Local Abbreviation expander :=
  (expander pydate strftime repr characters dict_keys get_material_icon_html).
Local Abbreviation filtered_out := (filtered_out pydate date_eqb).
Local Abbreviation log_loop :=
  (log_loop pydate date_eqb fromisoformat strftime repr characters dict_keys
            get_material_icon_html).
Local Abbreviation observations_log :=
  (observations_log pydate date_eqb fromisoformat strftime repr characters
                    dict_keys get_text get_material_icon_html language).
Local Abbreviation complete :=
  (complete pydate fromisoformat characters dict_keys).
Local Abbreviation breaks := (breaks pydate date_eqb fromisoformat).

(** Sequencing: what is shown and how it ends. *)
Lemma rendered_app (t1 t2 : list log_event) :
  rendered (t1 ++ t2) = rendered t1 ++ rendered t2.
Proof.
  induction t1 as [| e t1 IH]; [reflexivity |].
  destruct e; cbn [app rendered]; rewrite ?IH; reflexivity.
Qed.

Lemma exported_app (t1 t2 : list log_event) :
  exported (t1 ++ t2) = exported t1 ++ exported t2.
Proof.
  induction t1 as [| e t1 IH]; [reflexivity |].
  destruct e; cbn [app exported]; rewrite ?IH; reflexivity.
Qed.

Lemma andthen_eq (A B : Type) (c : view A) (k : A -> view B) :
  andthen c k
  = match snd c with
    | Ok a => (fst c ++ fst (k a), snd (k a))
    | Raise msg => (fst c, Raise msg)
    end.
Proof.
  destruct c as [events [a | msg]]; cbn; [destruct (k a) |]; reflexivity.
Qed.

Ltac run_view :=
  repeat (rewrite andthen_eq; cbn [lift tell done fst snd app]).

Lemma andthen_ok (A B : Type) (c : view A) (k : A -> view B) (a : A) :
  snd c = Ok a ->
  andthen c k = (fst c ++ fst (k a), snd (k a)).
Proof.
  destruct c as [events r]. cbn. intros ->. destruct (k a). reflexivity.
Qed.

Lemma andthen_raise (A B : Type) (c : view A) (k : A -> view B) (msg : string) :
  snd c = Raise msg ->
  andthen c k = (fst c, Raise msg).
Proof. destruct c as [events r]. cbn. intros ->. reflexivity. Qed.

(** A part of the view that opens no expander and exports nothing. *)
Local Abbreviation quiet c := (rendered (fst c) = [] /\ exported (fst c) = []).

Lemma andthen_quiet (A : Type) (c : view A) (k : A -> view unit) :
  quiet c -> (forall a, quiet (k a)) -> quiet (andthen c k).
Proof.
  intros [Hr He] Hk. rewrite andthen_eq.
  destruct c as [events [a | msg]]; cbn [fst snd] in *.
  - rewrite rendered_app, exported_app, Hr, He.
    destruct (Hk a) as [-> ->]. split; reflexivity.
  - split; assumption.
Qed.

Lemma lift_quiet (A : Type) (r : result A) : quiet (lift r).
Proof. split; reflexivity. Qed.

Lemma write_item_quiet (label key suffix : string) (obs : observation) :
  quiet (write_item label key suffix obs).
Proof.
  apply andthen_quiet; [apply lift_quiet |]. intros v. split; reflexivity.
Qed.

Lemma write_struggled_quiet (obs : observation) : quiet (write_struggled obs).
Proof.
  unfold ParentTracker.write_struggled.
  destruct (truthy _); [| split; reflexivity].
  apply andthen_quiet; [apply lift_quiet |]. intros v.
  apply andthen_quiet; [apply lift_quiet |]. intros s. split; reflexivity.
Qed.

Lemma write_detail_quiet (icon title key : string) (obs : observation) :
  quiet (write_detail icon title key obs).
Proof.
  unfold ParentTracker.write_detail.
  destruct (truthy _); [| split; reflexivity].
  apply andthen_quiet; [split; reflexivity |]. intros _.
  apply andthen_quiet; [apply lift_quiet |]. intros v. split; reflexivity.
Qed.

Lemma in_order_quiet (steps : list (view unit)) :
  Forall (fun step => quiet step) steps -> quiet (in_order steps).
Proof.
  induction 1 as [| step rest Hstep _ IH]; [split; reflexivity |].
  cbn [in_order]. apply andthen_quiet; [exact Hstep | intros _; exact IH].
Qed.

Lemma expander_body_quiet (obs : observation) (show_detailed : bool) :
  Forall (fun step => quiet step) (expander_body obs show_detailed).
Proof.
  unfold ParentTracker.expander_body. apply Forall_app. split.
  - repeat (apply List.Forall_cons;
            [first [ apply write_item_quiet | apply write_struggled_quiet
                   | split; reflexivity ] |]).
    apply List.Forall_nil.
  - destruct show_detailed; [| apply List.Forall_nil].
    repeat (apply List.Forall_cons; [apply write_detail_quiet |]).
    apply List.Forall_nil.
Qed.

(** The expander is opened exactly when the label can be built. *)
Lemma expander_shown (obs_date : pydate) (obs : observation)
    (show_detailed : bool) :
  rendered (fst (expander obs_date obs show_detailed))
  = (if decide (is_Some (entry obs !! "behavior_rating")) then [obs] else []) /\
  exported (fst (expander obs_date obs show_detailed)) = [].
Proof.
  unfold ParentTracker.expander, obs_item.
  destruct (in_order_quiet _ (expander_body_quiet obs show_detailed))
    as [Hr He].
  destruct (entry obs !! "behavior_rating") as [rating |] eqn:Hrating.
  - run_view. cbn [rendered exported].
    rewrite Hr, He. destruct (decide (is_Some (Some rating))) as [_ | Hn].
    + split; reflexivity.
    + destruct Hn. eexists. reflexivity.
  - run_view. cbn [rendered exported].
    destruct (decide (is_Some None)) as [[x Hx] | _]; [discriminate Hx |].
    split; reflexivity.
Qed.

(** How a sequence of statements ends. *)
Lemma in_order_ok (steps : list (view unit)) :
  Forall (fun step => snd step = Ok tt) steps -> snd (in_order steps) = Ok tt.
Proof.
  induction 1 as [| step rest Hstep _ IH]; [reflexivity |].
  cbn [in_order]. rewrite (andthen_ok _ _ step _ tt Hstep). exact IH.
Qed.

Lemma in_order_raises (steps : list (view unit)) :
  Exists (fun step => exists msg, snd step = Raise msg) steps ->
  exists msg, snd (in_order steps) = Raise msg.
Proof.
  induction steps as [| step rest IH]; intros HE; [inversion HE |].
  cbn [in_order]. destruct (snd step) as [[] | msg] eqn:Hstep.
  - rewrite (andthen_ok _ _ step _ tt Hstep). cbn [snd]. apply IH.
    inversion HE as [? ? [m Hm] | ? ? Htl]; subst; [congruence | exact Htl].
  - rewrite (andthen_raise _ _ step _ msg Hstep). exists msg. reflexivity.
Qed.

Lemma write_item_ok (label key suffix : string) (obs : observation) :
  is_Some (entry obs !! key) ->
  snd (write_item label key suffix obs) = Ok tt.
Proof.
  intros [v Hv]. unfold ParentTracker.write_item, obs_item. rewrite Hv.
  reflexivity.
Qed.

Lemma write_item_raises (label key suffix : string) (obs : observation) :
  entry obs !! key = None ->
  snd (write_item label key suffix obs) = Raise ("KeyError: " +:+ key).
Proof.
  intros Hv. unfold ParentTracker.write_item, obs_item. rewrite Hv.
  reflexivity.
Qed.

Lemma write_detail_ok (icon title key : string) (obs : observation) :
  snd (write_detail icon title key obs) = Ok tt.
Proof.
  unfold ParentTracker.write_detail, obs_get, obs_item.
  destruct (entry obs !! key) as [v |]; cbn [from_option id].
  - destruct (truthy v); reflexivity.
  - reflexivity.
Qed.

Lemma write_struggled_ok (obs : observation) :
  (truthy (obs_get obs "subjects_struggled" JNull) = true ->
   exists joined,
     str_join ", " (obs_get obs "subjects_struggled" JNull) = Ok joined) ->
  snd (write_struggled obs) = Ok tt.
Proof.
  unfold ParentTracker.write_struggled, obs_get, obs_item.
  destruct (entry obs !! "subjects_struggled") as [v |]; cbn [from_option id].
  - destruct (truthy v); [| reflexivity].
    intros Hjoin. destruct (Hjoin eq_refl) as [joined Hjoined].
    run_view. rewrite Hjoined. run_view. reflexivity.
  - reflexivity.
Qed.

Lemma required_fields_present (obs : observation) :
  Forall (fun key => is_Some (entry obs !! key)) required_fields ->
  forall key, In key required_fields -> is_Some (entry obs !! key).
Proof. intros H. apply List.Forall_forall, H. Qed.

(** A complete observation is rendered in full. *)
Lemma expander_complete (obs_date : pydate) (obs : observation)
    (show_detailed : bool) :
  Forall (fun key => is_Some (entry obs !! key)) required_fields ->
  (truthy (obs_get obs "subjects_struggled" JNull) = true ->
   exists joined,
     str_join ", " (obs_get obs "subjects_struggled" JNull) = Ok joined) ->
  snd (expander obs_date obs show_detailed) = Ok tt /\
  rendered (fst (expander obs_date obs show_detailed)) = [obs].
Proof.
  intros Hfields Hjoin.
  pose proof (required_fields_present obs Hfields) as Hkey.
  assert (Hrating : is_Some (entry obs !! "behavior_rating"))
    by (apply Hkey; vm_compute; tauto).
  split.
  - unfold ParentTracker.expander, obs_item.
    destruct Hrating as [rating ->]. run_view. apply in_order_ok. unfold ParentTracker.expander_body.
    apply Forall_app. split.
    + repeat (apply List.Forall_cons;
              [first [ reflexivity
                     | apply write_item_ok, Hkey; vm_compute; tauto
                     | apply write_struggled_ok, Hjoin ] |]).
      apply List.Forall_nil.
    + destruct show_detailed; [| apply List.Forall_nil].
      repeat (apply List.Forall_cons; [apply write_detail_ok |]).
      apply List.Forall_nil.
  - destruct (expander_shown obs_date obs show_detailed) as [-> _].
    destruct (decide _) as [_ | Hn]; [reflexivity | contradiction].
Qed.

(** Without one of the required fields the expander raises [KeyError]. *)
Lemma expander_incomplete (obs_date : pydate) (obs : observation)
    (show_detailed : bool) (key : string) :
  In key required_fields -> entry obs !! key = None ->
  exists msg, snd (expander obs_date obs show_detailed) = Raise msg.
Proof.
  intros Hin Hnone. unfold ParentTracker.expander, obs_item.
  destruct (entry obs !! "behavior_rating") as [rating |] eqn:Hrating;
    [| eexists; reflexivity].
  run_view. apply in_order_raises.
  unfold ParentTracker.expander_body. apply Exists_app. left.
  apply List.Exists_exists.
  cbn [required_fields In] in Hin.
  destruct Hin as [<- | [<- | [<- | [<- | [<- | [<- | [<- | []]]]]]]];
    [congruence | | | | | |];
    match type of Hnone with
    | entry obs !! ?key = None =>
        match goal with
        | |- context [ParentTracker.write_item repr ?label key ?suffix obs] =>
            exists (write_item label key suffix obs)
        end
    end;
    (split; [cbn [In]; tauto | eexists; apply write_item_raises, Hnone]).
Qed.

(** The loop opens expanders for a subsequence of the observations it is
    given and exports nothing. *)
Lemma rendered_log_loop (date_filter : option pydate) (show_detailed : bool)
    (todo : list observation) :
  sublist (rendered (fst (log_loop date_filter show_detailed todo))) todo /\
  exported (fst (log_loop date_filter show_detailed todo)) = [].
Proof.
  induction todo as [| obs rest [IHr IHe]]; cbn [ParentTracker.log_loop].
  - split; [constructor | reflexivity].
  - rewrite andthen_eq.
    destruct (fromisoformat (date obs)) as [obs_date | msg];
      cbn [lift fst snd app]; [| split; [apply sublist_nil_l | reflexivity]].
    rewrite andthen_eq.
    destruct (filtered_out date_filter obs_date).
    + cbn [done fst snd app]. split; [apply sublist_cons, IHr | exact IHe].
    + destruct (expander_shown obs_date obs show_detailed) as [Hr He].
      destruct (expander obs_date obs show_detailed) as [events [[] | msg]];
        cbn [fst snd] in *.
      * rewrite rendered_app, exported_app, Hr, He, IHe.
        split; [| reflexivity].
        destruct (decide _); cbn [app];
          [apply sublist_skip, IHr | apply sublist_cons, IHr].
      * rewrite Hr, He. split; [| reflexivity].
        destruct (decide _);
          [apply sublist_skip, sublist_nil_l | apply sublist_nil_l].
Qed.

(** On complete observations the loop ends normally; without a date
    filter it opens an expander for each of them. *)
Lemma log_loop_complete (date_filter : option pydate) (show_detailed : bool)
    (todo : list observation) :
  Forall complete todo ->
  snd (log_loop date_filter show_detailed todo) = Ok tt /\
  (date_filter = None ->
   rendered (fst (log_loop date_filter show_detailed todo)) = todo).
Proof.
  induction 1 as [| obs rest ([d Hd] & Hfields & Hjoin) _ [IHo IHr]];
    cbn [ParentTracker.log_loop].
  - split; reflexivity.
  - rewrite andthen_eq, Hd. cbn [lift fst snd app].
    destruct (expander_complete d obs show_detailed Hfields Hjoin)
      as [Hok Hshown].
    split.
    + destruct (filtered_out date_filter d).
      * rewrite andthen_eq. cbn [done fst snd]. exact IHo.
      * rewrite (andthen_ok _ _ _ _ tt Hok). exact IHo.
    + intros ->. cbn [ParentTracker.filtered_out].
      rewrite (andthen_ok _ _ _ _ tt Hok). cbn [fst].
      rewrite rendered_app, Hshown, (IHr eq_refl). reflexivity.
Qed.

(** An observation with a malformed date, or one that passes the filter
    and lacks a required field, makes the loop raise. *)
Lemma log_loop_breaks (date_filter : option pydate) (show_detailed : bool)
    (todo : list observation) :
  Exists (breaks date_filter) todo ->
  exists msg, snd (log_loop date_filter show_detailed todo) = Raise msg.
Proof.
  induction todo as [| obs rest IH]; intros HE; [inversion HE |].
  cbn [ParentTracker.log_loop]. rewrite andthen_eq.
  destruct (fromisoformat (date obs)) as [obs_date | msg] eqn:Hd;
    cbn [lift fst snd app]; [| exists msg; reflexivity].
  assert (Hrest : Exists (breaks date_filter) rest ->
                  exists msg, snd (log_loop date_filter show_detailed rest)
                              = Raise msg) by exact IH.
  destruct (filtered_out date_filter obs_date) eqn:Hf.
  - rewrite andthen_eq. cbn [done fst snd]. apply Hrest.
    inversion HE as [? ? Hhd | ? ? Htl]; subst; [| exact Htl].
    destruct Hhd as [[m Hm] | (d & key & Hd' & Hf' & _)]; congruence.
  - destruct (snd (expander obs_date obs show_detailed)) as [[] | msg] eqn:Hrun.
    + rewrite (andthen_ok _ _ _ _ tt Hrun). cbn [snd]. apply Hrest.
      inversion HE as [? ? Hhd | ? ? Htl]; subst; [| exact Htl].
      destruct Hhd as [[m Hm] | (d & key & Hd' & _ & Hin & Hnone)];
        [congruence |].
      destruct (expander_incomplete obs_date obs show_detailed key Hin Hnone)
        as [m Hm].
      congruence.
    + rewrite (andthen_raise _ _ _ _ msg Hrun). exists msg. reflexivity.
Qed.

(** What the view renders comes from the loop over the first 20. *)
Lemma observations_log_run (all_observations : list observation)
    (name : string) (date_filter : option pydate)
    (show_detailed export_button : bool) (o : observation)
    (os : list observation) :
  child_observations all_observations name = o :: os ->
  let sorted := sort_by_date_desc (o :: os) in
  let loop := log_loop date_filter show_detailed (firstn 20 sorted) in
  let run := observations_log all_observations name date_filter
                              show_detailed export_button in
  rendered (fst run) = rendered (fst loop) /\
  (snd loop = Ok tt ->
   snd run = Ok tt /\
   exported (fst run) = if export_button then [ sorted ] else []) /\
  (forall msg, snd loop = Raise msg ->
   snd run = Raise msg /\ exported (fst run) = []).
Proof.
  intros Hmine sorted loop run. subst run.
  unfold ParentTracker.observations_log. rewrite Hmine.
  fold sorted. fold loop.
  destruct (rendered_log_loop date_filter show_detailed (firstn 20 sorted))
    as [_ He]. fold loop in He.
  run_view. cbn [rendered exported].
  destruct loop as [events [[] | msg]]; cbn [fst snd] in *.
  - destruct export_button; cbn [tell done fst snd];
      rewrite rendered_app, exported_app, He; cbn [rendered exported app];
      rewrite ?app_nil_r;
      (split; [reflexivity |]); (split; [intros _; split; reflexivity |]);
      intros m Hm; discriminate Hm.
  - split; [reflexivity |]. split; [intros H; discriminate H |].
    intros m [= <-]. split; [reflexivity | exact He].
Qed.

Lemma rendered_observations_log (all_observations : list observation)
    (name : string) (date_filter : option pydate)
    (show_detailed export_button : bool) :
  sublist
    (rendered (fst (observations_log all_observations name date_filter
                                     show_detailed export_button)))
    (firstn 20 (sort_by_date_desc (child_observations all_observations name))).
Proof.
  destruct (child_observations all_observations name) as [| o os] eqn:Hc.
  - unfold ParentTracker.observations_log. rewrite Hc. apply sublist_nil_l.
  - destruct (observations_log_run all_observations name date_filter
                show_detailed export_button o os Hc) as [-> _].
    apply rendered_log_loop.
Qed.

(** C10: the log view sorts the selected child's observations by date,
    newest first, and opens expanders only for observations among the
    first 20 of that sequence, in its order: at most 20 however many are
    stored, none older than any observation left out.  With no date
    filter and when those first 20 are complete (their dates parse and
    the fields the expander subscripts are there), the view ends normally
    and renders exactly those first 20. *)
Theorem observations_log_shows_20_most_recent
    (all_observations : list observation) (name : string)
    (date_filter : option pydate) (show_detailed export_button : bool) :
  let mine := child_observations all_observations name in
  let sorted := sort_by_date_desc mine in
  let run := observations_log all_observations name date_filter
                              show_detailed export_button in
  let shown := rendered (fst run) in
  (forall obs, In obs mine <-> In obs all_observations /\ child_name obs = name) /\
  Permutation sorted mine /\
  StronglySorted not_older sorted /\
  sublist shown (firstn 20 sorted) /\
  (length shown <= 20)%nat /\
  (forall a b, In a shown -> In b (skipn 20 sorted) -> not_older a b) /\
  (date_filter = None ->
   Forall complete (firstn 20 sorted) ->
   snd run = Ok tt /\ shown = firstn 20 sorted).
Proof.
  intros mine sorted run shown.
  assert (Hsub : sublist shown (firstn 20 sorted))
    by apply rendered_observations_log.
  assert (Hsorted : StronglySorted not_older sorted)
    by apply sort_by_date_desc_sorted.
  assert (Hperm : Permutation sorted mine) by apply sort_by_date_desc_perm.
  split; [| split; [exact Hperm | split; [exact Hsorted | split; [exact Hsub |]]]].
  - intros obs. subst mine. unfold child_observations.
    rewrite filter_In, String.eqb_eq. tauto.
  - split; [| split].
    + apply sublist_length in Hsub. rewrite length_firstn in Hsub. lia.
    + intros a b Ha Hb.
      apply (sorted_prefix_not_older 20 sorted Hsorted a b); [| exact Hb].
      apply list_elem_of_In. apply (sublist_subseteq _ _ Hsub).
      apply list_elem_of_In, Ha.
    + intros -> Hcomplete. subst shown run.
      destruct mine as [| o os] eqn:Hmine.
      * unfold ParentTracker.observations_log. fold mine. rewrite Hmine.
        split; reflexivity.
      * destruct (observations_log_run all_observations name None
                    show_detailed export_button o os Hmine)
          as (Hshown & Hok & _).
        destruct (log_loop_complete None show_detailed _ Hcomplete)
          as [Hloop Hall].
        split; [apply (Hok Hloop) |].
        rewrite Hshown. apply (Hall eq_refl).
Qed.

(** What the daily form saves is complete whenever its date parses. *)
Lemma strings_of_map (l : list string) : strings_of (map JStr l) = Some l.
Proof.
  induction l as [| s l IH]; [reflexivity |].
  cbn [map strings_of]. rewrite IH. reflexivity.
Qed.

Lemma observation_data_complete (name today now : string) (f : daily_form)
    (obs_date : pydate) :
  fromisoformat today = Ok obs_date ->
  complete (observation_data name today now f).
Proof.
  intros Hd. split; [exists obs_date; exact Hd |]. split.
  - repeat (apply List.Forall_cons; [eexists; vm_compute; reflexivity |]).
    apply List.Forall_nil.
  - intros _.
    assert (Hs : obs_get (observation_data name today now f)
                         "subjects_struggled" JNull
                 = JArr (map JStr (subjects_struggled f)))
      by (vm_compute; reflexivity).
    rewrite Hs. cbn [ParentTracker.str_join]. rewrite strings_of_map.
    eexists. reflexivity.
Qed.

End LogFacts.

(** The dates of the sample observations parse. *)
Lemma sample_observations_complete (obs : observation) :
  In obs sample_observations ->
  complete string sample_fromisoformat sample_characters sample_dict_keys obs.
Proof.
  unfold sample_observations. intros Hin.
  apply in_map_iff in Hin as (n & <- & Hn). apply in_seq in Hn.
  apply (observation_data_complete string sample_fromisoformat
           sample_characters sample_dict_keys _ _ _ _
           ("2024-05-" +:+ two_digits n)).
  do 26 (destruct n as [| n]; [vm_compute; reflexivity || lia |]). lia.
Qed.

(** Twenty-five observations saved by the form, no date filter, details
    shown: the view ends normally and renders the twenty newest, those of
    day 25 down to day 6. *)
Lemma observations_log_shows_20_most_recent_witness :
  snd (observations_log string String.eqb sample_fromisoformat
         sample_strftime sample_repr sample_characters sample_dict_keys
         (fun k _ => k) sample_icon "English" sample_observations "Amina"
         None true false) = Ok tt /\
  map date
    (rendered (fst (observations_log string String.eqb sample_fromisoformat
                      sample_strftime sample_repr sample_characters
                      sample_dict_keys (fun k _ => k) sample_icon "English"
                      sample_observations "Amina" None true false)))
  = map (fun n => "2024-05-" +:+ two_digits n) (rev (seq 6 20)).
Proof.
  destruct (observations_log_shows_20_most_recent string String.eqb
              sample_fromisoformat sample_strftime sample_repr
              sample_characters sample_dict_keys (fun k _ => k) sample_icon
              "English" sample_observations "Amina" None true false)
    as (_ & Hperm & _ & _ & _ & _ & Hall).
  destruct Hall as [Hok Hshown]; [reflexivity | |].
  - apply List.Forall_forall. intros obs Hin.
    apply sample_observations_complete.
    apply (Permutation_in _ Hperm).
    apply list_elem_of_In. apply list_elem_of_In in Hin.
    apply (sublist_subseteq _ _ (sublist_take _ 20)), Hin.
  - split; [exact Hok |]. rewrite Hshown. vm_compute. reflexivity.
Defined.

(** The same store with the newest observation lacking its
    [homework_completion]: its expander opens, the view raises
    [KeyError] and the other nineteen are not rendered. *)
Example incomplete_observation_stops_the_log :
  observations_log string String.eqb sample_fromisoformat sample_strftime
    sample_repr sample_characters sample_dict_keys (fun k _ => k) sample_icon
    "English"
    (without_homework (sample_observation 25)
       :: map sample_observation (seq 1 24))
    "Amina" None false true
  = ([ StMarkdown "## observations_log";
       StMarkdown "Complete observation history for **Amina**";
       StExpander "May 25, 2024 - Rating: 3/5"
                  (without_homework (sample_observation 25));
       StMarkdown "**Academic**" ],
     Raise "KeyError: homework_completion").
Proof. vm_compute. reflexivity. Qed.

End ParentTrackerFacts.

(** ** Facts about the Lottie helpers *)

Module LottieFacts.
Import Py Lottie.

Lemma size_zero_lookup (m : gmap string json) (k : string) (v : json) :
  m !! k = Some v -> Nat.eqb (size m) 0 = false.
Proof.
  intros Hk. apply Nat.eqb_neq. intros Hsize.
  apply map_size_empty_iff in Hsize. subst m. rewrite lookup_empty in Hk.
  discriminate Hk.
Qed.

Lemma reset_bg_lookup_bg (fields : gmap string json) :
  reset_bg fields !! "bg" = Some JNull.
Proof. unfold reset_bg. apply lookup_insert_eq. Qed.

Lemma reset_bg_lookup_ne (fields : gmap string json) (k : string) :
  k <> "bg" -> reset_bg fields !! k = fields !! k.
Proof.
  intros Hk. unfold reset_bg. rewrite lookup_insert_ne by congruence.
  destruct (fields !! "bg"); [| reflexivity].
  apply lookup_delete_ne. congruence.
Qed.

Lemma reset_bg_idem (fields : gmap string json) :
  reset_bg (reset_bg fields) = reset_bg fields.
Proof.
  apply map_eq. intros k. destruct (decide (k = "bg")) as [-> | Hk].
  - rewrite !reset_bg_lookup_bg. reflexivity.
  - rewrite (reset_bg_lookup_ne (reset_bg fields) k Hk). reflexivity.
Qed.

Lemma truthy_reset_bg (fields : gmap string json) :
  truthy (JObj (reset_bg fields)) = true.
Proof.
  cbn [truthy]. rewrite (size_zero_lookup _ "bg" JNull); [reflexivity |].
  apply reset_bg_lookup_bg.
Qed.

(** The shape of every successful result on a true argument. *)
Lemma remove_lottie_background_object (v r : json) :
  truthy v = true ->
  remove_lottie_background v = Ok r ->
  exists fields fields',
    v = JObj fields /\ r = JObj (reset_bg fields') /\
    (forall k, k <> "layers" -> fields' !! k = fields !! k).
Proof.
  intros Ht. unfold remove_lottie_background. rewrite Ht. cbn [negb].
  destruct v as [| | | | | | fields]; try discriminate.
  destruct (fields !! "layers") as [layers_value |] eqn:Hl.
  - destruct (iter_values layers_value) as [layers | m]; [| discriminate].
    cbn [rbind].
    destruct (drop_solid layers) as [l1 | m]; [| discriminate]. cbn [rbind].
    destruct (drop_filled l1) as [l2 | m]; [| discriminate]. cbn [rbind].
    intros [= <-]. exists fields, (<["layers" := JArr l2]> fields).
    repeat split. intros k Hk. apply lookup_insert_ne. congruence.
  - intros [= <-]. exists fields, fields. repeat split.
Qed.

(** X1: the function returns [None] exactly for a false argument, raises for
    every true argument that is not a dict, and otherwise returns a dict,
    true again, whose [bg] is [None]. *)
Theorem remove_lottie_background_outcomes (v : json) :
  (truthy v = false -> remove_lottie_background v = Ok JNull) /\
  (remove_lottie_background v = Ok JNull -> truthy v = false) /\
  (truthy v = true -> (forall fields, v <> JObj fields) ->
     remove_lottie_background v = Raise "TypeError") /\
  (forall r, truthy v = true -> remove_lottie_background v = Ok r ->
     truthy r = true /\ Auth.field r "bg" = Some JNull /\
     exists fields, v = JObj fields /\
       forall k, k <> "layers" -> k <> "bg" ->
         Auth.field r k = fields !! k).
Proof.
  split; [| split; [| split]].
  - intros Hf. unfold remove_lottie_background. rewrite Hf. reflexivity.
  - intros Hr. destruct (truthy v) eqn:Ht; [| reflexivity].
    destruct (remove_lottie_background_object v JNull Ht Hr)
      as (f & f' & _ & Hnull & _). discriminate Hnull.
  - intros Ht Hobj. unfold remove_lottie_background. rewrite Ht. cbn [negb].
    destruct v; try reflexivity. destruct (Hobj fields eq_refl).
  - intros r Ht Hr.
    destruct (remove_lottie_background_object v r Ht Hr)
      as (f & f' & -> & -> & Hkeep).
    split; [apply truthy_reset_bg |]. split; [apply reset_bg_lookup_bg |].
    exists f. split; [reflexivity |]. intros k Hl Hb. cbn [Auth.field].
    rewrite reset_bg_lookup_ne by exact Hb. apply Hkeep, Hl.
Qed.

(** *** Well-formed layers *)

Lemma any_fill_wf (shapes : list json) :
  Forall (fun shape => exists fields, shape = JObj fields) shapes ->
  any_fill shapes
  = Ok (existsb (fun shape => eq_lit (ty_of shape) "fl") shapes).
Proof.
  induction 1 as [| shape rest [fields ->] _ IH]; [reflexivity |].
  cbn [any_fill dict_get rbind existsb ty_of].
  destruct (eq_lit _ "fl"); [reflexivity | exact IH].
Qed.

Lemma is_filled_shape_wf (layer : json) :
  wf_layer layer ->
  is_filled_shape layer
  = Ok (eq_4 (ty_of layer)
        && existsb (fun shape => eq_lit (ty_of shape) "fl") (shapes_of layer)).
Proof.
  intros (fields & -> & Hshapes).
  unfold is_filled_shape. cbn [dict_get rbind ty_of shapes_of].
  destruct (eq_4 _); [| reflexivity]. cbn [andb].
  destruct (fields !! "shapes") as [v |] eqn:Hv; cbn [from_option id].
  - destruct (Hshapes v eq_refl) as (shapes & -> & Hwf).
    cbn [iter_values rbind]. apply any_fill_wf, Hwf.
  - reflexivity.
Qed.

Lemma drop_solid_wf (layers : list json) :
  Forall wf_layer layers ->
  drop_solid layers
  = Ok (List.filter (fun layer => negb (eq_1 (ty_of layer))) layers).
Proof.
  induction 1 as [| layer rest (fields & -> & _) _ IH]; [reflexivity |].
  cbn [drop_solid dict_get rbind List.filter ty_of]. rewrite IH. cbn [rbind].
  destruct (eq_1 _); reflexivity.
Qed.

Lemma drop_filled_wf (layers : list json) :
  Forall wf_layer layers ->
  drop_filled layers
  = Ok (List.filter
          (fun layer =>
             negb (eq_4 (ty_of layer)
                   && existsb (fun shape => eq_lit (ty_of shape) "fl")
                              (shapes_of layer))) layers).
Proof.
  induction 1 as [| layer rest Hlayer _ IH]; [reflexivity |].
  cbn [drop_filled List.filter]. rewrite (is_filled_shape_wf layer Hlayer), IH.
  cbn [rbind]. destruct (eq_4 _ && _); reflexivity.
Qed.

Lemma Forall_filter_keep (A : Type) (P : A -> Prop) (f : A -> bool)
    (l : list A) :
  Forall P l -> Forall P (List.filter f l).
Proof.
  induction 1 as [| x l Hx _ IH]; [constructor |].
  cbn [List.filter]. destruct (f x); [constructor |]; assumption.
Qed.

Lemma filter_filter (A : Type) (f g : A -> bool) (l : list A) :
  List.filter g (List.filter f l) = List.filter (fun x => f x && g x) l.
Proof.
  induction l as [| x l IH]; [reflexivity |].
  cbn [List.filter]. destruct (f x); cbn [List.filter andb]; rewrite IH;
    reflexivity.
Qed.

(** X2: on an animation whose layers are well formed the function returns:
    the layers left are the original ones, in order, without the solid
    layers and without the shape layers that hold a fill; [bg] is [None]
    and every other key keeps its value. *)
Theorem remove_lottie_background_layers (fields : gmap string json)
    (layers : list json) :
  fields !! "layers" = Some (JArr layers) ->
  Forall wf_layer layers ->
  exists fields',
    remove_lottie_background (JObj fields) = Ok (JObj fields') /\
    fields' !! "layers"
      = Some (JArr (List.filter (fun layer => negb (is_background layer))
                                layers)) /\
    fields' !! "bg" = Some JNull /\
    (forall k, k <> "layers" -> k <> "bg" -> fields' !! k = fields !! k).
Proof.
  intros Hl Hwf. unfold remove_lottie_background.
  cbn [truthy]. rewrite (size_zero_lookup fields "layers" _ Hl). cbn [negb].
  rewrite Hl. cbn [iter_values rbind].
  rewrite (drop_solid_wf layers Hwf). cbn [rbind].
  rewrite (drop_filled_wf _ (Forall_filter_keep _ _ _ _ Hwf)). cbn [rbind].
  rewrite filter_filter.
  eexists. split; [reflexivity |]. split; [| split].
  - rewrite reset_bg_lookup_ne by discriminate. rewrite lookup_insert_eq.
    do 2 f_equal. apply filter_ext. intros layer. unfold is_background.
    rewrite negb_orb. reflexivity.
  - apply reset_bg_lookup_bg.
  - intros k Hk Hb. rewrite reset_bg_lookup_ne by exact Hb.
    apply lookup_insert_ne. congruence.
Qed.

Lemma remove_lottie_background_layers_witness :
  exists fields',
    remove_lottie_background sample_animation = Ok (JObj fields') /\
    fields' !! "layers" = Some (JArr [ stroke_layer; image_layer ]).
Proof.
  assert (Hwf : Forall wf_layer [ solid_layer; stroke_layer; filled_layer;
                                  image_layer ]).
  { repeat constructor; eexists; (split; [reflexivity |]);
      intros v Hv; vm_compute in Hv; try discriminate Hv;
      injection Hv as <-; eexists; (split; [reflexivity |]);
      repeat constructor; eexists; reflexivity. }
  destruct (remove_lottie_background_layers sample_fields _ eq_refl Hwf)
    as (fields' & Hrun & Hlayers & _).
  exists fields'. split; [exact Hrun |]. rewrite Hlayers. reflexivity.
Defined.

(** *** Applying the function twice *)

Lemma drop_solid_result (layers kept : list json) :
  drop_solid layers = Ok kept -> Forall not_solid kept.
Proof.
  revert kept. induction layers as [| layer rest IH]; intros kept.
  - intros [= <-]. constructor.
  - cbn [drop_solid].
    destruct (dict_get layer "ty" JNull) as [ty | m] eqn:Hty; [| discriminate].
    cbn [rbind]. destruct (drop_solid rest) as [kept' | m]; [| discriminate].
    cbn [rbind]. specialize (IH kept' eq_refl).
    destruct (eq_1 ty) eqn:H1; intros [= <-]; [exact IH |].
    constructor; [exists ty; auto | exact IH].
Qed.

Lemma drop_solid_fixed (layers : list json) :
  Forall not_solid layers -> drop_solid layers = Ok layers.
Proof.
  induction 1 as [| layer rest (ty & Hty & H1) _ IH]; [reflexivity |].
  cbn [drop_solid]. rewrite Hty, IH. cbn [rbind]. rewrite H1. reflexivity.
Qed.

Lemma drop_filled_result (P : json -> Prop) (layers kept : list json) :
  drop_filled layers = Ok kept ->
  Forall P layers -> Forall not_filled kept /\ Forall P kept.
Proof.
  revert kept. induction layers as [| layer rest IH]; intros kept.
  - intros [= <-] _. split; constructor.
  - cbn [drop_filled].
    destruct (is_filled_shape layer) as [filled | m] eqn:Hf; [| discriminate].
    cbn [rbind]. destruct (drop_filled rest) as [kept' | m]; [| discriminate].
    cbn [rbind]. intros Hk HP. inversion HP as [| ? ? Hhd Htl]; subst.
    destruct (IH kept' eq_refl Htl) as [IH1 IH2].
    destruct filled; injection Hk as <-; [split; assumption |].
    split; constructor; assumption.
Qed.

Lemma drop_filled_fixed (layers : list json) :
  Forall not_filled layers -> drop_filled layers = Ok layers.
Proof.
  induction 1 as [| layer rest Hf _ IH]; [reflexivity |].
  cbn [drop_filled]. rewrite Hf, IH. reflexivity.
Qed.

(** X3: cleaning an animation that was already cleaned changes nothing. *)
Theorem remove_lottie_background_idempotent (v r : json) :
  remove_lottie_background v = Ok r ->
  remove_lottie_background r = Ok r.
Proof.
  intros Hr. destruct (truthy v) eqn:Ht.
  2:{ unfold remove_lottie_background in Hr. rewrite Ht in Hr.
      injection Hr as <-. reflexivity. }
  unfold remove_lottie_background in Hr. rewrite Ht in Hr. cbn [negb] in Hr.
  destruct v as [| | | | | | fields]; try discriminate Hr.
  unfold remove_lottie_background at 1.
  destruct (fields !! "layers") as [layers_value |] eqn:Hl.
  - destruct (iter_values layers_value) as [layers | m]; [| discriminate Hr].
    cbn [rbind] in Hr.
    destruct (drop_solid layers) as [l1 | m] eqn:H1; [| discriminate Hr].
    cbn [rbind] in Hr.
    destruct (drop_filled l1) as [l2 | m] eqn:H2; [| discriminate Hr].
    cbn [rbind] in Hr. injection Hr as <-.
    rewrite truthy_reset_bg. cbn [negb].
    rewrite reset_bg_lookup_ne by discriminate. rewrite lookup_insert_eq.
    cbn [iter_values rbind].
    destruct (drop_filled_result not_solid l1 l2 H2 (drop_solid_result _ _ H1))
      as [Hnf Hns].
    rewrite (drop_solid_fixed l2 Hns). cbn [rbind].
    rewrite (drop_filled_fixed l2 Hnf). cbn [rbind].
    do 2 f_equal. apply map_eq. intros k.
    destruct (decide (k = "bg")) as [-> | Hb].
    + rewrite !reset_bg_lookup_bg. reflexivity.
    + rewrite (reset_bg_lookup_ne _ k Hb).
      destruct (decide (k = "layers")) as [-> | Hk].
      * rewrite lookup_insert_eq. rewrite reset_bg_lookup_ne by discriminate.
        rewrite lookup_insert_eq. reflexivity.
      * rewrite lookup_insert_ne by congruence. reflexivity.
  - injection Hr as <-. rewrite truthy_reset_bg. cbn [negb].
    rewrite reset_bg_lookup_ne by discriminate. rewrite Hl.
    rewrite reset_bg_idem. reflexivity.
Qed.

Lemma remove_lottie_background_idempotent_witness :
  exists r, remove_lottie_background sample_animation = Ok r /\
            remove_lottie_background r = Ok r.
Proof.
  destruct (remove_lottie_background sample_animation) as [r | m] eqn:Hr.
  - exists r. split; [reflexivity |].
    apply (remove_lottie_background_idempotent sample_animation r Hr).
  - vm_compute in Hr. discriminate Hr.
Defined.

Section FetchFacts.
Variable LOTTIE_AVAILABLE : bool.
Variable requests_get : string -> result response.

(** X4: a failed fetch (library missing, request raising, status other than
    200, body that does not decode) shows no animation and raises
    nothing; an animation that is shown is the cleaned body of a 200
    response. *)
Theorem animation_block_fetch (url : string) :
  let block := animation_block LOTTIE_AVAILABLE requests_get url in
  ((LOTTIE_AVAILABLE = false \/
    (exists m, requests_get url = Raise m) \/
    (exists r, requests_get url = Ok r /\
       (status_code r <> 200 \/ exists m, json_body r = Raise m))) ->
   load_lottie_url LOTTIE_AVAILABLE requests_get url = JNull /\
   block = Ok []) /\
  (forall shown, block = Ok shown -> shown <> [] ->
     exists r body cleaned,
       LOTTIE_AVAILABLE = true /\
       requests_get url = Ok r /\ status_code r = 200 /\
       json_body r = Ok body /\
       remove_lottie_background body = Ok cleaned /\
       shown = [cleaned] /\ Auth.field cleaned "bg" = Some JNull).
Proof.
  intros block. subst block. unfold animation_block, load_lottie_url. split.
  - intros [-> | [[m Hm] | (r & Hr & Hbad)]].
    + split; reflexivity.
    + rewrite Hm. destruct LOTTIE_AVAILABLE; split; reflexivity.
    + rewrite Hr. destruct Hbad as [Hs | [m Hm]].
      * apply Z.eqb_neq in Hs. rewrite Hs.
        destruct LOTTIE_AVAILABLE; split; reflexivity.
      * rewrite Hm. destruct LOTTIE_AVAILABLE, (status_code r =? 200);
          split; reflexivity.
  - intros shown. destruct LOTTIE_AVAILABLE; [| intros [= <-] H; congruence].
    cbn [negb].
    destruct (requests_get url) as [r | m] eqn:Hget;
      [| cbn; intros [= <-] H; congruence].
    destruct (status_code r =? 200) eqn:Hs;
      [| cbn; intros [= <-] H; congruence].
    cbn [negb]. apply Z.eqb_eq in Hs.
    destruct (json_body r) as [body | m] eqn:Hbody;
      [| cbn; intros [= <-] H; congruence].
    destruct (remove_lottie_background body) as [cleaned | m] eqn:Hc;
      [| discriminate].
    cbn [rbind]. destruct (truthy cleaned) eqn:Ht;
      intros [= <-] Hne; [| congruence].
    exists r, body, cleaned.
    do 6 (split; [assumption || reflexivity |]).
    destruct (truthy body) eqn:Hb.
    + destruct (remove_lottie_background_object body cleaned Hb Hc)
        as (f & f' & _ & -> & _).
      apply reset_bg_lookup_bg.
    + unfold remove_lottie_background in Hc. rewrite Hb in Hc.
      injection Hc as <-. discriminate Ht.
Qed.

End FetchFacts.

Lemma animation_block_fetch_witness :
  animation_block true (fun _ => Ok {| status_code := 404;
                                       json_body := Raise "no body" |})
                  "https://lottie.host/a.json" = Ok [].
Proof.
  apply (animation_block_fetch true
           (fun _ => Ok {| status_code := 404; json_body := Raise "no body" |})
           "https://lottie.host/a.json").
  right. right. eexists. split; [reflexivity |]. left. discriminate.
Defined.

End LottieFacts.

(** ** Facts about sessions and page guards *)

Module AccessFacts.
Import Py UI Auth Access.

Lemma session_loaded (w : world) : session_state (loaded w) = session_state w.
Proof.
  unfold loaded, _load_users, bind, ensure_data_dir, read_users_file.
  cbn [users_json].
  destruct (users_json w) as [| | [v | | msg]]; reflexivity.
Qed.

(** On well-formed records a granted login comes from the first record
    with the credentials, and the session takes that record's role. *)
Lemma authenticate_loop_first (u p : string) (items : list json)
    (w w' : world) :
  Forall wf_user items ->
  authenticate_loop u p items w = (Ok true, w') ->
  exists pre rec post role,
    items = pre ++ rec :: post /\
    Forall (fun x => ~ has_credentials u p x) pre /\
    has_credentials u p rec /\
    field rec "role" = Some (JStr role) /\
    w' = grant u role w.
Proof.
  intros Hwf. revert w'.
  induction Hwf as [| rec rest Hrec Hrest IH]; intros w' Hrun.
  - discriminate Hrun.
  - destruct (AuthFacts.wf_user_inv rec Hrec)
      as (fields & n & pw & r & -> & Hn & Hp & Hr).
    rewrite (AuthFacts.authenticate_loop_cons u p fields n pw r rest w Hn Hp Hr)
      in Hrun.
    pose proof (AuthFacts.has_credentials_obj u p n pw fields Hn Hp) as Hcred.
    destruct (String.eqb n u && String.eqb pw p) eqn:Hm.
    + injection Hrun as <-.
      apply andb_true_iff in Hm as [Hnu _]. apply String.eqb_eq in Hnu.
      subst n.
      exists [], (JObj fields), rest, r.
      split; [reflexivity |]. split; [constructor |].
      split; [apply Hcred; reflexivity |].
      split; [exact Hr | reflexivity].
    + destruct (IH w' Hrun)
        as (pre & rec & post & role & -> & Hpre & Hc & Hrole & ->).
      exists (JObj fields :: pre), rec, post, role.
      split; [reflexivity |]. split.
      * constructor; [| exact Hpre]. intros Hhere. apply Hcred in Hhere.
        discriminate Hhere.
      * split; [exact Hc |]. split; [exact Hrole | reflexivity].
Qed.

(** X5: a granted login leaves the session of the first record that has the
    credentials: [authenticated] is [True], [username] the supplied name
    and [role] that record's role, also when later records share the
    credentials; the other session keys keep their values. *)
Theorem login_takes_first_record (w w' : world) (u p : string) :
  wf_users_file (users_json w) ->
  authenticate_user u p w = (Ok true, w') ->
  exists pre rec post role,
    stored_records (users_json w') = pre ++ rec :: post /\
    Forall (fun x => ~ has_credentials u p x) pre /\
    has_credentials u p rec /\
    field rec "role" = Some (JStr role) /\
    is_authenticated w' = JBool true /\
    get_user_role w' = JStr role /\
    session_state w' !! "username" = Some (JStr u) /\
    (forall k, k <> "authenticated" -> k <> "username" -> k <> "role" ->
       session_state w' !! k = session_state w !! k).
Proof.
  intros Hwf Hrun. rewrite (AuthFacts.authenticate_user_loaded u p w Hwf) in Hrun.
  destruct (authenticate_loop_first u p _ (loaded w) w'
              (AuthFacts.wf_loaded w Hwf) Hrun)
    as (pre & rec & post & role & Hitems & Hpre & Hcred & Hrole & ->).
  exists pre, rec, post, role. cbn [grant users_json].
  split; [exact Hitems |]. split; [exact Hpre |]. split; [exact Hcred |].
  split; [exact Hrole |].
  unfold is_authenticated, get_user_role. cbn [grant session_state].
  rewrite session_loaded. split; [| split; [| split]].
  - rewrite !lookup_insert_ne by discriminate. rewrite lookup_insert_eq.
    reflexivity.
  - rewrite lookup_insert_eq. reflexivity.
  - rewrite lookup_insert_ne by discriminate. apply lookup_insert_eq.
  - intros k Ha Hu Hr. rewrite !lookup_insert_ne by congruence. reflexivity.
Qed.

Lemma login_takes_first_record_witness :
  authenticate_user "parent1" "password123" fresh_world
  = (Ok true, grant "parent1" "parent" (loaded fresh_world)) /\
  is_authenticated (grant "parent1" "parent" (loaded fresh_world)) = JBool true.
Proof.
  assert (Hrun : authenticate_user "parent1" "password123" fresh_world
                 = (Ok true, grant "parent1" "parent" (loaded fresh_world)))
    by (vm_compute; reflexivity).
  split; [exact Hrun |].
  destruct (login_takes_first_record fresh_world _ "parent1" "password123" I Hrun)
    as (pre & rec & post & role & _ & _ & _ & _ & Hauth & _).
  exact Hauth.
Defined.

(** X6: after a granted login the Prediction and Educational Content pages
    and the dashboard open for every role; Teacher Resources stays closed
    exactly for the role [parent] and the Parent Tracker exactly for the
    role [teacher], the role being that of the first matching record. *)
Theorem pages_after_login (w w' : world) (u p : string) :
  wf_users_file (users_json w) ->
  authenticate_user u p w = (Ok true, w') ->
  exists role,
    get_user_role w' = JStr role /\
    app_main w' = Dashboard /\
    prediction_guard w' = Enter /\
    educational_content_guard w' = Enter /\
    (teacher_resources_guard w' = Enter <-> role <> "parent") /\
    (parent_tracker_guard w' = Enter <-> role <> "teacher") /\
    (role = "parent" ->
       exists shown, teacher_resources_guard w'
                     = Leave shown "pages/03_Parent_Tracker.py") /\
    (role = "teacher" ->
       exists shown, parent_tracker_guard w'
                     = Leave shown "pages/02_Teacher_Resources.py").
Proof.
  intros Hwf Hrun. rewrite (AuthFacts.authenticate_user_loaded u p w Hwf) in Hrun.
  destruct (authenticate_loop_first u p _ (loaded w) w'
              (AuthFacts.wf_loaded w Hwf) Hrun)
    as (pre & rec & post & role & _ & _ & _ & _ & ->).
  exists role.
  assert (Hauth : is_authenticated (grant u role (loaded w)) = JBool true).
  { unfold is_authenticated. cbn [grant session_state].
    rewrite !lookup_insert_ne by discriminate. rewrite lookup_insert_eq.
    reflexivity. }
  assert (Hrole : get_user_role (grant u role (loaded w)) = JStr role).
  { unfold get_user_role. cbn [grant session_state].
    rewrite lookup_insert_eq. reflexivity. }
  unfold app_main, prediction_guard, educational_content_guard,
    teacher_resources_guard, parent_tracker_guard.
  rewrite Hauth, Hrole. cbn [Lottie.truthy negb Lottie.eq_lit].
  split; [reflexivity |]. split; [reflexivity |]. split; [reflexivity |].
  split; [reflexivity |].
  split; [| split; [| split]].
  - destruct (String.eqb_spec role "parent") as [-> | Hne]; split;
      congruence.
  - destruct (String.eqb_spec role "teacher") as [-> | Hne]; split;
      congruence.
  - intros ->. cbn. eexists. reflexivity.
  - intros ->. cbn. eexists. reflexivity.
Qed.

Lemma pages_after_login_witness :
  authenticate_user "teacher1" "password123" fresh_world
  = (Ok true, grant "teacher1" "teacher" (loaded fresh_world)) /\
  prediction_guard (grant "teacher1" "teacher" (loaded fresh_world)) = Enter.
Proof.
  assert (Hrun : authenticate_user "teacher1" "password123" fresh_world
                 = (Ok true, grant "teacher1" "teacher" (loaded fresh_world)))
    by (vm_compute; reflexivity).
  split; [exact Hrun |].
  destruct (pages_after_login fresh_world _ "teacher1" "password123" I Hrun)
    as (role & _ & _ & Hpred & _).
  exact Hpred.
Defined.

(** On a fresh installation the teacher account is turned away from the
    Parent Tracker and the parent account from Teacher Resources. *)
Example default_accounts_role_gates :
  parent_tracker_guard (snd (authenticate_user "teacher1" "password123" fresh_world))
  = Leave [ StDenied "Access Denied: Teachers cannot view Parent Resources.";
            StNote "Redirecting you to Teacher Resources..." ]
          "pages/02_Teacher_Resources.py" /\
  teacher_resources_guard (snd (authenticate_user "parent1" "password123" fresh_world))
  = Leave [ StDenied "Access Denied: Parents cannot view Teacher Resources.";
            StNote "Redirecting you to Parent Tracker..." ]
          "pages/03_Parent_Tracker.py" /\
  parent_tracker_guard (snd (authenticate_user "admin" "adminpassword" fresh_world))
  = Enter.
Proof. repeat split; vm_compute; reflexivity. Qed.

(** X7: a refused login on a well-formed file only sets [authenticated] to
    [False]: the [username] and [role] of an earlier login stay in the
    session, and every page is closed until the next granted login. *)
Theorem refused_login_closes_pages (w : world) (u p : string) :
  wf_users_file (users_json w) ->
  fst (authenticate_user u p w) = Ok false ->
  let w' := snd (authenticate_user u p w) in
  session_state w' = <["authenticated" := JBool false]> (session_state w) /\
  get_user_role w' = get_user_role w /\
  session_state w' !! "username" = session_state w !! "username" /\
  app_main w' = LoginPage /\
  (exists shown, prediction_guard w' = Leave shown "app.py") /\
  (exists shown, teacher_resources_guard w' = Leave shown "app.py") /\
  (exists shown, parent_tracker_guard w' = Leave shown "app.py") /\
  (exists shown, educational_content_guard w' = Leave shown "app.py").
Proof.
  intros Hwf Hfail w'. subst w'.
  rewrite (AuthFacts.authenticate_user_loaded u p w Hwf) in *.
  destruct (AuthFacts.authenticate_loop_wf u p _ (loaded w)
              (AuthFacts.wf_loaded w Hwf))
    as (b & w1 & Hrun & _ & _ & Hdeny).
  rewrite Hrun in *. cbn [fst snd] in *. injection Hfail as ->.
  rewrite (Hdeny eq_refl).
  assert (Hsess : session_state (deny (loaded w))
                  = <["authenticated" := JBool false]> (session_state w))
    by (cbn [deny session_state]; rewrite session_loaded; reflexivity).
  assert (Hauth : is_authenticated (deny (loaded w)) = JBool false)
    by (unfold is_authenticated; rewrite Hsess, lookup_insert_eq; reflexivity).
  unfold get_user_role, app_main, prediction_guard, teacher_resources_guard,
    parent_tracker_guard, educational_content_guard.
  rewrite Hauth, Hsess. cbn [Lottie.truthy negb].
  rewrite !lookup_insert_ne by discriminate.
  repeat split; eexists; reflexivity.
Qed.

Lemma refused_login_closes_pages_witness :
  get_user_role (snd (authenticate_user "teacher1" "wrong" teacher_session_world))
  = JStr "teacher" /\
  app_main (snd (authenticate_user "teacher1" "wrong" teacher_session_world))
  = LoginPage.
Proof.
  assert (Hwf : wf_users_file (users_json teacher_session_world)).
  { exists (stored_records (Stored (Decodes dummy_users))).
    split; [reflexivity | apply AuthFacts.wf_dummy_users]. }
  destruct (refused_login_closes_pages teacher_session_world "teacher1" "wrong"
              Hwf) as (_ & Hrole & _ & Happ & _).
  - vm_compute. reflexivity.
  - split; [rewrite Hrole; reflexivity | exact Happ].
Defined.

(** X8: [logout_user] returns for every session: it sets [authenticated] to
    [False] and [username] and [role] to [None], keeps the other keys and
    the users file, shows its message and switches to [app.py]; after it
    every page is closed. *)
Theorem logout_closes_pages (w : world) :
  exists w',
    logout_user w = (Ok tt, w') /\
    is_authenticated w' = JBool false /\
    get_user_role w' = JNull /\
    session_state w' !! "username" = Some JNull /\
    (forall k, k <> "authenticated" -> k <> "username" -> k <> "role" ->
       session_state w' !! k = session_state w !! k) /\
    users_json w' = users_json w /\
    shown w' = shown w ++ [ StSuccess "You have been logged out.";
                            StSwitchPage "app.py" ] /\
    app_main w' = LoginPage /\
    prediction_guard w' <> Enter /\
    teacher_resources_guard w' <> Enter /\
    parent_tracker_guard w' <> Enter /\
    educational_content_guard w' <> Enter.
Proof.
  eexists. split; [reflexivity |].
  unfold is_authenticated, get_user_role, app_main, prediction_guard,
    teacher_resources_guard, parent_tracker_guard, educational_content_guard,
    is_authenticated.
  cbn [session_state users_json shown data_dir].
  rewrite !(lookup_insert_ne _ "role" "authenticated") by discriminate.
  rewrite !(lookup_insert_ne _ "username" "authenticated") by discriminate.
  rewrite !lookup_insert_eq. cbn [from_option id Lottie.truthy negb].
  split; [reflexivity |]. split; [reflexivity |].
  split; [rewrite lookup_insert_ne by discriminate; apply lookup_insert_eq |].
  split; [intros k Ha Hu Hr; rewrite !lookup_insert_ne by congruence;
          reflexivity |].
  split; [reflexivity |].
  split; [rewrite <- app_assoc; reflexivity |].
  repeat split; discriminate.
Qed.

End AccessFacts.

(** ** Facts about the reset button *)

Module FormResetFacts.
Import Py UI Auth Access FormReset.

Lemma str_in_In (x : string) (l : list string) : str_in x l = true <-> In x l.
Proof.
  unfold str_in. rewrite existsb_exists. split.
  - intros [y [Hy Heq]]. apply String.eqb_eq in Heq. now subst.
  - intros H. exists x. split; [assumption | apply String.eqb_refl].
Qed.

(** What the deleting loop leaves under each key. *)
Lemma clear_keys_lookup (all_keys : list string) (session : gmap string json)
    (k : string) :
  clear_keys all_keys session !! k
  = if str_in k keys_to_keep then session !! k
    else if str_in k all_keys then None else session !! k.
Proof.
  unfold clear_keys. revert session.
  induction all_keys as [| key keys IH]; intros session; cbn [foldl].
  - destruct (str_in k keys_to_keep); reflexivity.
  - rewrite IH. destruct (str_in k keys_to_keep) eqn:Hk.
    + destruct (str_in key keys_to_keep) eqn:Hkey; [reflexivity |].
      apply lookup_delete_ne. intros ->. congruence.
    + change (str_in k (key :: keys)) with (String.eqb k key || str_in k keys).
      destruct (String.eqb_spec k key) as [-> | Hne]; cbn [orb].
      * rewrite Hk. destruct (str_in key keys); [reflexivity |].
        apply lookup_delete_eq.
      * destruct (str_in k keys); [reflexivity |].
        destruct (str_in key keys_to_keep); [reflexivity |].
        apply lookup_delete_ne. congruence.
Qed.

Lemma clear_all_keys_lookup (session : gmap string json) (k : string) :
  clear_keys (map fst (map_to_list session)) session !! k
  = if str_in k keys_to_keep then session !! k else None.
Proof.
  rewrite clear_keys_lookup. destruct (str_in k keys_to_keep); [reflexivity |].
  destruct (str_in k (map fst (map_to_list session))) eqn:Hin;
    [reflexivity |].
  destruct (session !! k) as [v |] eqn:Hv; [| reflexivity].
  assert (Hyes : str_in k (map fst (map_to_list session)) = true).
  { apply str_in_In, in_map_iff. exists (k, v). split; [reflexivity |].
    apply list_elem_of_In, elem_of_map_to_list, Hv. }
  congruence.
Qed.

(** X12: the reset button never raises.  It keeps exactly the six keys of
    [keys_to_keep], so the login, the role and the settings survive; it
    deletes every other key, the stored result and the counter included,
    so that the counter is 1 after every reset, whatever it was, and no
    stored result is shown on the rerun. *)
Theorem reset_keeps_login_only (w : world) (predict_button : bool) :
  exists w',
    on_reset w = (Ok tt, w') /\
    session_state w' !! "reset_counter" = Some (JInt 1) /\
    (forall k, In k keys_to_keep ->
       session_state w' !! k = session_state w !! k) /\
    (forall k, ~ In k keys_to_keep -> k <> "reset_counter" ->
       session_state w' !! k = None) /\
    is_authenticated w' = is_authenticated w /\
    get_user_role w' = get_user_role w /\
    rerun_active w' predict_button = false /\
    users_json w' = users_json w.
Proof.
  unfold on_reset.
  set (cleared := clear_keys (map fst (map_to_list (session_state w)))
                             (session_state w)).
  assert (Hc : forall k, cleared !! k
                 = if str_in k keys_to_keep then session_state w !! k else None)
    by (intros k; apply clear_all_keys_lookup).
  assert (Hrc : cleared !! "reset_counter" = None) by (rewrite Hc; reflexivity).
  rewrite Hrc, lookup_insert_eq. cbn [add_one Z.add].
  eexists. split; [reflexivity |].
  cbn [emit set_session session_state users_json].
  assert (Hlook : forall k, k <> "reset_counter" ->
            <["reset_counter" := JInt (0 + 1)]>
              (<["reset_counter" := JInt 0]> cleared) !! k
            = if str_in k keys_to_keep then session_state w !! k else None).
  { intros k Hk. rewrite !lookup_insert_ne by congruence. apply Hc. }
  split; [apply lookup_insert_eq |].
  split; [| split; [| split; [| split; [| split]]]].
  - intros k Hin. rewrite Hlook.
    + apply str_in_In in Hin. rewrite Hin. reflexivity.
    + intros ->. cbn in Hin. intuition discriminate.
  - intros k Hout Hk. rewrite (Hlook k Hk).
    destruct (str_in k keys_to_keep) eqn:Hin; [| reflexivity].
    apply str_in_In in Hin. contradiction.
  - unfold is_authenticated. cbn [session_state].
    rewrite Hlook by discriminate. reflexivity.
  - unfold get_user_role. cbn [session_state].
    rewrite Hlook by discriminate. reflexivity.
  - unfold rerun_active. cbn [session_state].
    rewrite (Hlook "show_prediction_results") by discriminate. reflexivity.
  - reflexivity.
Qed.

(** A teacher with a stored result and a counter of 5 resets the form. *)
Example reset_sample :
  session_state (snd (on_reset session_with_result)) !! "reset_counter"
    = Some (JInt 1) /\
  rerun_active session_with_result false = true /\
  rerun_active (snd (on_reset session_with_result)) false = false /\
  get_user_role (snd (on_reset session_with_result)) = JStr "teacher".
Proof. repeat split; vm_compute; reflexivity. Qed.

End FormResetFacts.

(** ** Facts about [generate_activity] *)

Module ActivitiesFacts.
Import Py Activities.

Lemma random_choice_In (r : nat) (seq : list string) :
  seq <> [] -> exists a, random_choice r seq = Ok a /\ In a seq.
Proof.
  destruct seq as [| x rest]; [congruence |]. intros _.
  eexists. split; [reflexivity |].
  apply nth_In. apply Nat.mod_upper_bound. discriminate.
Qed.

Lemma incl_by_str_in (l big : list string) :
  forallb (fun x => str_in x big) l = true -> forall a, In a l -> In a big.
Proof.
  rewrite forallb_forall. intros H a Ha. specialize (H a Ha).
  unfold str_in in H. apply existsb_exists in H as (y & Hy & Heq).
  apply String.eqb_eq in Heq. subst. exact Hy.
Qed.

Lemma grade_group_cases (g : string) :
  (grade_group g = "K-2" /\ In g [ "K"; "1"; "2" ]) \/
  (grade_group g = "3-5" /\ In g [ "3"; "4"; "5" ]) \/
  (grade_group g = "6-8" /\ ~ In g [ "K"; "1"; "2"; "3"; "4"; "5" ]).
Proof.
  unfold grade_group.
  destruct (str_in g [ "K"; "1"; "2" ]) eqn:H1.
  - left. split; [reflexivity |].
    unfold str_in in H1. apply existsb_exists in H1 as (y & Hy & Heq).
    apply String.eqb_eq in Heq. subst. exact Hy.
  - destruct (str_in g [ "3"; "4"; "5" ]) eqn:H2.
    + right. left. split; [reflexivity |].
      unfold str_in in H2. apply existsb_exists in H2 as (y & Hy & Heq).
      apply String.eqb_eq in Heq. subst. exact Hy.
    + right. right. split; [reflexivity |]. intros Hin.
      assert (Hk : str_in g [ "K"; "1"; "2" ] = true
                   \/ str_in g [ "3"; "4"; "5" ] = true).
      { cbn in Hin. decompose [or] Hin; subst; try contradiction;
          [left | left | left | right | right | right]; reflexivity. }
      destruct Hk; congruence.
Qed.

(** The run of [generate_activity] for a known type other than behavior. *)
Lemma generate_activity_graded (r : nat) (dt g : string)
    (by_grade : gmap string (list string)) (default : list string) :
  String.eqb dt "behavior" = false ->
  activities !! dt = Some by_grade ->
  by_grade !! "3-5" = Some default ->
  generate_activity r dt g
  = random_choice r (from_option id default (by_grade !! grade_group g)).
Proof.
  intros Hb Hdt Hdef. unfold generate_activity, getitem.
  rewrite Hb, Hdt, Hdef. reflexivity.
Qed.

(** Closes a goal on a random choice from a concrete, non-empty list. *)
Ltac pick_listed :=
  match goal with
  | |- exists a, random_choice ?r ?l = Ok a /\ _ =>
      let a := fresh "a" in
      let Ha := fresh "Ha" in
      let Hin := fresh "Hin" in
      destruct (random_choice_In r l) as (a & Ha & Hin);
      [ vm_compute; discriminate
      | exists a; split;
        [ exact Ha
        | revert a Ha Hin; intros a _; apply incl_by_str_in;
          vm_compute; reflexivity ] ]
  end.

(** X13: for each of the four difficulty types the page offers, and for any
    grade string, [generate_activity] returns one of the activities listed
    for that type: neither lookup nor the random choice can fail. *)
Theorem generate_activity_offered (r : nat) (difficulty_type grade : string) :
  In difficulty_type difficulty_types ->
  exists activity,
    generate_activity r difficulty_type grade = Ok activity /\
    In activity (listed difficulty_type).
Proof.
  intros Hdt. cbn in Hdt.
  destruct Hdt as [<- | [<- | [<- | [<- | []]]]].
  - rewrite (generate_activity_graded r "reading" grade reading_activities
               _ eq_refl eq_refl eq_refl).
    destruct (grade_group_cases grade) as [[-> _] | [[-> _] | [-> _]]];
      pick_listed.
  - rewrite (generate_activity_graded r "math" grade math_activities
               _ eq_refl eq_refl eq_refl).
    destruct (grade_group_cases grade) as [[-> _] | [[-> _] | [-> _]]];
      pick_listed.
  - rewrite (generate_activity_graded r "writing" grade writing_activities
               _ eq_refl eq_refl eq_refl).
    destruct (grade_group_cases grade) as [[-> _] | [[-> _] | [-> _]]];
      pick_listed.
  - change (generate_activity r "behavior" grade)
      with (random_choice r (from_option id [] (behavior_activities !! "All"))).
    pick_listed.
Qed.

Lemma generate_activity_offered_witness :
  exists activity,
    generate_activity 7 "writing" "9" = Ok activity /\
    In activity (listed "writing").
Proof.
  apply (generate_activity_offered 7 "writing" "9").
  right. right. left. reflexivity.
Defined.

(** X14: grades outside K to 5 (6 to 12, or any other string) are served the
    6-8 lists for reading and math; writing has no 6-8 list and falls back
    to its 3-5 list; behavior ignores the grade; a difficulty type the
    table does not have raises [KeyError]. *)
Theorem generate_activity_fallbacks (r : nat) (grade : string) :
  (~ In grade [ "K"; "1"; "2"; "3"; "4"; "5" ] ->
     generate_activity r "reading" grade = generate_activity r "reading" "8" /\
     generate_activity r "math" grade = generate_activity r "math" "8" /\
     generate_activity r "writing" grade = generate_activity r "writing" "3") /\
  (forall grade', generate_activity r "behavior" grade
                  = generate_activity r "behavior" grade') /\
  (forall difficulty_type,
     ~ In difficulty_type difficulty_types ->
     generate_activity r difficulty_type grade
     = Raise ("KeyError: " +:+ difficulty_type)).
Proof.
  split; [| split].
  - intros Hout.
    destruct (grade_group_cases grade) as [[_ Hin] | [[_ Hin] | [Hg _]]].
    + exfalso. apply Hout. cbn in *. tauto.
    + exfalso. apply Hout. cbn in *. tauto.
    + rewrite (generate_activity_graded r "reading" grade reading_activities
                 _ eq_refl eq_refl eq_refl).
      rewrite (generate_activity_graded r "math" grade math_activities
                 _ eq_refl eq_refl eq_refl).
      rewrite (generate_activity_graded r "writing" grade writing_activities
                 _ eq_refl eq_refl eq_refl).
      rewrite Hg. repeat split; vm_compute; reflexivity.
  - intros grade'. reflexivity.
  - intros dt Hout. unfold generate_activity.
    destruct (String.eqb_spec dt "behavior") as [-> | Hb].
    + exfalso. apply Hout. cbn. tauto.
    + unfold getitem.
      assert (Hnone : activities !! dt = None).
      { unfold activities. apply not_elem_of_list_to_map_1. cbn.
        intros Hin. apply Hout. apply list_elem_of_In in Hin.
        cbn in *. tauto. }
      rewrite Hnone. reflexivity.
Qed.

Lemma generate_activity_fallbacks_witness :
  generate_activity 2 "writing" "12" = generate_activity 2 "writing" "3".
Proof.
  destruct (generate_activity_fallbacks 2 "12") as [Hout _].
  apply Hout. cbn. intuition discriminate.
Defined.

End ActivitiesFacts.

(** ** Facts about the dashboard *)

Module DashboardFacts.
Import Py Prediction Lottie Dashboard.

Lemma str_in_iff_In (x : string) (l : list string) : str_in x l = true <-> In x l.
Proof.
  unfold str_in. rewrite existsb_exists. split.
  - intros [y [Hy Heq]]. apply String.eqb_eq in Heq. now subst.
  - intros H. exists x. split; [assumption | apply String.eqb_refl].
Qed.

(** A key of a record is a column of the frame. *)
Lemma union_lookup_Some (records : list dict) (r : dict) (k : string) (v : cell) :
  In r records -> r !! k = Some v ->
  is_Some (foldr (fun r acc => r ∪ acc) ∅ records !! k).
Proof.
  induction records as [| r0 rest IH]; [intros [] |].
  intros [-> | Hin] Hk; cbn [foldr].
  - exists v. apply lookup_union_Some_l, Hk.
  - destruct (IH Hin Hk) as [v' Hv'].
    destruct (r0 !! k) as [v0 |] eqn:H0.
    + exists v0. apply lookup_union_Some_l, H0.
    + exists v'. rewrite lookup_union_r by exact H0. exact Hv'.
Qed.

Lemma column_of_key (records : list dict) (r : dict) (k : string) (v : cell) :
  In r records -> r !! k = Some v ->
  str_in k (columns (frame_of_records records)) = true.
Proof.
  intros Hin Hk. destruct (union_lookup_Some records r k v Hin Hk) as [v' Hv'].
  apply str_in_iff_In. cbn [frame_of_records columns].
  apply in_map_iff. exists (k, v'). split; [reflexivity |].
  apply list_elem_of_In, elem_of_map_to_list, Hv'.
Qed.

Lemma key_of_column (records : list dict) (k : string) :
  str_in k (columns (frame_of_records records)) = true ->
  exists r v, In r records /\ r !! k = Some v.
Proof.
  intros Hcol. apply str_in_iff_In in Hcol. cbn [frame_of_records columns] in Hcol.
  apply in_map_iff in Hcol as ([k' v'] & <- & Hin).
  apply list_elem_of_In, elem_of_map_to_list in Hin. cbn [fst].
  clear -Hin. revert v' Hin.
  induction records as [| r0 rest IH]; cbn [foldr]; intros v' Hin.
  - rewrite lookup_empty in Hin. discriminate Hin.
  - apply lookup_union_Some_raw in Hin as [H0 | [_ Hrest]].
    + exists r0, v'. split; [left; reflexivity | exact H0].
    + destruct (IH v' Hrest) as (r & v & Hr & Hv).
      exists r, v. split; [right; exact Hr | exact Hv].
Qed.

(** Counting three labels that exclude each other. *)
Lemma count_three (records : list dict) :
  (Z.of_nat (length (List.filter (cell_is "Low Risk")
                       (map (fun row => row !! "risk_level") records)))
   + Z.of_nat (length (List.filter (cell_is "Medium Risk")
                         (map (fun row => row !! "risk_level") records)))
   + Z.of_nat (length (List.filter (cell_is "High Risk")
                         (map (fun row => row !! "risk_level") records))))%Z
  = Z.of_nat (length (List.filter has_english_label records)).
Proof.
  induction records as [| r rest IH]; [reflexivity |].
  cbn [map List.filter]. unfold has_english_label at 1.
  destruct (r !! "risk_level") as [[z | f | s] |]; cbn [cell_is orb];
    try exact IH.
  destruct (String.eqb_spec s "Low Risk") as [-> | H1].
  - cbn [String.eqb orb length]. cbn. lia.
  - destruct (String.eqb_spec s "Medium Risk") as [-> | H2].
    + cbn. lia.
    + destruct (String.eqb_spec s "High Risk") as [-> | H3]; cbn; lia.
Qed.

Lemma no_label_without_column (records : list dict) :
  str_in "risk_level" (columns (frame_of_records records)) = false ->
  List.filter has_english_label records = [].
Proof.
  intros Hcol. induction records as [| r rest IH]; [reflexivity |].
  assert (Hr : r !! "risk_level" = None).
  { destruct (r !! "risk_level") as [v |] eqn:Hv; [| reflexivity].
    rewrite (column_of_key (r :: rest) r "risk_level" v) in Hcol;
      [discriminate | left; reflexivity | exact Hv]. }
  cbn [List.filter]. unfold has_english_label at 1. rewrite Hr. cbn.
  apply IH.
  destruct (str_in "risk_level" (columns (frame_of_records rest))) eqn:Hrest;
    [| reflexivity].
  destruct (key_of_column rest "risk_level" Hrest) as (r' & v & Hin & Hv).
  rewrite (column_of_key (r :: rest) r' "risk_level" v) in Hcol;
    [discriminate | right; exact Hin | exact Hv].
Qed.

Lemma df_empty_no_columns (records : list dict) :
  df_empty (frame_of_records records) = true ->
  List.filter has_english_label records = [].
Proof.
  intros He. apply no_label_without_column.
  unfold df_empty in He. cbn [frame_of_records rows] in He.
  destruct records as [| r rest]; [reflexivity |].
  destruct (columns (frame_of_records (r :: rest))) eqn:Hc;
    [reflexivity | discriminate He].
Qed.

Section StatsFacts.
Variable recent : list (option cell) -> result (list bool).

(** X15: when the statistics are computed, the total is the number of stored
    records and the three risk counts add up to the number of records
    whose [risk_level] is literally "Low Risk", "Medium Risk" or "High
    Risk": a record with any other label is in the total and in no
    category, and the counts never exceed the total. *)
Theorem dashboard_counts_partition (all_student_data : list dict) (st : stats) :
  dashboard_stats recent all_student_data = Ok st ->
  total_students st = Z.of_nat (length all_student_data) /\
  0 <= on_track_count st /\ 0 <= at_risk_count st /\
  0 <= intervention_count st /\
  on_track_count st + at_risk_count st + intervention_count st
    = Z.of_nat (length (List.filter has_english_label all_student_data)) /\
  on_track_count st + at_risk_count st + intervention_count st
    <= total_students st.
Proof.
  intros Hrun.
  assert (Hle : Z.of_nat (length (List.filter has_english_label all_student_data))
                <= Z.of_nat (length all_student_data))
    by (apply Nat2Z.inj_le, List.filter_length_le).
  unfold dashboard_stats in Hrun.
  destruct (df_empty (frame_of_records all_student_data)) eqn:He.
  - cbn [rbind] in Hrun. injection Hrun as <-.
    cbn [total_students on_track_count at_risk_count intervention_count].
    rewrite (df_empty_no_columns _ He). cbn [length].
    unfold len. cbn [frame_of_records rows]. lia.
  - destruct (rbind (column _ "timestamp") _) as [new_count | m];
      [| discriminate Hrun].
    cbn [rbind] in Hrun. unfold count_where, column in Hrun.
    destruct (str_in "risk_level" (columns (frame_of_records all_student_data)));
      [| discriminate Hrun].
    cbn [rbind frame_of_records rows] in Hrun. injection Hrun as <-.
    cbn [total_students on_track_count at_risk_count intervention_count].
    rewrite count_three. unfold len. cbn [frame_of_records rows].
    repeat split; try apply Nat2Z.is_nonneg; lia.
Qed.

(** X16: without stored records the statistics are all zero and nothing is
    parsed; with records of which none has a [timestamp] the dashboard
    raises [KeyError], and so it does when the timestamps parse and no
    record has a [risk_level]. *)
Theorem dashboard_stats_edges (all_student_data : list dict) :
  (all_student_data = [] ->
     dashboard_stats recent all_student_data
     = Ok {| total_students := 0; new_this_month := 0; on_track_count := 0;
             at_risk_count := 0; intervention_count := 0 |}) /\
  (df_empty (frame_of_records all_student_data) = false ->
   Forall (fun r => r !! "timestamp" = None) all_student_data ->
     dashboard_stats recent all_student_data = Raise "KeyError: timestamp") /\
  (df_empty (frame_of_records all_student_data) = false ->
   (exists flags,
      recent (map (fun row => row !! "timestamp") all_student_data) = Ok flags) ->
   (exists r, In r all_student_data /\ is_Some (r !! "timestamp")) ->
   Forall (fun r => r !! "risk_level" = None) all_student_data ->
     dashboard_stats recent all_student_data = Raise "KeyError: risk_level").
Proof.
  split; [| split].
  - intros ->. reflexivity.
  - intros He Hnone. unfold dashboard_stats. rewrite He. unfold column.
    destruct (str_in "timestamp" (columns (frame_of_records all_student_data)))
      eqn:Hcol; [| reflexivity].
    destruct (key_of_column _ _ Hcol) as (r & v & Hin & Hv).
    rewrite List.Forall_forall in Hnone. rewrite (Hnone r Hin) in Hv.
    discriminate Hv.
  - intros He [flags Hflags] (r & Hin & [v Hv]) Hnone.
    unfold dashboard_stats. rewrite He. unfold column.
    rewrite (column_of_key _ r "timestamp" v Hin Hv).
    cbn [rbind frame_of_records rows]. rewrite Hflags. cbn [rbind].
    unfold count_where, column.
    destruct (str_in "risk_level" (columns (frame_of_records all_student_data)))
      eqn:Hcol; [| reflexivity].
    destruct (key_of_column _ _ Hcol) as (r' & v' & Hin' & Hv').
    rewrite List.Forall_forall in Hnone. rewrite (Hnone r' Hin') in Hv'.
    discriminate Hv'.
Qed.

End StatsFacts.

Lemma dashboard_counts_partition_witness :
  exists st,
    dashboard_stats (fun l => Ok (map (fun _ => true) l))
      [ saved_record "Low Risk"; saved_record "High Risk";
        saved_record "Khatar Sare" ] = Ok st /\
    total_students st = 3 /\
    on_track_count st + at_risk_count st + intervention_count st = 2.
Proof.
  eexists. split; [vm_compute; reflexivity |].
  destruct (dashboard_counts_partition (fun l => Ok (map (fun _ => true) l))
              [ saved_record "Low Risk"; saved_record "High Risk";
                saved_record "Khatar Sare" ] _ eq_refl)
    as (Htot & _ & _ & _ & Hsum & _).
  split; [exact Htot | exact Hsum].
Defined.

Lemma dashboard_stats_edges_witness :
  dashboard_stats (fun l => Ok (map (fun _ => true) l))
                  [ make_student_data 75 80 70 85 3 6 ]
  = Raise "KeyError: timestamp".
Proof.
  apply (dashboard_stats_edges (fun l => Ok (map (fun _ => true) l))
           [ make_student_data 75 80 70 85 3 6 ]).
  - vm_compute. reflexivity.
  - repeat constructor.
Defined.

Section PieFacts.
Variable get_text : string -> string -> string.
Variable language : string.

(** X17: the pie is always built.  It is the placeholder exactly when no count
    is positive; otherwise its labels, values and colours have the same
    length and the i-th label and colour belong to the i-th value: the
    slices are the positive counts, in order, with their own label and
    colour. *)
Theorem risk_pie_aligned (on_track at_risk intervention : Z) :
  exists p,
    risk_pie get_text language on_track at_risk intervention = Ok p /\
    (p = NoData <-> on_track <= 0 /\ at_risk <= 0 /\ intervention <= 0) /\
    forall labels values colors pulled,
      p = Slices labels values colors pulled ->
      combine labels (combine values colors)
      = List.filter (fun slice => 0 <? fst (snd slice))
          [ (get_text "on_track_label" language,
             (on_track, "var(--success-green)"));
            (get_text "at_risk_label" language,
             (at_risk, "var(--warning-orange)"));
            (get_text "intervention_label" language,
             (intervention, "var(--danger-red)")) ] /\
      length labels = length values /\ length colors = length values /\
      length pulled = length values /\
      Forall (fun value => 0 < value) values.
Proof.
  unfold risk_pie, enumerate. cbn.
  destruct (0 <? on_track) eqn:H1; destruct (0 <? at_risk) eqn:H2;
    destruct (0 <? intervention) eqn:H3; cbn;
    rewrite ?Z.ltb_lt, ?Z.ltb_ge in *;
    (eexists; split; [reflexivity |]; split;
     [ split; [discriminate || (intros _; lia) | try (intros; lia); reflexivity ]
     | intros labels values colors pulled Hp;
       try discriminate Hp; injection Hp as <- <- <- <-;
       repeat split; repeat constructor; assumption ]).
Qed.

End PieFacts.

End DashboardFacts.

(** ** Facts about the charts and the saved record *)

Module ChartsFacts.
Import Py UI Risk Prediction Charts.

Example literals_are_binary64 :
  Prim2SF 10%float = lit_10 /\ Prim2SF 20%float = lit_20 /\
  Prim2SF 100%float = lit_100.
Proof. repeat split; reflexivity. Qed.

Lemma make_student_data_lookup (m r w a b l : Z) :
  let d := make_student_data m r w a b l in
  d !! "math_score" = Some (CInt m) /\
  d !! "reading_score" = Some (CInt r) /\
  d !! "writing_score" = Some (CInt w) /\
  d !! "attendance" = Some (CInt a) /\
  d !! "behavior" = Some (CInt b) /\
  d !! "literacy" = Some (CInt l).
Proof.
  unfold make_student_data. repeat split;
    rewrite ?lookup_insert_ne by discriminate; apply lookup_insert_eq.
Qed.

Lemma make_student_data_other (m r w a b l : Z) (k : string) :
  ~ In k required_columns -> make_student_data m r w a b l !! k = None.
Proof.
  intros Hk. unfold make_student_data.
  rewrite !lookup_insert_ne; [apply lookup_empty | ..];
    intros <-; apply Hk; cbn; tauto.
Qed.

(** X18: for form values that pass [validate_inputs] the charts are built and
    every radial value of the radar is an integer inside the radial range
    0 to 100 that the figure declares: the four percentages as entered,
    behavior times 20 and literacy times 10; there is one value per
    angular label. *)
Theorem radar_within_range (p : prob) (m r w a b l : Z) :
  validate_inputs m r w a b l = [] ->
  exists fig_gauge fig_radar,
    create_risk_visualization p (make_student_data m r w a b l)
    = Ok (fig_gauge, fig_radar) /\
    r_values fig_radar
    = [ CInt m; CInt r; CInt w; CInt a; CInt (b * 20); CInt (l * 10) ] /\
    length (theta fig_radar) = length (r_values fig_radar) /\
    radial_range fig_radar = (0, 100) /\
    Forall (within (radial_range fig_radar)) (r_values fig_radar).
Proof.
  intros Hvalid. apply PredictionFacts.validate_inputs_nil in Hvalid.
  destruct (make_student_data_lookup m r w a b l)
    as (Hm & Hr & Hw & Ha & Hb & Hl).
  unfold create_risk_visualization, Activities.getitem.
  rewrite Hm, Hr, Hw, Ha, Hb, Hl. cbn [cell_times].
  eexists _, _. split; [reflexivity |]. cbn [r_values theta radial_range].
  split; [reflexivity |]. split; [reflexivity |]. split; [reflexivity |].
  repeat constructor; eexists; (split; [reflexivity |]); cbn [fst snd]; lia.
Qed.

Lemma radar_within_range_witness :
  exists fig_gauge fig_radar,
    create_risk_visualization lit_0_5 (make_student_data 75 80 70 85 3 6)
    = Ok (fig_gauge, fig_radar) /\
    r_values fig_radar
    = [ CInt 75; CInt 80; CInt 70; CInt 85; CInt 60; CInt 60 ].
Proof.
  destruct (radar_within_range lit_0_5 75 80 70 85 3 6 eq_refl)
    as (g & rd & Hrun & Hvals & _).
  exists g, rd. split; [exact Hrun | exact Hvals].
Defined.

Lemma saved_records_app (t1 t2 : list event) :
  saved_records (t1 ++ t2) = saved_records t1 ++ saved_records t2.
Proof.
  induction t1 as [| e t1 IH]; [reflexivity |].
  destruct e; cbn [app saved_records]; rewrite ?IH; reflexivity.
Qed.

Lemma shown_levels_app (t1 t2 : list event) :
  shown_levels (t1 ++ t2) = shown_levels t1 ++ shown_levels t2.
Proof.
  induction t1 as [| e t1 IH]; [reflexivity |].
  destruct e as [| | | | | [] | | | | | | | | | |];
    cbn [app shown_levels]; rewrite ?IH; reflexivity.
Qed.


Section PageFacts.
Variable get_text : string -> string -> string.
Variable get_material_icon_html : string -> string -> string.
Variable make_prediction : dict -> result (Z * prob).
Variable format_percent : prob -> string.
Variable language : string.

Local Abbreviation on_predict :=
  (on_predict get_text get_material_icon_html make_prediction format_percent
              language).
Local Abbreviation display_recommendations :=
  (display_recommendations get_text get_material_icon_html language).

Lemma display_recommendations_quiet (risk_level : string) (sd : dict) :
  saved_records (display_recommendations risk_level sd) = [] /\
  shown_levels (display_recommendations risk_level sd) = [] /\
  model_calls (display_recommendations risk_level sd) = [].
Proof.
  unfold Prediction.display_recommendations.
  cbn [saved_records shown_levels model_calls List.filter is_model_call].
  induction (recommendations_for get_text language risk_level) as [| x l IH];
    [repeat split |].
  cbn [map saved_records shown_levels List.filter is_model_call]. exact IH.
Qed.

(** The trace of the predict handler on valid input. *)
Lemma on_predict_valid (now : string) (f : form) :
  validate_inputs (math_score f) (reading_score f) (writing_score f)
                  (attendance f) (behavior f) (literacy f) = [] ->
  let sd := make_student_data (math_score f) (reading_score f)
              (writing_score f) (attendance f) (behavior f) (literacy f) in
  on_predict now f
  = CallMakePrediction sd ::
    match make_prediction sd with
    | Ok (prediction, p) =>
        let level := single_risk_level get_text language p in
        [ SessionWrite "show_prediction_results";
          SessionWrite "current_prediction_data";
          StHtml (ResultsHeader (student_name f));
          StHtml (RiskBanner (risk_color p)
                    (risk_icon_html get_material_icon_html p) level
                    (format_percent p));
          StCharts p sd;
          StHtml RecommendationsHeader ]
        ++ display_recommendations level sd
        ++ [ StHtml SummaryHeader;
             summary_table format_percent (math_score f) (reading_score f)
               (writing_score f) (attendance f) (behavior f) (literacy f)
               level p ]
        ++ (if save_button f || save_after_button f then
              [ CallSavePrediction (prediction_record now f prediction p level sd);
                StSuccess " Prediction saved successfully!" ]
            else [])
    | Raise msg =>
        [ StError (get_material_icon_html "error" "fill"
                   +:+ " Error making prediction: " +:+ msg);
          StInfo "Note: Using sample prediction model. Replace with your trained model file." ]
    end.
Proof.
  intros Hvalid sd. unfold Prediction.on_predict. rewrite Hvalid.
  fold sd. destruct (make_prediction sd) as [[prediction p] | msg]; reflexivity.
Qed.

(** X19: on valid input the model is called exactly once, with the six form
    values; when the call raises, the handler shows the error and the
    note and nothing else: no result, no banner, and nothing is saved
    even if a save button was pressed. *)
Theorem failed_prediction_saves_nothing (now msg : string) (f : form) :
  validate_inputs (math_score f) (reading_score f) (writing_score f)
                  (attendance f) (behavior f) (literacy f) = [] ->
  let sd := make_student_data (math_score f) (reading_score f)
              (writing_score f) (attendance f) (behavior f) (literacy f) in
  model_calls (on_predict now f) = [ CallMakePrediction sd ] /\
  (make_prediction sd = Raise msg ->
     on_predict now f
     = [ CallMakePrediction sd;
         StError (get_material_icon_html "error" "fill"
                  +:+ " Error making prediction: " +:+ msg);
         StInfo "Note: Using sample prediction model. Replace with your trained model file." ] /\
     saved_records (on_predict now f) = [] /\
     shown_levels (on_predict now f) = []).
Proof.
  intros Hvalid sd. rewrite (on_predict_valid now f Hvalid). fold sd. split.
  - destruct (make_prediction sd) as [[prediction p] | m]; [| reflexivity].
    cbn [model_calls List.filter is_model_call app]. f_equal.
    fold (model_calls
            (display_recommendations (single_risk_level get_text language p) sd
             ++ [ StHtml SummaryHeader;
                  summary_table format_percent (math_score f) (reading_score f)
                    (writing_score f) (attendance f) (behavior f) (literacy f)
                    (single_risk_level get_text language p) p ]
             ++ (if save_button f || save_after_button f
                 then [ CallSavePrediction
                          (prediction_record now f prediction p
                             (single_risk_level get_text language p) sd);
                        StSuccess " Prediction saved successfully!" ]
                 else []))).
    rewrite BatchFacts.model_calls_app.
    destruct (display_recommendations_quiet
                (single_risk_level get_text language p) sd) as (_ & _ & ->).
    destruct (save_button f || save_after_button f); reflexivity.
  - intros ->. repeat split.
Qed.

(** X20: when the prediction returns, a record is saved exactly when one of the
    two save buttons is pressed, and only one; it holds the six form
    values, the probability and, as [risk_level], the very label shown in
    the banner, with the timestamp and the student's name, grade and
    notes; the form values cannot take the place of these keys. *)
Theorem saved_record_matches_shown (now : string) (f : form)
    (prediction : Z) (p : prob) :
  validate_inputs (math_score f) (reading_score f) (writing_score f)
                  (attendance f) (behavior f) (literacy f) = [] ->
  let sd := make_student_data (math_score f) (reading_score f)
              (writing_score f) (attendance f) (behavior f) (literacy f) in
  make_prediction sd = Ok (prediction, p) ->
  let level := single_risk_level get_text language p in
  let record := prediction_record now f prediction p level sd in
  shown_levels (on_predict now f) = [ level ] /\
  saved_records (on_predict now f)
    = (if save_button f || save_after_button f then [ record ] else []) /\
  record !! "risk_level" = Some (CStr level) /\
  record !! "probability" = Some (CFloat p) /\
  record !! "prediction" = Some (CInt prediction) /\
  record !! "timestamp" = Some (CStr now) /\
  record !! "student_name" = Some (CStr (student_name f)) /\
  record !! "grade_level" = Some (CStr (grade_level f)) /\
  record !! "notes" = Some (CStr (notes f)) /\
  (forall k v, sd !! k = Some v -> record !! k = Some v) /\
  (Dashboard.has_english_label record = true <->
     level = "Low Risk" \/ level = "Medium Risk" \/ level = "High Risk").
Proof.
  intros Hvalid sd Hcall level record.
  rewrite (on_predict_valid now f Hvalid). fold sd. rewrite Hcall. fold level.
  assert (Hmeta : forall k, ~ In k required_columns ->
            record !! k
            = (<["timestamp" := CStr now]>
               (<["student_name" := CStr (student_name f)]>
               (<["grade_level" := CStr (grade_level f)]>
               (<["prediction" := CInt prediction]>
               (<["probability" := CFloat p]>
               (<["risk_level" := CStr level]>
               (<["notes" := CStr (notes f)]> (∅ : dict)))))))) !! k).
  { intros k Hk. subst record. unfold prediction_record.
    apply lookup_union_r. apply make_student_data_other, Hk. }
  assert (Hno : forall k, In k [ "risk_level"; "probability"; "prediction";
                                 "timestamp"; "student_name"; "grade_level";
                                 "notes" ] -> ~ In k required_columns).
  { intros k Hk Hreq. cbn in Hk, Hreq.
    decompose [or] Hk; subst; decompose [or] Hreq; try discriminate;
      contradiction. }
  assert (Hlevel : record !! "risk_level" = Some (CStr level)).
  { rewrite Hmeta by (apply Hno; cbn; tauto).
    rewrite !lookup_insert_ne by discriminate. apply lookup_insert_eq. }
  split; [| split; [| split; [exact Hlevel |]]].
  - cbn [shown_levels app]. f_equal. rewrite shown_levels_app.
    destruct (display_recommendations_quiet level sd) as (_ & -> & _).
    cbn [app]. destruct (save_button f || save_after_button f); reflexivity.
  - cbn [saved_records app]. rewrite saved_records_app.
    destruct (display_recommendations_quiet level sd) as (-> & _ & _).
    cbn [app]. destruct (save_button f || save_after_button f); reflexivity.
  - split; [| split; [| split; [| split; [| split; [| split; [| split]]]]]].
    + rewrite Hmeta by (apply Hno; cbn; tauto).
      rewrite !lookup_insert_ne by discriminate. apply lookup_insert_eq.
    + rewrite Hmeta by (apply Hno; cbn; tauto).
      rewrite !lookup_insert_ne by discriminate. apply lookup_insert_eq.
    + rewrite Hmeta by (apply Hno; cbn; tauto). apply lookup_insert_eq.
    + rewrite Hmeta by (apply Hno; cbn; tauto).
      rewrite !lookup_insert_ne by discriminate. apply lookup_insert_eq.
    + rewrite Hmeta by (apply Hno; cbn; tauto).
      rewrite !lookup_insert_ne by discriminate. apply lookup_insert_eq.
    + rewrite Hmeta by (apply Hno; cbn; tauto).
      rewrite !lookup_insert_ne by discriminate. apply lookup_insert_eq.
    + intros k v Hk. subst record. unfold prediction_record.
      apply lookup_union_Some_l, Hk.
    + unfold Dashboard.has_english_label. rewrite Hlevel.
      cbn [Dashboard.cell_is]. rewrite !orb_true_iff, !String.eqb_eq. tauto.
Qed.

(** X21: when the three localized labels differ from one another, the
    recommendations shown are those of the tier of the probability; when
    the label of the medium tier equals that of the low tier, a student
    of the medium tier is shown the low-risk list. *)
Theorem recommendations_follow_labels (p : prob) :
  (get_text "low_risk" language <> get_text "medium_risk" language ->
   get_text "low_risk" language <> get_text "high_risk" language ->
   get_text "medium_risk" language <> get_text "high_risk" language ->
   recommendations_for get_text language
     (single_risk_level get_text language p) = recommend (classify p)) /\
  (get_text "medium_risk" language = get_text "low_risk" language ->
   classify p = Medium ->
   recommendations_for get_text language
     (single_risk_level get_text language p) = low_recommendations).
Proof.
  unfold recommendations_for, single_risk_level, classify. split.
  - intros Hlm Hlh Hmh.
    destruct (flt p lit_0_3).
    + rewrite String.eqb_refl. reflexivity.
    + destruct (flt p lit_0_7).
      * rewrite (proj2 (String.eqb_neq _ _)) by congruence.
        rewrite String.eqb_refl. reflexivity.
      * rewrite (proj2 (String.eqb_neq _ _)) by congruence.
        rewrite (proj2 (String.eqb_neq _ _)) by congruence. reflexivity.
  - intros Hsame.
    destruct (flt p lit_0_3); [discriminate |].
    destruct (flt p lit_0_7); [| discriminate].
    intros _. rewrite Hsame, String.eqb_refl. reflexivity.
Qed.

End PageFacts.

Lemma failed_prediction_saves_nothing_witness :
  saved_records
    (on_predict (fun k _ => k) sample_icon (fun _ => Raise "no model")
                sample_percent "English" "2024-05-01" form_default_saved) = [].
Proof.
  destruct (failed_prediction_saves_nothing (fun k _ => k) sample_icon
              (fun _ => Raise "no model") sample_percent "English"
              "2024-05-01" "no model" form_default_saved eq_refl)
    as [_ Hfail].
  destruct (Hfail eq_refl) as (_ & Hsaved & _). exact Hsaved.
Defined.

Lemma saved_record_matches_shown_witness :
  shown_levels
    (on_predict (fun k _ => k) sample_icon sample_model sample_percent
                "English" "2024-05-01" form_default_saved) = [ "medium_risk" ].
Proof.
  destruct (saved_record_matches_shown (fun k _ => k) sample_icon sample_model
              sample_percent "English" "2024-05-01" form_default_saved
              0 lit_0_5 eq_refl eq_refl) as [Hshown _].
  exact Hshown.
Defined.

Lemma recommendations_follow_labels_witness :
  recommendations_for (fun k _ => k) "English"
    (single_risk_level (fun k _ => k) "English" lit_0_7)
  = high_recommendations.
Proof.
  destruct (recommendations_follow_labels (fun k _ => k) "English" lit_0_7)
    as [Hdistinct _].
  apply Hdistinct; discriminate.
Defined.

End ChartsFacts.

(** ** More facts about the batch upload *)

Module BatchMoreFacts.
Import Py UI Risk Prediction.

Section BatchPage.
Variable get_text : string -> string -> string.
Variable get_material_icon_html : string -> string -> string.
Variable make_prediction : dict -> result (Z * prob).
Variable format_percent : prob -> string.
Variable language : string.

Local Abbreviation batch_rows := (batch_rows make_prediction format_percent).
Local Abbreviation batch_upload :=
  (batch_upload get_material_icon_html make_prediction format_percent).
Local Abbreviation result_row := (result_row format_percent).
Local Abbreviation numbered df start todo :=
  (combine (map Z.of_nat (seq start (length todo))) (map (yielded df) todo)).

(** The pair [df.iterrows()] yields for the row at position [i] of the
    rows still to do, and where that row ends up. *)
Lemma batch_rows_nth (df : DataFrame) (total : Z) (start : nat)
    (todo : list dict) (i : nat) (row : dict) :
  nth_error todo i = Some row ->
  nth_error (numbered df start todo) i
  = Some (Z.of_nat (start + i), yielded df row) /\
  match make_prediction (yielded df row) with
  | Ok (_, p) =>
      In (result_row (Z.of_nat (start + i)) (batch_risk_level p) p
                     (yielded df row))
         (snd (batch_rows total (numbered df start todo)))
  | Raise msg =>
      In (StError ("Error processing student "
                   +:+ pretty_Z (Z.of_nat (start + i) + 1) +:+ ": " +:+ msg))
         (fst (batch_rows total (numbered df start todo)))
  end.
Proof.
  revert start i. induction todo as [| row0 rest IH]; intros start i Hnth.
  - destruct i; discriminate Hnth.
  - cbn [length seq map combine Prediction.batch_rows]. destruct i as [| i].
    + injection Hnth as ->. rewrite Nat.add_0_r.
      split; [reflexivity |].
      destruct (batch_rows total (numbered df (S start) rest))
        as [events results].
      destruct (make_prediction (yielded df row)) as [[prediction p] | msg];
        cbn [fst snd].
      * left. reflexivity.
      * right. left. reflexivity.
    + cbn [nth_error] in Hnth. destruct (IH (S start) i Hnth) as [Hpair Hrow].
      replace (S start + i)%nat with (start + S i)%nat in Hpair, Hrow by lia.
      split; [exact Hpair |].
      destruct (batch_rows total (numbered df (S start) rest))
        as [events results].
      cbn [fst snd] in Hrow.
      destruct (make_prediction (yielded df row)) as [[prediction p] | msg];
        destruct (make_prediction (yielded df row0)) as [[prediction0 p0] | msg0];
        cbn [fst snd]; auto using in_cons.
Qed.

(** X22: [df.iterrows()] yields the row at position [i] of the table
    (counted from 0) under the index label [i].  In a processed batch the
    result built from it holds every cell of the row as iterated (an
    integer beside a float column and no text column is a float) and
    carries [Student_ID] [i + 1], unless the table has a column of that
    name; a row whose prediction raises is reported under the same
    number: the numbers are those of the rows of the table, so a skipped
    row leaves a gap. *)
Theorem batch_rows_numbered (df : DataFrame) (i : nat) (row : dict) :
  missing_columns df = [] ->
  nth_error (rows df) i = Some row ->
  let trace := batch_upload (Some (Ok df)) true in
  let results := snd (batch_rows (len df) (iterrows df)) in
  nth_error (iterrows df) i = Some (Z.of_nat i, yielded df row) /\
  (forall prediction p,
     make_prediction (yielded df row) = Ok (prediction, p) ->
     exists res,
       In res results /\
       (forall k v, row !! k = Some v ->
          res !! k = Some (as_dtype (values_dtype df) v)) /\
       (row !! "Student_ID" = None ->
          res !! "Student_ID" = Some (CInt (Z.of_nat i + 1)))) /\
  (forall msg,
     make_prediction (yielded df row) = Raise msg ->
     In (StError ("Error processing student " +:+ pretty_Z (Z.of_nat i + 1)
                  +:+ ": " +:+ msg)) trace).
Proof.
  intros Hmiss Hnth trace results.
  destruct (batch_rows_nth df (len df) 0 (rows df) i row Hnth) as [Hpair Hrow].
  cbn [Nat.add] in Hpair, Hrow.
  split; [exact Hpair |]. split.
  - intros prediction p Hcall. rewrite Hcall in Hrow.
    exists (result_row (Z.of_nat i) (batch_risk_level p) p (yielded df row)).
    split; [exact Hrow |]. split.
    + intros k v Hk. apply lookup_union_Some_l.
      rewrite BatchFacts.lookup_yielded, Hk. reflexivity.
    + intros Hnone. unfold Prediction.result_row.
      rewrite lookup_union_r
        by (rewrite BatchFacts.lookup_yielded, Hnone; reflexivity).
      rewrite lookup_insert_eq. reflexivity.
  - intros msg Hcall. rewrite Hcall in Hrow. subst trace.
    rewrite (BatchFacts.batch_upload_processed get_material_icon_html
               make_prediction format_percent df Hmiss).
    do 4 right. apply in_or_app. left. exact Hrow.
Qed.

(** X23: the batch path does not validate: form values that [validate_inputs]
    rejects never reach the model on the single-student path, but the
    same values in a row of an uploaded table are submitted to it. *)
Theorem batch_skips_validation (now : string) (f : form) :
  validate_inputs (math_score f) (reading_score f) (writing_score f)
                  (attendance f) (behavior f) (literacy f) <> [] ->
  let row := make_student_data (math_score f) (reading_score f)
               (writing_score f) (attendance f) (behavior f) (literacy f) in
  let df := {| columns := required_columns; rows := [ row ] |} in
  model_calls (on_predict get_text get_material_icon_html make_prediction
                          format_percent language now f) = [] /\
  missing_columns df = [] /\
  model_calls (batch_upload (Some (Ok df)) true) = [ CallMakePrediction row ].
Proof.
  intros Hbad row df. split; [| split].
  - unfold on_predict.
    destruct (validate_inputs _ _ _ _ _ _) as [| e es]; [congruence |].
    cbn [model_calls List.filter is_model_call].
    apply (PredictionFacts.model_calls_writes bullet (e :: es)).
  - reflexivity.
  - assert (Hd : values_dtype df = int64) by (vm_compute; reflexivity).
    assert (Hrows : iterrows df = [ (0, row) ]).
    { unfold iterrows, range_index. cbn [df rows length seq map combine].
      rewrite BatchFacts.yielded_untouched by (rewrite Hd; discriminate).
      reflexivity. }
    rewrite (BatchFacts.batch_upload_processed get_material_icon_html
               make_prediction format_percent df eq_refl).
    cbn [model_calls List.filter is_model_call].
    fold (model_calls
            (fst (batch_rows (len df) (iterrows df))
             ++ batch_report get_material_icon_html
                  (snd (batch_rows (len df) (iterrows df))))).
    rewrite BatchFacts.model_calls_app, BatchFacts.model_calls_batch_rows,
      BatchFacts.model_calls_batch_report, Hrows.
    reflexivity.
Qed.

End BatchPage.

(** The second row of a two-row table holds text in [math_score]: it is
    iterated under the label 1 and reported as student 2. *)
Lemma batch_rows_numbered_witness :
  nth_error (iterrows df_two_rows) 1 = Some (1, row_bad) /\
  In (StError "Error processing student 2: could not convert string to float")
     (batch_upload sample_icon sample_model sample_percent
                   (Some (Ok df_two_rows)) true).
Proof.
  destruct (batch_rows_numbered sample_icon sample_model sample_percent
              df_two_rows 1 row_bad eq_refl eq_refl) as (Hpair & _ & Hfail).
  assert (Hd : values_dtype df_two_rows = object)
    by (vm_compute; reflexivity).
  rewrite (BatchFacts.yielded_untouched df_two_rows row_bad) in Hpair, Hfail
    by (rewrite Hd; discriminate).
  split; [exact Hpair |].
  apply (Hfail "could not convert string to float"). vm_compute. reflexivity.
Defined.

Lemma batch_skips_validation_witness :
  model_calls
    (batch_upload sample_icon sample_model sample_percent
       (Some (Ok {| columns := required_columns;
                    rows := [ make_student_data 75 80 70 150 3 6 ] |})) true)
  = [ CallMakePrediction (make_student_data 75 80 70 150 3 6) ].
Proof.
  destruct (batch_skips_validation (fun k _ => k) sample_icon sample_model
              sample_percent "English" "2024-05-01" form_attendance_150)
    as (_ & _ & Hbatch).
  - discriminate.
  - exact Hbatch.
Defined.

End BatchMoreFacts.

(** ** Facts about the date range and the export *)

Module ProgressFacts.
Import Py ParentTracker Lottie Progress.

Section RangeFacts.
Variable pydate : Type.
Variable date_leb : pydate -> pydate -> bool.
Variable fromisoformat : string -> result pydate.

Local Abbreviation observations_in_range :=
  (observations_in_range pydate date_leb fromisoformat).
Local Abbreviation selected := (selected pydate date_leb fromisoformat).

(** X24: the progress and weekly views keep, in stored order, exactly the
    observations of the selected child dated within the range, provided
    the dates of that child parse; a malformed date of another child is
    never looked at, one of the selected child makes the view raise. *)
Theorem observations_in_range_selects (all_observations : list observation)
    (name : string) (start_date end_date : pydate) :
  (Forall (fun obs => child_name obs = name ->
             exists d, fromisoformat (date obs) = Ok d) all_observations ->
   observations_in_range all_observations name start_date end_date
   = Ok (List.filter (selected name start_date end_date) all_observations)) /\
  (Exists (fun obs => child_name obs = name /\
             exists msg, fromisoformat (date obs) = Raise msg)
          all_observations ->
   exists msg,
     observations_in_range all_observations name start_date end_date
     = Raise msg).
Proof.
  split.
  - induction 1 as [| obs rest Hobs _ IH]; [reflexivity |].
    cbn [Progress.observations_in_range List.filter].
    unfold Progress.selected at 1.
    destruct (String.eqb_spec (child_name obs) name) as [Hname | Hname].
    + destruct (Hobs Hname) as [d Hd]. rewrite Hd, IH. cbn [rbind andb].
      destruct (date_leb start_date d && date_leb d end_date); reflexivity.
    + cbn [andb]. exact IH.
  - induction all_observations as [| obs rest IH]; intros HE.
    + inversion HE.
    + cbn [Progress.observations_in_range].
      destruct (String.eqb_spec (child_name obs) name) as [Hname | Hname].
      * destruct (fromisoformat (date obs)) as [d | msg] eqn:Hd.
        -- cbn [rbind].
           destruct IH as [msg Hmsg].
           { inversion HE as [? ? [_ [m Hm]] | ? ? Htl]; subst;
               [congruence | exact Htl]. }
           rewrite Hmsg. exists msg. reflexivity.
        -- exists msg. reflexivity.
      * apply IH. inversion HE as [? ? [Hn _] | ? ? Htl]; subst;
          [contradiction | exact Htl].
Qed.

End RangeFacts.

Lemma observations_in_range_selects_witness :
  observations_in_range string String.leb sample_fromisoformat
    (other_child_observation :: sample_observations) "Amina"
    "2024-05-10" "2024-05-12"
  = Ok [ sample_observation 10; sample_observation 11; sample_observation 12 ].
Proof.
  destruct (observations_in_range_selects string String.leb
              sample_fromisoformat
              (other_child_observation :: sample_observations) "Amina"
              "2024-05-10" "2024-05-12") as [Hok _].
  rewrite Hok.
  - vm_compute. reflexivity.
  - apply List.Forall_forall. intros obs Hin Hname.
    destruct Hin as [<- | Hin]; [discriminate Hname |].
    unfold sample_observations in Hin. apply in_map_iff in Hin as (n & <- & Hn).
    apply in_seq in Hn. exists (date (sample_observation n)).
    do 26 (destruct n as [| n]; [vm_compute; reflexivity || lia |]). lia.
Defined.

Section ExportFacts.
Variable pydate : Type.
Variable date_eqb : pydate -> pydate -> bool.
Variable fromisoformat : string -> result pydate.
Variable strftime : pydate -> string.
Variable repr : json -> string.
Variable characters : string -> list string.
Variable dict_keys : gmap string json -> list string.
Variable get_text : string -> string -> string.
Variable get_material_icon_html : string -> string.
Variable language : string.

Local Abbreviation log_loop :=
  (log_loop pydate date_eqb fromisoformat strftime repr characters dict_keys
            get_material_icon_html).
Local Abbreviation observations_log :=
  (observations_log pydate date_eqb fromisoformat strftime repr characters
                    dict_keys get_text get_material_icon_html language).
Local Abbreviation complete :=
  (complete pydate fromisoformat characters dict_keys).
Local Abbreviation breaks := (breaks pydate date_eqb fromisoformat).

(** X25: with the export button pressed, a log view that ends normally
    exports every observation of the selected child, newest first: not
    only the 20 it renders, and whatever the date filter is.  The view ends
    normally when the 20 newest observations are complete.  When one of
    them has a malformed date, or passes the date filter and lacks a field
    the expander subscripts, the view raises and nothing is exported. *)
Theorem export_holds_every_observation (all_observations : list observation)
    (name : string) (date_filter : option pydate) (show_detailed : bool) :
  let mine := child_observations all_observations name in
  let sorted := sort_by_date_desc mine in
  let run := observations_log all_observations name date_filter
                              show_detailed true in
  mine <> [] ->
  Permutation sorted mine /\
  (snd run = Ok tt -> exported (fst run) = [ sorted ]) /\
  (forall msg, snd run = Raise msg -> exported (fst run) = []) /\
  (Forall complete (firstn 20 sorted) -> snd run = Ok tt) /\
  (Exists (breaks date_filter) (firstn 20 sorted) ->
   exists msg, snd run = Raise msg).
Proof.
  intros mine sorted run Hne.
  split; [apply ParentTrackerFacts.sort_by_date_desc_perm |].
  destruct mine as [| o os] eqn:Hmine; [congruence |].
  destruct (ParentTrackerFacts.observations_log_run pydate date_eqb
              fromisoformat strftime repr characters dict_keys get_text
              get_material_icon_html language all_observations name
              date_filter show_detailed true o os Hmine)
    as (_ & Hok & Hraise).
  fold sorted in Hok, Hraise. fold run in Hok, Hraise.
  destruct (snd (log_loop date_filter show_detailed (firstn 20 sorted)))
    as [[] | msg] eqn:Hloop.
  - destruct (Hok eq_refl) as [Hrun Hexp]. split; [intros _; exact Hexp |].
    split; [intros m Hm; congruence |]. split; [intros _; exact Hrun |].
    intros HE.
    destruct (ParentTrackerFacts.log_loop_breaks pydate date_eqb
                fromisoformat strftime repr characters dict_keys get_text
                get_material_icon_html language date_filter show_detailed _ HE)
      as [m Hm].
    congruence.
  - destruct (Hraise msg eq_refl) as [Hrun Hexp].
    split; [intros H; congruence |]. split; [intros m _; exact Hexp |].
    split; [| intros _; exists msg; exact Hrun].
    intros HF.
    destruct (ParentTrackerFacts.log_loop_complete pydate date_eqb
                fromisoformat strftime repr characters dict_keys get_text
                get_material_icon_html language date_filter show_detailed _ HF)
      as [Hloop' _].
    congruence.
Qed.

End ExportFacts.

(** Twenty-five observations saved by the form and a date filter that
    only the newest passes: one expander, and all twenty-five
    exported. *)
Lemma export_holds_every_observation_witness :
  rendered (fst (observations_log string String.eqb sample_fromisoformat
                   sample_strftime sample_repr sample_characters
                   sample_dict_keys (fun k _ => k) sample_icon "English"
                   sample_observations "Amina" (Some "2024-05-25") false
                   true))
  = [ sample_observation 25 ] /\
  exported (fst (observations_log string String.eqb sample_fromisoformat
                   sample_strftime sample_repr sample_characters
                   sample_dict_keys (fun k _ => k) sample_icon "English"
                   sample_observations "Amina" (Some "2024-05-25") false
                   true))
  = [ sort_by_date_desc sample_observations ].
Proof.
  split; [vm_compute; reflexivity |].
  destruct (export_holds_every_observation string String.eqb
              sample_fromisoformat sample_strftime sample_repr
              sample_characters sample_dict_keys (fun k _ => k) sample_icon
              "English" sample_observations "Amina" (Some "2024-05-25")
              false)
    as (_ & Hok & _).
  - discriminate.
  - apply Hok. vm_compute. reflexivity.
Defined.

End ProgressFacts.

(** ** Facts about logins on arbitrary users files *)

Module SessionFacts.
Import Py UI Auth Access Session.

Lemma authenticate_loop_granted (u p : string) (items : list json)
    (w w' : world) :
  authenticate_loop u p items w = (Ok true, w') ->
  exists fields role,
    In (JObj fields) items /\
    fields !! "username" = Some (JStr u) /\
    fields !! "password" = Some (JStr p) /\
    fields !! "role" = Some role /\
    w' = granted u role w.
Proof.
  revert w. induction items as [| user rest IH]; intros w.
  - cbn. discriminate.
  - assert (Hrest : authenticate_loop u p rest w = (Ok true, w') ->
              exists fields role,
                In (JObj fields) (user :: rest) /\
                fields !! "username" = Some (JStr u) /\
                fields !! "password" = Some (JStr p) /\
                fields !! "role" = Some role /\
                w' = granted u role w).
    { intros H. destruct (IH _ H) as (fields & role & Hin & Hrec).
      exists fields, role. split; [right; exact Hin | exact Hrec]. }
    cbn [authenticate_loop]. unfold bind at 1.
    destruct user as [| | | | | | fields]; cbn [subscript];
      try (unfold raise; discriminate).
    destruct (fields !! "username") as [name |] eqn:Hn;
      [| unfold raise; discriminate].
    unfold ret at 1. unfold bind at 1.
    destruct name as [| | | | s | |]; cbn [eq_str];
      try (unfold ret at 1; exact Hrest).
    destruct (String.eqb s u) eqn:Hs; [| unfold ret at 1; exact Hrest].
    unfold bind at 1.
    destruct (fields !! "password") as [pw |] eqn:Hp;
      [| unfold raise; discriminate].
    unfold ret at 1 2.
    destruct pw as [| | | | s' | |]; cbn [eq_str]; try exact Hrest.
    destruct (String.eqb s' p) eqn:Hs'; [| exact Hrest].
    apply String.eqb_eq in Hs, Hs'. subst s s'.
    unfold bind, session_set, subscript, ret.
    destruct (fields !! "role") as [role |] eqn:Hr;
      [| unfold raise; discriminate].
    intros [= <-]. exists fields, role.
    split; [left; reflexivity |]. repeat split; assumption.
Qed.

(** X9: whatever the users file holds, also outside its declared shape, a
    granted login comes from a stored record whose [username] and
    [password] are the supplied strings; the session is then
    authenticated under that name with that record's role, of whatever
    JSON type it is. *)
Theorem granted_login_has_record (u p : string) (w w' : world) :
  authenticate_user u p w = (Ok true, w') ->
  exists fields role,
    In (JObj fields) (stored_records (users_json w')) /\
    fields !! "username" = Some (JStr u) /\
    fields !! "password" = Some (JStr p) /\
    fields !! "role" = Some role /\
    is_authenticated w' = JBool true /\
    session_state w' !! "username" = Some (JStr u) /\
    get_user_role w' = role.
Proof.
  assert (Hloop : forall items w0,
            authenticate_loop u p items w0 = (Ok true, w') ->
            stored_records (users_json w0) = items ->
            exists fields role,
              In (JObj fields) (stored_records (users_json w')) /\
              fields !! "username" = Some (JStr u) /\
              fields !! "password" = Some (JStr p) /\
              fields !! "role" = Some role /\
              is_authenticated w' = JBool true /\
              session_state w' !! "username" = Some (JStr u) /\
              get_user_role w' = role).
  { intros items w0 Hrun Hfile.
    destruct (authenticate_loop_granted u p items w0 w' Hrun)
      as (fields & role & Hin & Hn & Hp & Hr & ->).
    exists fields, role. cbn [granted users_json]. rewrite Hfile.
    unfold is_authenticated, get_user_role. cbn [granted session_state].
    rewrite lookup_insert_eq.
    rewrite (lookup_insert_ne _ "role" "authenticated") by discriminate.
    rewrite (lookup_insert_ne _ "username" "authenticated") by discriminate.
    rewrite (lookup_insert_ne _ "role" "username") by discriminate.
    rewrite !lookup_insert_eq. repeat split; assumption. }
  assert (Hstr : forall (l : list string) w0,
            authenticate_loop u p (map JStr l) w0 <> (Ok true, w')).
  { intros l w0 Hrun.
    destruct (authenticate_loop_granted u p _ w0 w' Hrun)
      as (fields & role & Hin & _).
    apply in_map_iff in Hin as (k & Hk & _). discriminate Hk. }
  destruct w as [d f ss sh].
  unfold authenticate_user, _load_users, bind,
    ensure_data_dir, read_users_file, write_users, emit, ret.
  cbn [users_json data_dir session_state shown].
  destruct f as [| | [v | | msg]].
  - intros Hrun. exact (Hloop _ _ Hrun eq_refl).
  - intros Hrun. exact (Hloop _ _ Hrun eq_refl).
  - destruct v as [| | | | s | items | fields]; cbn [iterate];
      unfold raise, ret; try discriminate.
    + intros Hrun. destruct (Hstr _ _ Hrun).
    + intros Hrun. exact (Hloop _ _ Hrun eq_refl).
    + intros Hrun. rewrite <- (map_map fst JStr) in Hrun.
      destruct (Hstr _ _ Hrun).
  - cbn. discriminate.
  - cbn. discriminate.
Qed.

Lemma granted_login_has_record_witness :
  exists fields,
    In (JObj fields) (stored_records (users_json numeric_role_world)) /\
    fields !! "role" = Some (JInt 7) /\
    get_user_role (granted "guest" (JInt 7) numeric_role_world) = JInt 7.
Proof.
  destruct (granted_login_has_record "guest" "letmein" numeric_role_world
              (granted "guest" (JInt 7) numeric_role_world))
    as (fields & role & Hin & _ & _ & Hr & _ & _ & Hrole).
  - vm_compute. reflexivity.
  - exists fields. split; [exact Hin |].
    assert (Hseven : role = JInt 7) by (rewrite <- Hrole; reflexivity).
    rewrite <- Hseven at 1. split; [exact Hr | reflexivity].
Defined.

Lemma authenticate_loop_skip (u p : string) (pre rest : list json) (w : world) :
  Forall wf_user pre ->
  Forall (fun x => ~ has_credentials u p x) pre ->
  authenticate_loop u p (pre ++ rest) w = authenticate_loop u p rest w.
Proof.
  induction 1 as [| rec pre Hrec _ IH]; intros Hno; [reflexivity |].
  inversion Hno as [| ? ? Hhd Htl]; subst.
  destruct (AuthFacts.wf_user_inv rec Hrec)
    as (fields & n & pw & r & -> & Hn & Hp & Hr).
  cbn [app].
  rewrite (AuthFacts.authenticate_loop_cons u p fields n pw r _ w Hn Hp Hr).
  destruct (String.eqb n u && String.eqb pw p) eqn:Hm.
  - destruct Hhd.
    apply (AuthFacts.has_credentials_obj u p n pw fields Hn Hp). exact Hm.
  - apply IH, Htl.
Qed.

(** X10: when the first record with the supplied credentials has no [role],
    the login raises [KeyError] after the session was marked: the session
    is authenticated under the supplied name, its role is the one it had
    before, and the dashboard and the pages that only ask for a login are
    open. *)
Theorem role_less_record_opens_session (u p : string) (w : world)
    (pre post : list json) (fields : gmap string json) :
  users_json w = Stored (Decodes (JArr (pre ++ JObj fields :: post))) ->
  Forall wf_user pre ->
  Forall (fun x => ~ has_credentials u p x) pre ->
  fields !! "username" = Some (JStr u) ->
  fields !! "password" = Some (JStr p) ->
  fields !! "role" = None ->
  authenticate_user u p w = (Raise "KeyError: role", marked u (loaded w)) /\
  is_authenticated (marked u (loaded w)) = JBool true /\
  get_user_role (marked u (loaded w)) = get_user_role w /\
  app_main (marked u (loaded w)) = Dashboard /\
  prediction_guard (marked u (loaded w)) = Enter /\
  educational_content_guard (marked u (loaded w)) = Enter.
Proof.
  intros Hfile Hwf Hno Hn Hp Hr.
  assert (Hauth : is_authenticated (marked u (loaded w)) = JBool true).
  { unfold is_authenticated. cbn [marked session_state].
    rewrite lookup_insert_ne by discriminate. rewrite lookup_insert_eq.
    reflexivity. }
  split; [| split; [exact Hauth | split]].
  - destruct w as [d f ss sh]. cbn [users_json] in Hfile. subst f.
    set (w1 := {| data_dir := true;
                  users_json :=
                    Stored (Decodes (JArr (pre ++ JObj fields :: post)));
                  session_state := ss; shown := sh |}).
    change (loaded _) with w1.
    change (authenticate_user u p _)
      with (authenticate_loop u p (pre ++ JObj fields :: post) w1).
    rewrite (authenticate_loop_skip u p pre _ _ Hwf Hno).
    cbn [authenticate_loop].
    unfold bind, subscript, session_set, ret, raise, marked.
    rewrite Hn, Hp, Hr. cbn [eq_str]. rewrite !String.eqb_refl.
    reflexivity.
  - unfold get_user_role. cbn [marked session_state].
    rewrite !lookup_insert_ne by discriminate.
    rewrite AccessFacts.session_loaded. reflexivity.
  - unfold app_main, prediction_guard, educational_content_guard.
    rewrite Hauth. repeat split; reflexivity.
Qed.

Lemma role_less_record_opens_session_witness :
  authenticate_user "guest" "letmein" role_less_world
  = (Raise "KeyError: role", marked "guest" (loaded role_less_world)) /\
  teacher_resources_guard (marked "guest" (loaded role_less_world)) = Enter /\
  parent_tracker_guard (marked "guest" (loaded role_less_world)) = Enter.
Proof.
  split; [| split; vm_compute; reflexivity].
  apply (role_less_record_opens_session "guest" "letmein" role_less_world
           [ user_record "teacher1" "password123" "teacher" ] []
           (<["username" := JStr "guest"]>
            (<["password" := JStr "letmein"]> ∅))).
  - reflexivity.
  - constructor; [| constructor].
    exists "teacher1", "password123", "teacher".
    repeat split; vm_compute; reflexivity.
  - constructor; [| constructor].
    intros [Hu _]. vm_compute in Hu. discriminate Hu.
  - vm_compute. reflexivity.
  - vm_compute. reflexivity.
  - vm_compute. reflexivity.
Defined.

(** X11: [_load_users] never overwrites a users file that has content, not
    even one it cannot read, and it leaves the session alone.  It settles
    after one call: a second call returns the same list and leaves the
    same file, and when the file decodes it changes nothing at all. *)
Theorem load_users_settles (w : world) :
  (forall c, users_json w = Stored c -> users_json (loaded w) = Stored c) /\
  session_state (loaded w) = session_state w /\
  fst (_load_users (loaded w)) = fst (_load_users w) /\
  users_json (loaded (loaded w)) = users_json (loaded w) /\
  ((exists v, users_json (loaded w) = Stored (Decodes v)) ->
   loaded (loaded w) = loaded w).
Proof.
  destruct w as [d f ss sh].
  unfold loaded, _load_users, bind, ensure_data_dir, read_users_file,
    write_users, emit, ret.
  cbn [users_json data_dir session_state shown].
  destruct f as [| | [v | | msg]];
    cbn [fst snd users_json session_state data_dir shown];
    (split; [intros c Hc; first [discriminate Hc | exact Hc] |]);
    (split; [reflexivity |]); (split; [reflexivity |]);
    (split; [reflexivity |]);
    intros [v' Hv']; first [discriminate Hv' | reflexivity].
Qed.

End SessionFacts.
